(** * Command-buffer and swapchain validation state: a shallow embedding

    Embedding of [layers/cmd_buffer_state.h] (queue-family-ownership
    classification of barriers, pipeline binding) and of
    [layers/wsi_validation.cpp] (swapchain acquire / present / destroy
    validation) together with the properties the specification states
    about them.

    Conventions.
    - [uint32_t], [uint64_t] and [int32_t] values are integers of [Z]; the
      wrap-around of unsigned arithmetic is written out with [wrap32].
    - Non-dispatchable Vulkan handles are integers of [Z]; [0] is
      [VK_NULL_HANDLE].
    - A validation function returns the [skip] flag together with the list
      of records it passed to [LogError], in call order.  A computation has
      no result ([None]) when the C++ code would read past the end of an
      array, dereference a null state pointer or fail an [assert]. *)

From Stdlib Require Import ZArith List Bool String Lia SpecFloat.
From stdpp Require Import base option list gmap strings vector pretty.

Import ListNotations.

(** ** Fixed-width integers *)

Definition UINT32_MAX : Z := 4294967295.
Definition UINT64_MAX : Z := 18446744073709551615.

(** Reduction of an integer to its [uint32_t] representative. *)
Definition wrap32 (z : Z) : Z := (z mod 4294967296)%Z.

(** ** Handles *)

Definition VkHandle := Z.
Bind Scope Z_scope with VkHandle.
Definition VK_NULL_HANDLE : VkHandle := 0%Z.

(** * [cmd_buffer_state.h] *)

(** [COMMAND_POOL_STATE]: the data members read by the command buffer. *)
Record COMMAND_POOL_STATE := {
  createFlags : Z;
  queueFamilyIndex : Z;
  queue_flags : Z;
  pool_unprotected : bool
}.

Inductive CB_STATE :=
| CB_NEW
| CB_RECORDING
| CB_RECORDED
| CB_INVALID_COMPLETE
| CB_INVALID_INCOMPLETE.

(** [LvlBindPoint]: the index type of [lastBound]; [BindPoint_Count] is the
    number of enumerators.  The enumeration is declared outside the header;
    the specification names the three bind points. *)
Inductive LvlBindPoint :=
| BindPoint_Graphics
| BindPoint_Compute
| BindPoint_Ray_Tracing.

Definition BindPoint_Count : nat := 3.

Definition bind_point_index (bp : LvlBindPoint) : fin BindPoint_Count :=
  match bp with
  | BindPoint_Graphics => 0%fin
  | BindPoint_Compute => 1%fin
  | BindPoint_Ray_Tracing => 2%fin
  end.

(** [LAST_BOUND_STATE]: what is bound at one bind point.  [pipeline_state] is
    a [PIPELINE_STATE *]; the address [0] is [nullptr]. *)
Record LAST_BOUND_STATE := {
  pipeline_state : Z;
  pipeline_layout : VkHandle;
  push_descriptor_set : Z;
  per_set : list Z
}.

(** The members of the Vulkan structures kept by a command buffer that the
    layer reads back. *)
Record VkCommandBufferAllocateInfo := {
  commandPool : VkHandle;
  level : Z;
  commandBufferCount : Z
}.

Record VkCommandBufferBeginInfo := { begin_flags : Z }.

Record VkCommandBufferInheritanceInfo := {
  renderPass : VkHandle;
  subpass : Z;
  framebuffer : VkHandle
}.

(** A [VkViewport]: the bit patterns of its six [float] members. *)
Definition VkViewport : Type := (Z * Z * Z * Z * Z * Z)%type.

(** A [QueryObject]: query pool and query index. *)
Definition QueryObject : Type := (VkHandle * Z)%type.

(** A recorded [std::function]: deferred validation is kept as the identity
    of the callable. *)
Definition Callback : Type := Z.

(** [BufferBinding]; [buffer_state] is a shared pointer, [None] when null. *)
Record BufferBinding := {
  buffer_state : option VkHandle;
  binding_size : Z;
  binding_offset : Z;
  binding_stride : Z
}.

Record IndexBufferBinding := {
  index_binding : BufferBinding;
  index_type : Z
}.

(** The members of a barrier structure that the primary templates of
    [IsReleaseOp] and [IsAcquireOp] read. *)
Record QueueFamilyIndices := {
  srcQueueFamilyIndex : Z;
  dstQueueFamilyIndex : Z
}.

(** The recorded queue-family-ownership transfers of [qfo_transfer.h]. *)
Record QFOBufferTransferBarrier := {
  qfo_buffer : VkHandle;
  qfo_buffer_families : QueueFamilyIndices;
  qfo_offset : Z;
  qfo_size : Z
}.

Record QFOImageTransferBarrier := {
  qfo_handle : VkHandle;
  qfo_families : QueueFamilyIndices;
  oldLayout : Z;
  newLayout : Z
}.

Record QFOTransferBarrierSets (TransferBarrier : Type) := {
  release : list TransferBarrier;
  acquire : list TransferBarrier
}.
Arguments release {TransferBarrier} _.
Arguments acquire {TransferBarrier} _.

(** [CMD_BUFFER_STATE]: the data members of the class, in declaration order
    ([createInfo_cb] is the member [createInfo]).  A shared pointer to a state
    object is the handle of that object, [None] when null; a hashed set or
    map is the list of its entries.  The device back-pointer and the lock
    carry no recorded state and are left out. *)
Record CMD_BUFFER_STATE := {
  createInfo_cb : VkCommandBufferAllocateInfo;
  beginInfo : VkCommandBufferBeginInfo;
  inheritanceInfo : VkCommandBufferInheritanceInfo;
  command_pool : COMMAND_POOL_STATE;
  unprotected : bool;
  hasRenderPassInstance : bool;
  suspendsRenderPassInstance : bool;
  resumesRenderPassInstance : bool;
  has_draw_cmd : bool;
  has_dispatch_cmd : bool;
  has_trace_rays_cmd : bool;
  has_build_as_cmd : bool;
  state : CB_STATE;
  commandCount : Z;
  submitCount : Z;
  pipeline_bound : bool;
  commands_since_begin_rendering : Z;
  image_layout_change_count : Z;
  status : Z;
  static_status : Z;
  dynamic_status : Z;
  begin_rendering_func_name : string;
  lastBound : vec LAST_BOUND_STATE BindPoint_Count;
  validate_descriptorsets_in_queuesubmit : list (VkHandle * list Z);
  inheritedViewportDepths : list VkViewport;
  usedViewportScissorCount : Z;
  pipelineStaticViewportCount : Z;
  pipelineStaticScissorCount : Z;
  viewportMask : Z;
  viewportWithCountMask : Z;
  viewportWithCountCount : Z;
  scissorMask : Z;
  scissorWithCountMask : Z;
  scissorWithCountCount : Z;
  dynamicViewports : list VkViewport;
  trashedViewportMask : Z;
  trashedScissorMask : Z;
  trashedViewportCount : bool;
  trashedScissorCount : bool;
  usedDynamicViewportCount : bool;
  usedDynamicScissorCount : bool;
  initial_device_mask : Z;
  primitiveTopology : Z;
  rasterization_disabled : bool;
  activeRenderPassBeginInfo : option VkHandle;
  activeRenderPass : option VkHandle;
  active_subpasses : option (list Z);
  active_attachments : option (list VkHandle);
  attachments_view_states : list VkHandle;
  activeSubpassContents : Z;
  active_render_pass_device_mask : Z;
  activeSubpass : Z;
  activeFramebuffer : option VkHandle;
  framebuffers : list VkHandle;
  object_bindings : list VkHandle;
  broken_bindings : list (VkHandle * list VkHandle);
  qfo_transfer_buffer_barriers :
    QFOTransferBarrierSets QFOBufferTransferBarrier;
  qfo_transfer_image_barriers : QFOTransferBarrierSets QFOImageTransferBarrier;
  waitedEvents : list VkHandle;
  writeEventsBeforeWait : list VkHandle;
  events : list VkHandle;
  activeQueries : list QueryObject;
  startedQueries : list QueryObject;
  resetQueries : list QueryObject;
  updatedQueries : list QueryObject;
  image_layout_map : list (VkHandle * list (Z * Z));
  aliased_image_layout_map : list (VkHandle * list (Z * Z));
  current_vertex_buffer_binding_info : list BufferBinding;
  vertex_buffer_used : bool;
  primaryCommandBuffer : VkHandle;
  linkedCommandBuffers : list VkHandle;
  queue_submit_functions : list Callback;
  queue_submit_functions_after_render_pass : list Callback;
  cmd_execute_commands_functions : list Callback;
  eventUpdates : list Callback;
  queryUpdates : list Callback;
  validated_descriptor_sets : list VkHandle;
  descriptorset_cache : list (VkHandle * Z);
  index_buffer_binding : IndexBufferBinding;
  performance_lock_acquired : bool;
  performance_lock_released : bool;
  debug_label : string;
  push_constant_data : list Z;
  push_constant_data_ranges : Z;
  push_constant_data_update : list (Z * list Z);
  push_constant_pipeline_layout_set : VkHandle;
  small_indexed_draw_call_count : Z;
  transform_feedback_active : bool;
  conditional_rendering_active : bool;
  conditional_rendering_inside_render_pass : bool;
  conditional_rendering_subpass : Z;
  dynamicColorWriteEnableAttachmentCount : Z
}.

(** The barrier types the two templates are instantiated at.  The last three
    have no queue-family members; the header gives them explicit
    specializations. *)
Inductive Barrier :=
| BufferMemoryBarrier (q : QueueFamilyIndices)
| ImageMemoryBarrier (q : QueueFamilyIndices)
| BufferMemoryBarrier2KHR (q : QueueFamilyIndices)
| ImageMemoryBarrier2KHR (q : QueueFamilyIndices)
| MemoryBarrier
| MemoryBarrier2KHR
| SubpassDependency2.

(** The queue-family members of a barrier, when its type has them. *)
Definition barrier_families (b : Barrier) : option QueueFamilyIndices :=
  match b with
  | BufferMemoryBarrier q | ImageMemoryBarrier q
  | BufferMemoryBarrier2KHR q | ImageMemoryBarrier2KHR q => Some q
  | MemoryBarrier | MemoryBarrier2KHR | SubpassDependency2 => None
  end.

(** Queue-family sentinels of [vulkan_core.h]. *)
Definition VK_QUEUE_FAMILY_IGNORED : Z := 4294967295.
Definition VK_QUEUE_FAMILY_EXTERNAL : Z := 4294967294.
Definition VK_QUEUE_FAMILY_FOREIGN_EXT : Z := 4294967293.

Definition QueueFamilyIsSentinel (f : Z) : bool :=
  (f =? VK_QUEUE_FAMILY_IGNORED)%Z || (f =? VK_QUEUE_FAMILY_EXTERNAL)%Z
  || (f =? VK_QUEUE_FAMILY_FOREIGN_EXT)%Z.

(** Modelled from the spec: [IsTransferOp] of [qfo_transfer.h], which is not
    part of the sources at hand.  The specification says that a barrier with
    no family change (source equal to destination, or either family being the
    external or ignored sentinel) is never a release or an acquire. *)
Definition IsTransferOp_spec (q : QueueFamilyIndices) : bool :=
  negb (srcQueueFamilyIndex q =? dstQueueFamilyIndex q)%Z
  && negb (QueueFamilyIsSentinel (srcQueueFamilyIndex q))
  && negb (QueueFamilyIsSentinel (dstQueueFamilyIndex q)).

Section QFOClassification.

(** [IsTransferOp] is declared in [qfo_transfer.h]; the two members below
    are written against any implementation of it. *)
Variable IsTransferOp : QueueFamilyIndices -> bool.

Definition IsReleaseOp (cb : CMD_BUFFER_STATE) (barrier : Barrier) : bool :=
  match barrier with
  | MemoryBarrier | MemoryBarrier2KHR | SubpassDependency2 => false
  | BufferMemoryBarrier q | ImageMemoryBarrier q
  | BufferMemoryBarrier2KHR q | ImageMemoryBarrier2KHR q =>
      IsTransferOp q
      && (queueFamilyIndex (command_pool cb) =? srcQueueFamilyIndex q)%Z
  end.

Definition IsAcquireOp (cb : CMD_BUFFER_STATE) (barrier : Barrier) : bool :=
  match barrier with
  | MemoryBarrier | MemoryBarrier2KHR | SubpassDependency2 => false
  | BufferMemoryBarrier q | ImageMemoryBarrier q
  | BufferMemoryBarrier2KHR q | ImageMemoryBarrier2KHR q =>
      IsTransferOp q
      && (queueFamilyIndex (command_pool cb) =? dstQueueFamilyIndex q)%Z
  end.

End QFOClassification.

(** [lastBound[bind_point].pipeline_state = pipe_state]. *)
Definition set_pipeline_state (pipe_state : Z) (lb : LAST_BOUND_STATE)
  : LAST_BOUND_STATE :=
  {| pipeline_state := pipe_state;
     pipeline_layout := pipeline_layout lb;
     push_descriptor_set := push_descriptor_set lb;
     per_set := per_set lb |}.

Definition BindPipeline (bind_point : LvlBindPoint) (pipe_state : Z)
    (cb : CMD_BUFFER_STATE) : CMD_BUFFER_STATE :=
  let i := bind_point_index bind_point in
  {| createInfo_cb := createInfo_cb cb;
     beginInfo := beginInfo cb;
     inheritanceInfo := inheritanceInfo cb;
     command_pool := command_pool cb;
     unprotected := unprotected cb;
     hasRenderPassInstance := hasRenderPassInstance cb;
     suspendsRenderPassInstance := suspendsRenderPassInstance cb;
     resumesRenderPassInstance := resumesRenderPassInstance cb;
     has_draw_cmd := has_draw_cmd cb;
     has_dispatch_cmd := has_dispatch_cmd cb;
     has_trace_rays_cmd := has_trace_rays_cmd cb;
     has_build_as_cmd := has_build_as_cmd cb;
     state := state cb;
     commandCount := commandCount cb;
     submitCount := submitCount cb;
     pipeline_bound := true;
     commands_since_begin_rendering := commands_since_begin_rendering cb;
     image_layout_change_count := image_layout_change_count cb;
     status := status cb;
     static_status := static_status cb;
     dynamic_status := dynamic_status cb;
     begin_rendering_func_name := begin_rendering_func_name cb;
     lastBound :=
       vinsert i (set_pipeline_state pipe_state (lastBound cb !!! i))
         (lastBound cb);
     validate_descriptorsets_in_queuesubmit :=
       validate_descriptorsets_in_queuesubmit cb;
     inheritedViewportDepths := inheritedViewportDepths cb;
     usedViewportScissorCount := usedViewportScissorCount cb;
     pipelineStaticViewportCount := pipelineStaticViewportCount cb;
     pipelineStaticScissorCount := pipelineStaticScissorCount cb;
     viewportMask := viewportMask cb;
     viewportWithCountMask := viewportWithCountMask cb;
     viewportWithCountCount := viewportWithCountCount cb;
     scissorMask := scissorMask cb;
     scissorWithCountMask := scissorWithCountMask cb;
     scissorWithCountCount := scissorWithCountCount cb;
     dynamicViewports := dynamicViewports cb;
     trashedViewportMask := trashedViewportMask cb;
     trashedScissorMask := trashedScissorMask cb;
     trashedViewportCount := trashedViewportCount cb;
     trashedScissorCount := trashedScissorCount cb;
     usedDynamicViewportCount := usedDynamicViewportCount cb;
     usedDynamicScissorCount := usedDynamicScissorCount cb;
     initial_device_mask := initial_device_mask cb;
     primitiveTopology := primitiveTopology cb;
     rasterization_disabled := rasterization_disabled cb;
     activeRenderPassBeginInfo := activeRenderPassBeginInfo cb;
     activeRenderPass := activeRenderPass cb;
     active_subpasses := active_subpasses cb;
     active_attachments := active_attachments cb;
     attachments_view_states := attachments_view_states cb;
     activeSubpassContents := activeSubpassContents cb;
     active_render_pass_device_mask := active_render_pass_device_mask cb;
     activeSubpass := activeSubpass cb;
     activeFramebuffer := activeFramebuffer cb;
     framebuffers := framebuffers cb;
     object_bindings := object_bindings cb;
     broken_bindings := broken_bindings cb;
     qfo_transfer_buffer_barriers := qfo_transfer_buffer_barriers cb;
     qfo_transfer_image_barriers := qfo_transfer_image_barriers cb;
     waitedEvents := waitedEvents cb;
     writeEventsBeforeWait := writeEventsBeforeWait cb;
     events := events cb;
     activeQueries := activeQueries cb;
     startedQueries := startedQueries cb;
     resetQueries := resetQueries cb;
     updatedQueries := updatedQueries cb;
     image_layout_map := image_layout_map cb;
     aliased_image_layout_map := aliased_image_layout_map cb;
     current_vertex_buffer_binding_info :=
       current_vertex_buffer_binding_info cb;
     vertex_buffer_used := vertex_buffer_used cb;
     primaryCommandBuffer := primaryCommandBuffer cb;
     linkedCommandBuffers := linkedCommandBuffers cb;
     queue_submit_functions := queue_submit_functions cb;
     queue_submit_functions_after_render_pass :=
       queue_submit_functions_after_render_pass cb;
     cmd_execute_commands_functions := cmd_execute_commands_functions cb;
     eventUpdates := eventUpdates cb;
     queryUpdates := queryUpdates cb;
     validated_descriptor_sets := validated_descriptor_sets cb;
     descriptorset_cache := descriptorset_cache cb;
     index_buffer_binding := index_buffer_binding cb;
     performance_lock_acquired := performance_lock_acquired cb;
     performance_lock_released := performance_lock_released cb;
     debug_label := debug_label cb;
     push_constant_data := push_constant_data cb;
     push_constant_data_ranges := push_constant_data_ranges cb;
     push_constant_data_update := push_constant_data_update cb;
     push_constant_pipeline_layout_set := push_constant_pipeline_layout_set cb;
     small_indexed_draw_call_count := small_indexed_draw_call_count cb;
     transform_feedback_active := transform_feedback_active cb;
     conditional_rendering_active := conditional_rendering_active cb;
     conditional_rendering_inside_render_pass :=
       conditional_rendering_inside_render_pass cb;
     conditional_rendering_subpass := conditional_rendering_subpass cb;
     dynamicColorWriteEnableAttachmentCount :=
       dynamicColorWriteEnableAttachmentCount cb |}.

(** [GetCurrentPipeline], after [ConvertToLvlBindPoint]. *)
Definition GetCurrentPipeline (cb : CMD_BUFFER_STATE) (bp : LvlBindPoint) : Z :=
  pipeline_state (lastBound cb !!! bind_point_index bp).

(** * [wsi_validation.cpp] *)

Local Open Scope string_scope.
Local Open Scope list_scope.

(** ** Vulkan structures and enumerators read by the validation code *)

(** [VkImageLayout] enumerators of [vulkan_core.h]. *)
Definition VkImageLayout := Z.
Bind Scope Z_scope with VkImageLayout.
Definition VK_IMAGE_LAYOUT_PRESENT_SRC_KHR : VkImageLayout := 1000001002%Z.
Definition VK_IMAGE_LAYOUT_SHARED_PRESENT_KHR : VkImageLayout := 1000111000%Z.

(** [VkSurfaceTransformFlagBitsKHR] enumerators of [vulkan_core.h]. *)
Definition VK_SURFACE_TRANSFORM_IDENTITY_BIT_KHR : Z := 1.
Definition VK_SURFACE_TRANSFORM_ROTATE_90_BIT_KHR : Z := 2.
Definition VK_SURFACE_TRANSFORM_ROTATE_180_BIT_KHR : Z := 4.
Definition VK_SURFACE_TRANSFORM_ROTATE_270_BIT_KHR : Z := 8.
Definition VK_SURFACE_TRANSFORM_HORIZONTAL_MIRROR_BIT_KHR : Z := 16.
Definition VK_SURFACE_TRANSFORM_HORIZONTAL_MIRROR_ROTATE_90_BIT_KHR : Z := 32.
Definition VK_SURFACE_TRANSFORM_HORIZONTAL_MIRROR_ROTATE_180_BIT_KHR : Z := 64.
Definition VK_SURFACE_TRANSFORM_HORIZONTAL_MIRROR_ROTATE_270_BIT_KHR : Z := 128.
Definition VK_SURFACE_TRANSFORM_INHERIT_BIT_KHR : Z := 256.

Definition VK_SEMAPHORE_TYPE_BINARY : Z := 0.
Definition VK_SEMAPHORE_TYPE_TIMELINE : Z := 1.

Inductive SyncScope :=
| kSyncScopeInternal
| kSyncScopeExternalTemporary
| kSyncScopeExternalPermanent.

Inductive AcquireVersion :=
| ACQUIRE_VERSION_1
| ACQUIRE_VERSION_2.

Record VkExtent2D := { width : Z; height : Z }.

(** [x] and [y] are [int32_t]. *)
Record VkOffset2D := { x : Z; y : Z }.

Record VkRect2D := { rect2d_offset : VkOffset2D; rect2d_extent : VkExtent2D }.

Record VkRectLayerKHR := {
  offset : VkOffset2D;
  extent : VkExtent2D;
  layer : Z
}.

Record VkPresentRegionKHR := {
  rectangleCount : nat;
  pRectangles : list VkRectLayerKHR
}.

Module VkPresentRegionsKHR.
Record t := { swapchainCount : nat; pRegions : list VkPresentRegionKHR }.
End VkPresentRegionsKHR.

Module VkPresentTimesInfoGOOGLE.
Record t := { swapchainCount : nat }.
End VkPresentTimesInfoGOOGLE.

Module VkPresentIdKHR.
Record t := { swapchainCount : nat; pPresentIds : list Z }.
End VkPresentIdKHR.

Record VkDisplayPresentInfoKHR := {
  srcRect : VkRect2D;
  dstRect : VkRect2D;
  persistent : bool
}.

(** One structure of a [pNext] chain. *)
Inductive PNextStruct :=
| PNext_VkDisplayPresentInfoKHR (s : VkDisplayPresentInfoKHR)
| PNext_VkPresentRegionsKHR (s : VkPresentRegionsKHR.t)
| PNext_VkPresentTimesInfoGOOGLE (s : VkPresentTimesInfoGOOGLE.t)
| PNext_VkPresentIdKHR (s : VkPresentIdKHR.t)
| PNext_Other (sType : Z).

(** [LvlFindInChain<T>]: the first structure of type [T] in the chain; the
    argument selects the type. *)
Fixpoint LvlFindInChain {T : Type} (select : PNextStruct -> option T)
    (pNext : list PNextStruct) : option T :=
  match pNext with
  | [] => None
  | s :: rest =>
      match select s with
      | Some t => Some t
      | None => LvlFindInChain select rest
      end
  end.

Definition as_VkDisplayPresentInfoKHR (s : PNextStruct) :=
  match s with PNext_VkDisplayPresentInfoKHR t => Some t | _ => None end.
Definition as_VkPresentRegionsKHR (s : PNextStruct) :=
  match s with PNext_VkPresentRegionsKHR t => Some t | _ => None end.
Definition as_VkPresentTimesInfoGOOGLE (s : PNextStruct) :=
  match s with PNext_VkPresentTimesInfoGOOGLE t => Some t | _ => None end.
Definition as_VkPresentIdKHR (s : PNextStruct) :=
  match s with PNext_VkPresentIdKHR t => Some t | _ => None end.

Module VkPresentInfoKHR.
Record t := {
  pNext : list PNextStruct;
  waitSemaphoreCount : nat;
  pWaitSemaphores : list VkHandle;
  swapchainCount : nat;
  pSwapchains : list VkHandle;
  pImageIndices : list Z
}.
End VkPresentInfoKHR.

Record VkSurfaceCapabilitiesKHR := {
  minImageCount : Z;
  maxImageCount : Z;
  currentTransform : Z;
  supportedTransforms : Z
}.

(** [VkSurfaceCapabilitiesKHR caps{}]. *)
Definition VkSurfaceCapabilitiesKHR_zero : VkSurfaceCapabilitiesKHR :=
  {| minImageCount := 0; maxImageCount := 0;
     currentTransform := 0; supportedTransforms := 0 |}.

(** [VkSwapchainCreateInfoKHR]; [create_flags] and [create_minImageCount] are
    the members [flags] and [minImageCount]. *)
Record VkSwapchainCreateInfoKHR := {
  create_flags : Z;
  surface : VkHandle;
  create_minImageCount : Z;
  imageFormat : Z;
  imageColorSpace : Z;
  imageExtent : VkExtent2D;
  imageArrayLayers : Z;
  imageUsage : Z;
  imageSharingMode : Z;
  preTransform : Z;
  compositeAlpha : Z;
  presentMode : Z;
  clipped : bool;
  oldSwapchain : VkHandle
}.

(** ** State objects

    The classes are declared in headers of the layer that are not among the
    sources at hand; each record holds the members the validation code
    reads. *)

(** [IMAGE_STATE]: [image ()] and [createInfo.extent]. *)
Record IMAGE_STATE := {
  image : VkHandle;
  image_extent : VkExtent2D
}.

Record SWAPCHAIN_IMAGE := {
  image_state : option IMAGE_STATE;
  acquired : bool
}.

(** [SURFACE_STATE]: the two queries are taken at the physical device of the
    validated device. *)
Record SURFACE_STATE := {
  surface_handle : VkHandle;
  GetCapabilities : VkSurfaceCapabilitiesKHR;
  GetQueueSupport : Z -> bool;
  surface_swapchain : option VkHandle
}.

(** [SWAPCHAIN_NODE]; [swapchain_surface] is the member [surface]. *)
Record SWAPCHAIN_NODE := {
  createInfo : VkSwapchainCreateInfoKHR;
  retired : bool;
  images : list SWAPCHAIN_IMAGE;
  acquired_images : Z;
  max_present_id : Z;
  swapchain_surface : option SURFACE_STATE
}.

Record SEMAPHORE_STATE := {
  semaphore_type : Z;
  Scope : SyncScope;
  CanBeSignaled : bool
}.

Record FENCE_STATE := {
  fence_scope : SyncScope;
  fence_signaled : bool
}.

(** [QUEUE_STATE]; [queue_family] is the member [queueFamilyIndex]. *)
Record QUEUE_STATE := { queue_family : Z }.

(** The state-tracker base object: enabled extensions and features, the
    handle registry ([Get<T>]) and the physical-device data that is read. *)
Record ValidationStateTracker := {
  device : VkHandle;
  vk_khr_android_surface : bool;
  vk_google_surfaceless_query : bool;
  vk_khr_shared_presentable_image : bool;
  presentId : bool;
  presentWait : bool;
  surfaceless_query_capabilities : VkSurfaceCapabilitiesKHR;
  queue_family_properties : list Z;
  swapchain_map : gmap Z SWAPCHAIN_NODE;
  surface_map : gmap Z SURFACE_STATE;
  semaphore_map : gmap Z SEMAPHORE_STATE;
  fence_map : gmap Z FENCE_STATE;
  queue_map : gmap Z QUEUE_STATE
}.

Record CoreChecks := {
  tracker : ValidationStateTracker;
  qfo_release_image_barrier_map : gmap Z (list QFOImageTransferBarrier)
}.

(** ** Logging *)

(** One constructor per [LogError] call of the functions below, with the
    values the message is formatted from. *)
Inductive Message :=
| Msg_SurfaceNotSupported (func_name : string)
| Msg_OldSwapchainSurface (func_name : string)
| Msg_OldSwapchainRetired (func_name : string)
| Msg_WaitSemaphoreNotBinary (i : nat) (semaphore : VkHandle)
| Msg_ImageIndexTooLarge (i : nat) (index size : Z)
| Msg_ImageNotAcquired (i : nat) (index : Z)
| Msg_ImageLayout (i : nat) (l : VkImageLayout)
| Msg_DisplaySrcRect (r : VkRect2D) (e : VkExtent2D)
| Msg_QueueCannotPresent (i : nat)
| Msg_RectOffsetX (i j : nat) (ox w transform bound : Z)
| Msg_RectOffsetY (i j : nat) (oy h transform bound : Z)
| Msg_RectLayer (i j : nat) (l layers : Z)
| Msg_PresentTimesCount (times_count present_count : nat)
| Msg_PresentIdFeature (i : nat) (id : Z)
| Msg_PresentIdCount (id_count present_count : nat)
| Msg_PresentIdNotIncreasing (i : nat) (id max_id : Z)
| Msg_SemaphoreNotBinary (func_name : string) (semaphore : VkHandle)
| Msg_SemaphoreSignaled (func_name : string)
| Msg_AcquireRetired (func_name : string)
| Msg_TooManyAcquired (func_name : string)
    (acquired_count acquirable image_count min_count : Z)
| Msg_PresentWaitFeature
| Msg_WaitForPresentRetired
| Msg_Collaborator (origin text : string).

Record LogRecord := {
  log_objects : list VkHandle;
  log_vuid : string;
  log_message : Message
}.

(** What a collaborating validation routine reports: its [skip] result and
    the (objects, rule identifier, text) triples it logged. *)
Definition CollaboratorResult : Type :=
  bool * list (list VkHandle * string * string).

(** Code of the layer that lives outside the two files.
    - [LogError_result]: the verdict [LogError] returns for a record.
    - [ValidateFenceForSubmit]: fence check of the submit path.
    - [ValidateWaitSemaphore]: [SemaphoreSubmitState::ValidateWaitSemaphore]
      for the queue and queue flags the state was built with; the list holds
      the (index, semaphore) pairs already validated through that state.
    - [FindLayouts]: the layouts tracked for an image, when it has any.
    - [ValidateCreateSwapchainLimits]: the rest of [ValidateCreateSwapchain]
      after the [oldSwapchain] block: the checks of the create info (image
      extent and count, transform, composite alpha, array layers, usage,
      format, present mode, sharing mode) against what the driver reports
      through the dispatch table.
    - [StateTracker_PreCallRecordDestroySwapchainKHR]: the base-class hook. *)
Record Collaborators := {
  LogError_result : LogRecord -> bool;
  ValidateFenceForSubmit : FENCE_STATE -> string -> string -> string ->
                           CollaboratorResult;
  ValidateWaitSemaphore : VkHandle -> Z -> list (nat * VkHandle) ->
                          nat -> VkHandle -> Z -> CollaboratorResult;
  FindLayouts : IMAGE_STATE -> option (list VkImageLayout);
  ValidateCreateSwapchainLimits : string -> VkSwapchainCreateInfoKHR ->
                                  option SURFACE_STATE -> CollaboratorResult;
  StateTracker_PreCallRecordDestroySwapchainKHR :
    ValidationStateTracker -> VkHandle -> ValidationStateTracker
}.

(** ** The validation monad *)

Definition W (A : Type) : Type := option (A * list LogRecord).

Definition ret {A : Type} (a : A) : W A := Some (a, []).

Definition bind {A B : Type} (m : W A) (k : A -> W B) : W B :=
  match m with
  | None => None
  | Some (a, l1) =>
      match k a with
      | None => None
      | Some (b, l2) => Some (b, l1 ++ l2)
      end
  end.

Notation "v <- m ;; k" := (bind m (fun v => k))
  (at level 20, m at level 99, k at level 200, only parsing).
Notation "' pat <- m ;; k" := (bind m (fun v => match v with pat => k end))
  (at level 20, pat pattern, m at level 99, k at level 200, only parsing).

(** Reading through a pointer or an array slot that may be missing. *)
Definition deref {A : Type} (o : option A) : W A :=
  match o with
  | Some a => ret a
  | None => None
  end.

Definition LogError (ext : Collaborators) (objects : list VkHandle)
    (vuid : string) (msg : Message) : W bool :=
  let r := {| log_objects := objects; log_vuid := vuid; log_message := msg |} in
  Some (LogError_result ext r, [r]).

(** [skip |= m]. *)
Definition skip_or (skip : bool) (m : W bool) : W bool :=
  r <- m ;; ret (skip || r).

(** A call into a collaborating routine: its log is kept, tagged with its
    origin. *)
Definition collaborator (origin : string) (r : CollaboratorResult) : W bool :=
  Some (fst r,
        map (fun '(objects, vuid, text) =>
               {| log_objects := objects; log_vuid := vuid;
                  log_message := Msg_Collaborator origin text |}) (snd r)).

(** [for (x : l) body], threading the variables the body assigns. *)
Fixpoint for_each {A S : Type} (l : list A) (body : A -> S -> W S) (s : S)
  : W S :=
  match l with
  | [] => ret s
  | a :: rest => s1 <- body a s ;; for_each rest body s1
  end.

(** [for (uint32_t i = 0; i < n; ++i) body]. *)
Definition for_range {S : Type} (n : nat) (body : nat -> S -> W S) (s : S)
  : W S :=
  for_each (seq 0 n) body s.

(** [Get<T> (handle)]. *)
Definition Get_SWAPCHAIN_NODE (cc : CoreChecks) (h : VkHandle) :=
  swapchain_map (tracker cc) !! h.
Definition Get_SURFACE_STATE (cc : CoreChecks) (h : VkHandle) :=
  surface_map (tracker cc) !! h.
Definition Get_SEMAPHORE_STATE (cc : CoreChecks) (h : VkHandle) :=
  semaphore_map (tracker cc) !! h.
Definition Get_FENCE_STATE (cc : CoreChecks) (h : VkHandle) :=
  fence_map (tracker cc) !! h.
Definition Get_QUEUE_STATE (cc : CoreChecks) (h : VkHandle) :=
  queue_map (tracker cc) !! h.

(** ** Swapchain creation *)

(** [AnyOf<QUEUE_STATE>] with the predicate of [ValidateCreateSwapchain]: the
    predicate reads through [surface_state] once per queue. *)
Definition AnyQueueSupports (cc : CoreChecks)
    (surface_state : option SURFACE_STATE) : W bool :=
  match map_to_list (queue_map (tracker cc)) with
  | [] => ret false
  | queues =>
      s <- deref surface_state ;;
      ret (existsb (fun kv => GetQueueSupport s (queue_family (snd kv))) queues)
  end.

(** The presentation-support block of [ValidateCreateSwapchain].  In this
    function a [true] intermediate result stands for the statement
    [return true]. *)
Definition create_surface_support_check (ext : Collaborators) (cc : CoreChecks)
    (func_name : string) (surface_state : option SURFACE_STATE) : W bool :=
  if negb (vk_khr_android_surface (tracker cc)) then
    is_supported <- AnyQueueSupports cc surface_state ;;
    if negb is_supported then
      s <- deref surface_state ;;
      LogError ext [device (tracker cc); surface_handle s]
        "VUID-VkSwapchainCreateInfoKHR-surface-01270"
        (Msg_SurfaceNotSupported func_name)
    else ret false
  else ret false.

(** [if (old_swapchain_state) { ... }]. *)
Definition create_old_swapchain_check (ext : Collaborators)
    (func_name : string) (pCreateInfo : VkSwapchainCreateInfoKHR)
    (old_swapchain_state : option SWAPCHAIN_NODE) : W bool :=
  match old_swapchain_state with
  | Some old =>
      returned <-
        (if negb (surface (createInfo old) =? surface pCreateInfo)%Z then
           LogError ext [oldSwapchain pCreateInfo]
             "VUID-VkSwapchainCreateInfoKHR-oldSwapchain-01933"
             (Msg_OldSwapchainSurface func_name)
         else ret false) ;;
      if returned then ret true else
      if retired old then
        LogError ext [oldSwapchain pCreateInfo]
          "VUID-VkSwapchainCreateInfoKHR-oldSwapchain-01933"
          (Msg_OldSwapchainRetired func_name)
      else ret false
  | None => ret false
  end.

Definition ValidateCreateSwapchain (ext : Collaborators) (cc : CoreChecks)
    (func_name : string) (pCreateInfo : VkSwapchainCreateInfoKHR)
    (surface_state : option SURFACE_STATE)
    (old_swapchain_state : option SWAPCHAIN_NODE) : W bool :=
  returned <- create_surface_support_check ext cc func_name surface_state ;;
  if returned then ret true else
  returned <-
    create_old_swapchain_check ext func_name pCreateInfo old_swapchain_state ;;
  if returned then ret true else
  collaborator "ValidateCreateSwapchain"
    (ValidateCreateSwapchainLimits ext func_name pCreateInfo surface_state).

Definition PreCallValidateCreateSwapchainKHR (ext : Collaborators)
    (cc : CoreChecks) (pCreateInfo : VkSwapchainCreateInfoKHR) : W bool :=
  let surface_state := Get_SURFACE_STATE cc (surface pCreateInfo) in
  let old_swapchain_state := Get_SWAPCHAIN_NODE cc (oldSwapchain pCreateInfo) in
  ValidateCreateSwapchain ext cc "vkCreateSwapchainKHR()" pCreateInfo
    surface_state old_swapchain_state.

(** ** Swapchain destruction *)

(** The loop over [swapchain_data->images]. *)
Definition erase_swapchain_images (imgs : list SWAPCHAIN_IMAGE)
    (m : gmap Z (list QFOImageTransferBarrier))
  : gmap Z (list QFOImageTransferBarrier) :=
  fold_left
    (fun m swapchain_image =>
       match image_state swapchain_image with
       | None => m
       | Some ist => delete (image ist) m
       end)
    imgs m.

Definition PreCallRecordDestroySwapchainKHR (ext : Collaborators)
    (cc : CoreChecks) (swapchain : VkHandle) : CoreChecks :=
  let qfo :=
    if negb (swapchain =? VK_NULL_HANDLE)%Z then
      match Get_SWAPCHAIN_NODE cc swapchain with
      | Some swapchain_data =>
          erase_swapchain_images (images swapchain_data)
            (qfo_release_image_barrier_map cc)
      | None => qfo_release_image_barrier_map cc
      end
    else qfo_release_image_barrier_map cc in
  {| tracker :=
       StateTracker_PreCallRecordDestroySwapchainKHR ext (tracker cc) swapchain;
     qfo_release_image_barrier_map := qfo |}.

(** ** Acquire *)

(** The surface capabilities [ValidateAcquireNextImage] compares against. *)
Definition acquire_capabilities (cc : CoreChecks)
    (swapchain_data : SWAPCHAIN_NODE) : VkSurfaceCapabilitiesKHR :=
  match swapchain_surface swapchain_data with
  | Some s => GetCapabilities s
  | None =>
      if vk_google_surfaceless_query (tracker cc)
      then surfaceless_query_capabilities (tracker cc)
      else VkSurfaceCapabilitiesKHR_zero
  end.

(** The semaphore block of [ValidateAcquireNextImage]. *)
Definition acquire_semaphore_check (ext : Collaborators) (cc : CoreChecks)
    (version : AcquireVersion) (semaphore : VkHandle)
    (func_name semaphore_type_vuid : string) (skip : bool) : W bool :=
  match Get_SEMAPHORE_STATE cc semaphore with
  | Some semaphore_state =>
      if negb (semaphore_type semaphore_state =? VK_SEMAPHORE_TYPE_BINARY)%Z
      then
        skip_or skip
          (LogError ext [semaphore] semaphore_type_vuid
             (Msg_SemaphoreNotBinary func_name semaphore))
      else
        match Scope semaphore_state with
        | kSyncScopeInternal =>
            if negb (CanBeSignaled semaphore_state) then
              let vuid :=
                match version with
                | ACQUIRE_VERSION_2 =>
                    "VUID-VkAcquireNextImageInfoKHR-semaphore-01288"
                | ACQUIRE_VERSION_1 =>
                    "VUID-vkAcquireNextImageKHR-semaphore-01286"
                end in
              skip_or skip
                (LogError ext [semaphore] vuid
                   (Msg_SemaphoreSignaled func_name))
            else ret skip
        | _ => ret skip
        end
  | None => ret skip
  end.

(** The fence block. *)
Definition acquire_fence_check (ext : Collaborators) (cc : CoreChecks)
    (fence : VkHandle) (skip : bool) : W bool :=
  match Get_FENCE_STATE cc fence with
  | Some fence_state =>
      skip_or skip
        (collaborator "ValidateFenceForSubmit"
           (ValidateFenceForSubmit ext fence_state
              "VUID-vkAcquireNextImageKHR-fence-01287"
              "VUID-vkAcquireNextImageKHR-fence-01287"
              "vkAcquireNextImageKHR()"))
  | None => ret skip
  end.

(** [if (swapchain_data->retired)]. *)
Definition acquire_retired_check (ext : Collaborators)
    (version : AcquireVersion) (swapchain : VkHandle) (func_name : string)
    (swapchain_data : SWAPCHAIN_NODE) (skip : bool) : W bool :=
  if retired swapchain_data then
    let vuid :=
      match version with
      | ACQUIRE_VERSION_2 => "VUID-VkAcquireNextImageInfoKHR-swapchain-01675"
      | ACQUIRE_VERSION_1 => "VUID-vkAcquireNextImageKHR-swapchain-01285"
      end in
    skip_or skip
      (LogError ext [swapchain] vuid (Msg_AcquireRetired func_name))
  else ret skip.

(** [swapchain_image_count - min_image_count], a [uint32_t] difference. *)
Definition acquire_bound (cc : CoreChecks) (swapchain_data : SWAPCHAIN_NODE)
  : Z :=
  let swapchain_image_count :=
    wrap32 (Z.of_nat (length (images swapchain_data))) in
  let caps := acquire_capabilities cc swapchain_data in
  let min_image_count := minImageCount caps in
  wrap32 (swapchain_image_count - min_image_count).

(** The comparison of [acquired_images] with the bound. *)
Definition acquire_count_check (ext : Collaborators) (cc : CoreChecks)
    (version : AcquireVersion) (swapchain : VkHandle) (timeout : Z)
    (func_name : string) (swapchain_data : SWAPCHAIN_NODE) (skip : bool)
  : W bool :=
  let acquired_images := acquired_images swapchain_data in
  let swapchain_image_count :=
    wrap32 (Z.of_nat (length (images swapchain_data))) in
  let caps := acquire_capabilities cc swapchain_data in
  let min_image_count := minImageCount caps in
  let too_many_already_acquired :=
    (acquire_bound cc swapchain_data <? acquired_images)%Z in
  if (timeout =? UINT64_MAX)%Z && too_many_already_acquired then
    let vuid :=
      match version with
      | ACQUIRE_VERSION_2 => "VUID-vkAcquireNextImage2KHR-swapchain-01803"
      | ACQUIRE_VERSION_1 => "VUID-vkAcquireNextImageKHR-swapchain-01802"
      end in
    let acquirable :=
      wrap32 (swapchain_image_count - min_image_count + 1) in
    skip_or skip
      (LogError ext [swapchain] vuid
         (Msg_TooManyAcquired func_name acquired_images acquirable
            swapchain_image_count min_image_count))
  else ret skip.

Definition ValidateAcquireNextImage (ext : Collaborators) (cc : CoreChecks)
    (version : AcquireVersion) (swapchain : VkHandle) (timeout : Z)
    (semaphore fence : VkHandle) (func_name semaphore_type_vuid : string)
  : W bool :=
  let skip := false in
  skip <-
    acquire_semaphore_check ext cc version semaphore func_name
      semaphore_type_vuid skip ;;
  skip <- acquire_fence_check ext cc fence skip ;;
  match Get_SWAPCHAIN_NODE cc swapchain with
  | Some swapchain_data =>
      skip <-
        acquire_retired_check ext version swapchain func_name swapchain_data
          skip ;;
      acquire_count_check ext cc version swapchain timeout func_name
        swapchain_data skip
  | None => ret skip
  end.

Definition PreCallValidateAcquireNextImageKHR (ext : Collaborators)
    (cc : CoreChecks) (swapchain : VkHandle) (timeout : Z)
    (semaphore fence : VkHandle) : W bool :=
  ValidateAcquireNextImage ext cc ACQUIRE_VERSION_1 swapchain timeout semaphore
    fence "vkAcquireNextImageKHR" "VUID-vkAcquireNextImageKHR-semaphore-03265".

(** ** Wait for present *)

Definition PreCallValidateWaitForPresentKHR (ext : Collaborators)
    (cc : CoreChecks) (swapchain : VkHandle) (presentId_ timeout : Z)
  : W bool :=
  let skip := false in
  skip <-
    (if negb (presentWait (tracker cc)) then
       skip_or skip
         (LogError ext [swapchain] "VUID-vkWaitForPresentKHR-presentWait-06234"
            Msg_PresentWaitFeature)
     else ret skip) ;;
  match Get_SWAPCHAIN_NODE cc swapchain with
  | Some swapchain_state =>
      if retired swapchain_state then
        skip_or skip
          (LogError ext [swapchain] "VUID-vkWaitForPresentKHR-swapchain-04997"
             Msg_WaitForPresentRetired)
      else ret skip
  | None => ret skip
  end.

(** ** Present *)

(** Body of the loop over [pWaitSemaphores].  The second component is the
    [SemaphoreSubmitState]: the waits validated through it so far. *)
Definition present_wait_semaphore (ext : Collaborators) (cc : CoreChecks)
    (queue : VkHandle) (queueFlags : Z) (pPresentInfo : VkPresentInfoKHR.t)
    (i : nat) (st : bool * list (nat * VkHandle))
  : W (bool * list (nat * VkHandle)) :=
  let '(skip, sem_submit_state) := st in
  semaphore <- deref (VkPresentInfoKHR.pWaitSemaphores pPresentInfo !! i) ;;
  let validate :=
    skip <-
      skip_or skip
        (collaborator "ValidateWaitSemaphore"
           (ValidateWaitSemaphore ext queue queueFlags sem_submit_state
              i semaphore 0%Z)) ;;
    ret (skip, sem_submit_state ++ [(i, semaphore)]) in
  match Get_SEMAPHORE_STATE cc semaphore with
  | Some semaphore_state =>
      if negb (semaphore_type semaphore_state =? VK_SEMAPHORE_TYPE_BINARY)%Z
      then
        skip <-
          skip_or skip
            (LogError ext [semaphore]
               "VUID-vkQueuePresentKHR-pWaitSemaphores-03267"
               (Msg_WaitSemaphoreNotBinary i semaphore)) ;;
        ret (skip, sem_submit_state)
      else validate
  | None => validate
  end.

(** The rule identifier shared by the index, acquisition and layout checks. *)
Definition present_validation_error (cc : CoreChecks) : string :=
  if vk_khr_shared_presentable_image (tracker cc)
  then "VUID-VkPresentInfoKHR-pImageIndices-01430"
  else "VUID-VkPresentInfoKHR-pImageIndices-01296".

(** Body of the loop over the layouts [FindLayouts] returned. *)
Definition present_layout (ext : Collaborators) (cc : CoreChecks)
    (queue : VkHandle) (i : nat) (l : VkImageLayout) (skip : bool) : W bool :=
  if negb (l =? VK_IMAGE_LAYOUT_PRESENT_SRC_KHR)%Z
     && (negb (vk_khr_shared_presentable_image (tracker cc))
         || negb (l =? VK_IMAGE_LAYOUT_SHARED_PRESENT_KHR)%Z)
  then
    skip_or skip
      (LogError ext [queue] (present_validation_error cc) (Msg_ImageLayout i l))
  else ret skip.

(** The [VkDisplayPresentInfoKHR] check of an acquired image.  The sums mix
    [int32_t] and [uint32_t] operands and are therefore [uint32_t] sums. *)
Definition present_display_info (ext : Collaborators) (queue : VkHandle)
    (pPresentInfo : VkPresentInfoKHR.t) (ist : IMAGE_STATE) (skip : bool)
  : W bool :=
  match LvlFindInChain as_VkDisplayPresentInfoKHR
          (VkPresentInfoKHR.pNext pPresentInfo) with
  | Some display_present_info =>
      let r := srcRect display_present_info in
      if (x (rect2d_offset r) <? 0)%Z || (y (rect2d_offset r) <? 0)%Z
         || (width (image_extent ist)
             <? wrap32 (x (rect2d_offset r) + width (rect2d_extent r)))%Z
         || (height (image_extent ist)
             <? wrap32 (y (rect2d_offset r) + height (rect2d_extent r)))%Z
      then
        skip_or skip
          (LogError ext [queue] "VUID-VkDisplayPresentInfoKHR-srcRect-01257"
             (Msg_DisplaySrcRect r (image_extent ist)))
      else ret skip
  | None => ret skip
  end.

(** Body of the loop over [pSwapchains]. *)
Definition present_swapchain (ext : Collaborators) (cc : CoreChecks)
    (queue : VkHandle) (queue_state : QUEUE_STATE)
    (pPresentInfo : VkPresentInfoKHR.t) (i : nat) (skip : bool) : W bool :=
  swapchain <- deref (VkPresentInfoKHR.pSwapchains pPresentInfo !! i) ;;
  match Get_SWAPCHAIN_NODE cc swapchain with
  | None => ret skip
  | Some swapchain_data =>
      let validation_error := present_validation_error cc in
      index <- deref (VkPresentInfoKHR.pImageIndices pPresentInfo !! i) ;;
      let not_acquired :=
        skip_or skip
          (LogError ext [swapchain] validation_error
             (Msg_ImageNotAcquired i index)) in
      skip <-
        (if (Z.of_nat (length (images swapchain_data)) <=? index)%Z then
           skip_or skip
             (LogError ext [swapchain] validation_error
                (Msg_ImageIndexTooLarge i index
                   (wrap32 (Z.of_nat (length (images swapchain_data))))))
         else
           swapchain_image <-
             deref (images swapchain_data !! Z.to_nat index) ;;
           match image_state swapchain_image with
           | None => not_acquired
           | Some ist =>
               if negb (acquired swapchain_image) then not_acquired
               else
                 skip <-
                   match FindLayouts ext ist with
                   | Some layouts =>
                       for_each layouts (present_layout ext cc queue i) skip
                   | None => ret skip
                   end ;;
                 present_display_info ext queue pPresentInfo ist skip
           end) ;;
      if negb (vk_khr_android_surface (tracker cc)) then
        surface_state <-
          deref (Get_SURFACE_STATE cc (surface (createInfo swapchain_data))) ;;
        if negb (GetQueueSupport surface_state (queue_family queue_state)) then
          skip_or skip
            (LogError ext [swapchain] "VUID-vkQueuePresentKHR-pSwapchains-01292"
               (Msg_QueueCannotPresent i))
        else ret skip
      else ret skip
  end.

(** The pre-transform bits that exchange the two axes. *)
Definition rotate_90_270_mask : Z :=
  Z.lor
    (Z.lor VK_SURFACE_TRANSFORM_ROTATE_90_BIT_KHR
       VK_SURFACE_TRANSFORM_ROTATE_270_BIT_KHR)
    (Z.lor VK_SURFACE_TRANSFORM_HORIZONTAL_MIRROR_ROTATE_90_BIT_KHR
       VK_SURFACE_TRANSFORM_HORIZONTAL_MIRROR_ROTATE_270_BIT_KHR).

(** [std::swap] of the offset components and of the extent components. *)
Definition swap_rect (rect : VkRectLayerKHR) : VkRectLayerKHR :=
  {| offset := {| x := y (offset rect); y := x (offset rect) |};
     extent := {| width := height (extent rect);
                  height := width (extent rect) |};
     layer := layer rect |}.

(** The rectangle that is checked: swapped for a 90 or 270 degree
    pre-transform. *)
Definition transformed_rect (transform : Z) (rect : VkRectLayerKHR)
  : VkRectLayerKHR :=
  if negb (Z.land transform rotate_90_270_mask =? 0)%Z
  then swap_rect rect else rect.

(** Body of the loop over the rectangles of region [i]. *)
Definition present_rectangle (ext : Collaborators) (swapchain : VkHandle)
    (swapchain_data : SWAPCHAIN_NODE) (region : VkPresentRegionKHR)
    (i j : nat) (skip : bool) : W bool :=
  rect <- deref (pRectangles region !! j) ;;
  let ci := createInfo swapchain_data in
  let rect := transformed_rect (preTransform ci) rect in
  skip <-
    (if (width (imageExtent ci)
         <? wrap32 (x (offset rect) + width (extent rect)))%Z then
       skip_or skip
         (LogError ext [swapchain] "VUID-VkRectLayerKHR-offset-04864"
            (Msg_RectOffsetX i j (x (offset rect)) (width (extent rect))
               (preTransform ci) (width (imageExtent ci))))
     else ret skip) ;;
  skip <-
    (if (height (imageExtent ci)
         <? wrap32 (y (offset rect) + height (extent rect)))%Z then
       skip_or skip
         (LogError ext [swapchain] "VUID-VkRectLayerKHR-offset-04864"
            (Msg_RectOffsetY i j (y (offset rect)) (height (extent rect))
               (preTransform ci) (height (imageExtent ci))))
     else ret skip) ;;
  if (imageArrayLayers ci <? layer rect)%Z then
    skip_or skip
      (LogError ext [swapchain] "VUID-VkRectLayerKHR-layer-01262"
         (Msg_RectLayer i j (layer rect) (imageArrayLayers ci)))
  else ret skip.

(** Body of the loop over the regions of a [VkPresentRegionsKHR]. *)
Definition present_region (ext : Collaborators) (cc : CoreChecks)
    (pPresentInfo :
      VkPresentInfoKHR.t) (present_regions : VkPresentRegionsKHR.t)
    (i : nat) (skip : bool) : W bool :=
  swapchain <- deref (VkPresentInfoKHR.pSwapchains pPresentInfo !! i) ;;
  swapchain_data <- deref (Get_SWAPCHAIN_NODE cc swapchain) ;;
  region <- deref (VkPresentRegionsKHR.pRegions present_regions !! i) ;;
  for_range (rectangleCount region)
    (present_rectangle ext swapchain swapchain_data region i) skip.

(** Body of the first loop over a [VkPresentIdKHR], entered when the
    [presentId] feature is not enabled. *)
Definition present_id_feature (ext : Collaborators)
    (pPresentInfo : VkPresentInfoKHR.t) (present_id_info : VkPresentIdKHR.t)
    (i : nat) (skip : bool) : W bool :=
  id <- deref (VkPresentIdKHR.pPresentIds present_id_info !! i) ;;
  if negb (id =? 0)%Z then
    first <- deref (VkPresentInfoKHR.pSwapchains pPresentInfo !! 0%nat) ;;
    skip_or skip
      (LogError ext [first] "VUID-VkPresentInfoKHR-pNext-06235"
         (Msg_PresentIdFeature i id))
  else ret skip.

(** Body of the second loop over a [VkPresentIdKHR]: the comparison with the
    swapchain's [max_present_id]. *)
Definition present_id_increasing (ext : Collaborators) (cc : CoreChecks)
    (pPresentInfo : VkPresentInfoKHR.t) (present_id_info : VkPresentIdKHR.t)
    (i : nat) (skip : bool) : W bool :=
  swapchain <- deref (VkPresentInfoKHR.pSwapchains pPresentInfo !! i) ;;
  let swapchain_state := Get_SWAPCHAIN_NODE cc swapchain in
  id <- deref (VkPresentIdKHR.pPresentIds present_id_info !! i) ;;
  if negb (id =? 0)%Z then
    swapchain_state <- deref swapchain_state ;;
    if (id <=? max_present_id swapchain_state)%Z then
      skip_or skip
        (LogError ext [swapchain] "VUID-VkPresentIdKHR-presentIds-04999"
           (Msg_PresentIdNotIncreasing i id (max_present_id swapchain_state)))
    else ret skip
  else ret skip.

(** The three extension structures looked up in the [pNext] chain. *)
Definition present_regions_check (ext : Collaborators) (cc : CoreChecks)
    (pPresentInfo : VkPresentInfoKHR.t) (skip : bool) : W bool :=
  match LvlFindInChain as_VkPresentRegionsKHR
          (VkPresentInfoKHR.pNext pPresentInfo) with
  | Some present_regions =>
      for_range (VkPresentRegionsKHR.swapchainCount present_regions)
        (present_region ext cc pPresentInfo present_regions) skip
  | None => ret skip
  end.

Definition present_times_check (ext : Collaborators)
    (pPresentInfo : VkPresentInfoKHR.t) (skip : bool) : W bool :=
  match LvlFindInChain as_VkPresentTimesInfoGOOGLE
          (VkPresentInfoKHR.pNext pPresentInfo) with
  | Some present_times_info =>
      if negb (VkPresentInfoKHR.swapchainCount pPresentInfo
               =? VkPresentTimesInfoGOOGLE.swapchainCount
                    present_times_info)%nat
      then
        first <- deref (VkPresentInfoKHR.pSwapchains pPresentInfo !! 0%nat) ;;
        skip_or skip
          (LogError ext [first]
             "VUID-VkPresentTimesInfoGOOGLE-swapchainCount-01247"
             (Msg_PresentTimesCount
                (VkPresentTimesInfoGOOGLE.swapchainCount present_times_info)
                (VkPresentInfoKHR.swapchainCount pPresentInfo)))
      else ret skip
  | None => ret skip
  end.

Definition present_id_check (ext : Collaborators) (cc : CoreChecks)
    (pPresentInfo : VkPresentInfoKHR.t) (skip : bool) : W bool :=
  match LvlFindInChain as_VkPresentIdKHR
          (VkPresentInfoKHR.pNext pPresentInfo) with
  | Some present_id_info =>
      skip <-
        (if negb (presentId (tracker cc)) then
           for_range (VkPresentIdKHR.swapchainCount present_id_info)
             (present_id_feature ext pPresentInfo present_id_info) skip
         else ret skip) ;;
      skip <-
        (if negb (VkPresentInfoKHR.swapchainCount pPresentInfo
                  =? VkPresentIdKHR.swapchainCount present_id_info)%nat
         then
           first <-
             deref (VkPresentInfoKHR.pSwapchains pPresentInfo !! 0%nat) ;;
           skip_or skip
             (LogError ext [first] "VUID-VkPresentIdKHR-swapchainCount-04998"
                (Msg_PresentIdCount
                   (VkPresentIdKHR.swapchainCount present_id_info)
                   (VkPresentInfoKHR.swapchainCount pPresentInfo)))
         else ret skip) ;;
      for_range (VkPresentIdKHR.swapchainCount present_id_info)
        (present_id_increasing ext cc pPresentInfo present_id_info) skip
  | None => ret skip
  end.

Definition PreCallValidateQueuePresentKHR (ext : Collaborators)
    (cc : CoreChecks) (queue : VkHandle) (pPresentInfo : VkPresentInfoKHR.t)
  : W bool :=
  let skip := false in
  queue_state <- deref (Get_QUEUE_STATE cc queue) ;;
  queueFlags <-
    deref (queue_family_properties (tracker cc)
             !! Z.to_nat (queue_family queue_state)) ;;
  '(skip, _) <-
    for_range (VkPresentInfoKHR.waitSemaphoreCount pPresentInfo)
      (present_wait_semaphore ext cc queue queueFlags pPresentInfo)
      (skip, []) ;;
  skip <-
    for_range (VkPresentInfoKHR.swapchainCount pPresentInfo)
      (present_swapchain ext cc queue queue_state pPresentInfo) skip ;;
  match VkPresentInfoKHR.pNext pPresentInfo with
  | [] => ret skip
  | _ :: _ =>
      skip <- present_regions_check ext cc pPresentInfo skip ;;
      skip <- present_times_check ext pPresentInfo skip ;;
      present_id_check ext cc pPresentInfo skip
  end.

(** The members of a command buffer other than [lastBound] and
    [pipeline_bound] agree. *)
Definition same_other_members (a b : CMD_BUFFER_STATE) : Prop :=
  createInfo_cb a = createInfo_cb b
  /\ beginInfo a = beginInfo b
  /\ inheritanceInfo a = inheritanceInfo b
  /\ command_pool a = command_pool b
  /\ unprotected a = unprotected b
  /\ hasRenderPassInstance a = hasRenderPassInstance b
  /\ suspendsRenderPassInstance a = suspendsRenderPassInstance b
  /\ resumesRenderPassInstance a = resumesRenderPassInstance b
  /\ has_draw_cmd a = has_draw_cmd b
  /\ has_dispatch_cmd a = has_dispatch_cmd b
  /\ has_trace_rays_cmd a = has_trace_rays_cmd b
  /\ has_build_as_cmd a = has_build_as_cmd b
  /\ state a = state b
  /\ commandCount a = commandCount b
  /\ submitCount a = submitCount b
  /\ commands_since_begin_rendering a = commands_since_begin_rendering b
  /\ image_layout_change_count a = image_layout_change_count b
  /\ status a = status b
  /\ static_status a = static_status b
  /\ dynamic_status a = dynamic_status b
  /\ begin_rendering_func_name a = begin_rendering_func_name b
  /\ validate_descriptorsets_in_queuesubmit a
     = validate_descriptorsets_in_queuesubmit b
  /\ inheritedViewportDepths a = inheritedViewportDepths b
  /\ usedViewportScissorCount a = usedViewportScissorCount b
  /\ pipelineStaticViewportCount a = pipelineStaticViewportCount b
  /\ pipelineStaticScissorCount a = pipelineStaticScissorCount b
  /\ viewportMask a = viewportMask b
  /\ viewportWithCountMask a = viewportWithCountMask b
  /\ viewportWithCountCount a = viewportWithCountCount b
  /\ scissorMask a = scissorMask b
  /\ scissorWithCountMask a = scissorWithCountMask b
  /\ scissorWithCountCount a = scissorWithCountCount b
  /\ dynamicViewports a = dynamicViewports b
  /\ trashedViewportMask a = trashedViewportMask b
  /\ trashedScissorMask a = trashedScissorMask b
  /\ trashedViewportCount a = trashedViewportCount b
  /\ trashedScissorCount a = trashedScissorCount b
  /\ usedDynamicViewportCount a = usedDynamicViewportCount b
  /\ usedDynamicScissorCount a = usedDynamicScissorCount b
  /\ initial_device_mask a = initial_device_mask b
  /\ primitiveTopology a = primitiveTopology b
  /\ rasterization_disabled a = rasterization_disabled b
  /\ activeRenderPassBeginInfo a = activeRenderPassBeginInfo b
  /\ activeRenderPass a = activeRenderPass b
  /\ active_subpasses a = active_subpasses b
  /\ active_attachments a = active_attachments b
  /\ attachments_view_states a = attachments_view_states b
  /\ activeSubpassContents a = activeSubpassContents b
  /\ active_render_pass_device_mask a = active_render_pass_device_mask b
  /\ activeSubpass a = activeSubpass b
  /\ activeFramebuffer a = activeFramebuffer b
  /\ framebuffers a = framebuffers b
  /\ object_bindings a = object_bindings b
  /\ broken_bindings a = broken_bindings b
  /\ qfo_transfer_buffer_barriers a = qfo_transfer_buffer_barriers b
  /\ qfo_transfer_image_barriers a = qfo_transfer_image_barriers b
  /\ waitedEvents a = waitedEvents b
  /\ writeEventsBeforeWait a = writeEventsBeforeWait b
  /\ events a = events b
  /\ activeQueries a = activeQueries b
  /\ startedQueries a = startedQueries b
  /\ resetQueries a = resetQueries b
  /\ updatedQueries a = updatedQueries b
  /\ image_layout_map a = image_layout_map b
  /\ aliased_image_layout_map a = aliased_image_layout_map b
  /\ current_vertex_buffer_binding_info a = current_vertex_buffer_binding_info b
  /\ vertex_buffer_used a = vertex_buffer_used b
  /\ primaryCommandBuffer a = primaryCommandBuffer b
  /\ linkedCommandBuffers a = linkedCommandBuffers b
  /\ queue_submit_functions a = queue_submit_functions b
  /\ queue_submit_functions_after_render_pass a
     = queue_submit_functions_after_render_pass b
  /\ cmd_execute_commands_functions a = cmd_execute_commands_functions b
  /\ eventUpdates a = eventUpdates b
  /\ queryUpdates a = queryUpdates b
  /\ validated_descriptor_sets a = validated_descriptor_sets b
  /\ descriptorset_cache a = descriptorset_cache b
  /\ index_buffer_binding a = index_buffer_binding b
  /\ performance_lock_acquired a = performance_lock_acquired b
  /\ performance_lock_released a = performance_lock_released b
  /\ debug_label a = debug_label b
  /\ push_constant_data a = push_constant_data b
  /\ push_constant_data_ranges a = push_constant_data_ranges b
  /\ push_constant_data_update a = push_constant_data_update b
  /\ push_constant_pipeline_layout_set a = push_constant_pipeline_layout_set b
  /\ small_indexed_draw_call_count a = small_indexed_draw_call_count b
  /\ transform_feedback_active a = transform_feedback_active b
  /\ conditional_rendering_active a = conditional_rendering_active b
  /\ conditional_rendering_inside_render_pass a
     = conditional_rendering_inside_render_pass b
  /\ conditional_rendering_subpass a = conditional_rendering_subpass b
  /\ dynamicColorWriteEnableAttachmentCount a
     = dynamicColorWriteEnableAttachmentCount b.

(** ** Reading a log *)

(** Some record of the log carries a message of the class [P]. *)
Definition reported (P : Message -> bool) (log : list LogRecord) : bool :=
  existsb (fun r => P (log_message r)) log.

Definition is_TooManyAcquired (m : Message) : bool :=
  match m with Msg_TooManyAcquired _ _ _ _ _ => true | _ => false end.

Definition is_AcquireRetired (m : Message) : bool :=
  match m with Msg_AcquireRetired _ => true | _ => false end.

Definition is_WaitForPresentRetired (m : Message) : bool :=
  match m with Msg_WaitForPresentRetired => true | _ => false end.

Definition is_OldSwapchainRetired (m : Message) : bool :=
  match m with Msg_OldSwapchainRetired _ => true | _ => false end.

Definition is_acquire_precheck (m : Message) : bool :=
  match m with
  | Msg_SemaphoreNotBinary _ _ | Msg_SemaphoreSignaled _
  | Msg_Collaborator _ _ => true
  | _ => false
  end.

(** The handles of the swapchain images that have an image state. *)
Definition images_with_state (imgs : list SWAPCHAIN_IMAGE) : list VkHandle :=
  flat_map
    (fun swapchain_image =>
       match image_state swapchain_image with
       | Some ist => [image ist]
       | None => []
       end)
    imgs.

(** The block of [PreCallValidateQueuePresentKHR] a message comes from. *)
Inductive PresentBlock :=
| Block_semaphores
| Block_images
| Block_regions
| Block_times
| Block_ids
| Block_elsewhere.

Definition present_block (m : Message) : PresentBlock :=
  match m with
  | Msg_WaitSemaphoreNotBinary _ _ | Msg_Collaborator _ _ => Block_semaphores
  | Msg_ImageIndexTooLarge _ _ _ | Msg_ImageNotAcquired _ _
  | Msg_ImageLayout _ _ | Msg_DisplaySrcRect _ _
  | Msg_QueueCannotPresent _ => Block_images
  | Msg_RectOffsetX _ _ _ _ _ _ | Msg_RectOffsetY _ _ _ _ _ _
  | Msg_RectLayer _ _ _ _ => Block_regions
  | Msg_PresentTimesCount _ _ => Block_times
  | Msg_PresentIdFeature _ _ | Msg_PresentIdCount _ _
  | Msg_PresentIdNotIncreasing _ _ _ => Block_ids
  | _ => Block_elsewhere
  end.

(** Every record of the log comes from block [b]. *)
Definition from_block (b : PresentBlock) (log : list LogRecord) : Prop :=
  forall r, In r log -> present_block (log_message r) = b.

(** The present-id monotonicity error of entry [i]. *)
Definition is_PresentIdNotIncreasing (i : nat) (m : Message) : bool :=
  match m with
  | Msg_PresentIdNotIncreasing j _ _ => (j =? i)%nat
  | _ => false
  end.

(** The offset-and-extent error of rectangle [j] of region [i]. *)
Definition is_RectOffset (i j : nat) (m : Message) : bool :=
  match m with
  | Msg_RectOffsetX i' j' _ _ _ _ | Msg_RectOffsetY i' j' _ _ _ _ =>
      (i' =? i)%nat && (j' =? j)%nat
  | _ => false
  end.

(** ** Well-formed present calls

    The conditions under which [PreCallValidateQueuePresentKHR] reads only
    array slots that exist and state objects that are registered. *)

Definition is_some {A : Type} (o : option A) : bool :=
  match o with Some _ => true | None => false end.

Definition present_queue_ok (cc : CoreChecks) (queue : VkHandle) : bool :=
  match Get_QUEUE_STATE cc queue with
  | Some qs =>
      is_some (queue_family_properties (tracker cc)
                 !! Z.to_nat (queue_family qs))
  | None => false
  end.

(** Entry [i] of [pSwapchains]: when the swapchain is registered, its image
    index is present and not negative, and its surface is registered unless
    the Android surface extension makes the lookup unnecessary. *)
Definition present_swapchain_ok (cc : CoreChecks) (p : VkPresentInfoKHR.t)
    (i : nat) : bool :=
  match VkPresentInfoKHR.pSwapchains p !! i with
  | None => false
  | Some sc =>
      match Get_SWAPCHAIN_NODE cc sc with
      | None => true
      | Some sd =>
          match VkPresentInfoKHR.pImageIndices p !! i with
          | None => false
          | Some index =>
              (0 <=? index)%Z
              && (vk_khr_android_surface (tracker cc)
                  || is_some (Get_SURFACE_STATE cc (surface (createInfo sd))))
          end
      end
  end.

Definition present_region_ok (cc : CoreChecks) (p : VkPresentInfoKHR.t)
    (regions : VkPresentRegionsKHR.t) (i : nat) : bool :=
  match VkPresentInfoKHR.pSwapchains p !! i,
        VkPresentRegionsKHR.pRegions regions !! i with
  | Some sc, Some region =>
      is_some (Get_SWAPCHAIN_NODE cc sc)
      && (rectangleCount region <=? length (pRectangles region))%nat
  | _, _ => false
  end.

Definition present_id_ok (cc : CoreChecks) (p : VkPresentInfoKHR.t)
    (ids : VkPresentIdKHR.t) (i : nat) : bool :=
  match VkPresentInfoKHR.pSwapchains p !! i,
        VkPresentIdKHR.pPresentIds ids !! i with
  | Some sc, Some id => (id =? 0)%Z || is_some (Get_SWAPCHAIN_NODE cc sc)
  | _, _ => false
  end.

Definition present_well_formed (cc : CoreChecks) (queue : VkHandle)
    (p : VkPresentInfoKHR.t) : bool :=
  present_queue_ok cc queue
  && (VkPresentInfoKHR.waitSemaphoreCount p
      <=? length (VkPresentInfoKHR.pWaitSemaphores p))%nat
  && forallb (present_swapchain_ok cc p)
       (seq 0 (VkPresentInfoKHR.swapchainCount p))
  && is_some (VkPresentInfoKHR.pSwapchains p !! 0%nat)
  && match LvlFindInChain as_VkPresentRegionsKHR (VkPresentInfoKHR.pNext p) with
     | Some regions =>
         forallb (present_region_ok cc p regions)
           (seq 0 (VkPresentRegionsKHR.swapchainCount regions))
     | None => true
     end
  && match LvlFindInChain as_VkPresentIdKHR (VkPresentInfoKHR.pNext p) with
     | Some ids =>
         forallb (present_id_ok cc p ids)
           (seq 0 (VkPresentIdKHR.swapchainCount ids))
     | None => true
     end.

(** ** The records the present checks log *)

Definition present_id_record (i : nat) (swapchain : VkHandle) (id max_id : Z)
  : LogRecord :=
  {| log_objects := [swapchain];
     log_vuid := "VUID-VkPresentIdKHR-presentIds-04999";
     log_message := Msg_PresentIdNotIncreasing i id max_id |}.

Definition present_index_record (cc : CoreChecks) (i : nat)
    (swapchain : VkHandle) (index size : Z) : LogRecord :=
  {| log_objects := [swapchain];
     log_vuid := present_validation_error cc;
     log_message := Msg_ImageIndexTooLarge i index size |}.

Definition present_not_acquired_record (cc : CoreChecks) (i : nat)
    (swapchain : VkHandle) (index : Z) : LogRecord :=
  {| log_objects := [swapchain];
     log_vuid := present_validation_error cc;
     log_message := Msg_ImageNotAcquired i index |}.

Definition present_layout_record (cc : CoreChecks) (i : nat)
    (queue : VkHandle) (l : VkImageLayout) : LogRecord :=
  {| log_objects := [queue];
     log_vuid := present_validation_error cc;
     log_message := Msg_ImageLayout i l |}.

(** A pre-transform that contains a 90 or 270 degree rotation bit, mirrored
    or not. *)
Definition has_rotate_90_270 (transform : Z) : Prop :=
  Z.land transform VK_SURFACE_TRANSFORM_ROTATE_90_BIT_KHR <> 0%Z
  \/ Z.land transform VK_SURFACE_TRANSFORM_ROTATE_270_BIT_KHR <> 0%Z
  \/ Z.land transform VK_SURFACE_TRANSFORM_HORIZONTAL_MIRROR_ROTATE_90_BIT_KHR
     <> 0%Z
  \/ Z.land transform VK_SURFACE_TRANSFORM_HORIZONTAL_MIRROR_ROTATE_270_BIT_KHR
     <> 0%Z.

(** The two comparisons of [present_rectangle] against [imageExtent], on the
    rectangle as checked. *)
Definition rect_exceeds_extent (ci : VkSwapchainCreateInfoKHR)
    (rect : VkRectLayerKHR) : bool :=
  (width (imageExtent ci) <? wrap32 (x (offset rect) + width (extent rect)))%Z
  || (height (imageExtent ci)
      <? wrap32 (y (offset rect) + height (extent rect)))%Z.

(** The log of a computation, empty when it has no result. *)
Definition log_of {A : Type} (m : W A) : list LogRecord :=
  match m with
  | Some (_, l) => l
  | None => []
  end.

(** ** A device with one swapchain

    Test data: a device with one queue (handle 7, family 0), one surface
    (handle 10, [minImageCount] 2) and one registered swapchain (handle 1). *)

Definition example_collaborators : Collaborators :=
  {| LogError_result := fun _ => true;
     ValidateFenceForSubmit := fun _ _ _ _ => (false, []);
     ValidateWaitSemaphore := fun _ _ _ _ _ _ => (false, []);
     FindLayouts := fun _ => Some [VK_IMAGE_LAYOUT_PRESENT_SRC_KHR; 2%Z];
     ValidateCreateSwapchainLimits := fun _ _ _ => (false, []);
     StateTracker_PreCallRecordDestroySwapchainKHR := fun st _ => st |}.

Definition example_surface (min_count : Z) : SURFACE_STATE :=
  {| surface_handle := 10;
     GetCapabilities :=
       {| minImageCount := min_count; maxImageCount := 8;
          currentTransform := 1; supportedTransforms := 1 |};
     GetQueueSupport := fun _ => true;
     surface_swapchain := Some 1%Z |}.

(** A create info for a 100 by 100 swapchain on the surface. *)
Definition example_create_info (old : VkHandle) (transform : Z)
  : VkSwapchainCreateInfoKHR :=
  {| create_flags := 0;
     surface := 10;
     create_minImageCount := 3;
     imageFormat := 44;
     imageColorSpace := 0;
     imageExtent := {| width := 100; height := 100 |};
     imageArrayLayers := 1;
     imageUsage := 16;
     imageSharingMode := 0;
     preTransform := transform;
     compositeAlpha := 1;
     presentMode := 2;
     clipped := true;
     oldSwapchain := old |}.

Definition example_image (handle : VkHandle) (is_acquired : bool)
  : SWAPCHAIN_IMAGE :=
  {| image_state :=
       Some {| image := handle;
               image_extent := {| width := 100; height := 100 |} |};
     acquired := is_acquired |}.

Definition example_swapchain (is_retired : bool) (imgs : list SWAPCHAIN_IMAGE)
    (acquired_count min_count max_id transform : Z) : SWAPCHAIN_NODE :=
  {| createInfo := example_create_info 0 transform;
     retired := is_retired;
     images := imgs;
     acquired_images := acquired_count;
     max_present_id := max_id;
     swapchain_surface := Some (example_surface min_count) |}.

Definition example_device (sd : SWAPCHAIN_NODE) : CoreChecks :=
  {| tracker :=
       {| device := 100;
          vk_khr_android_surface := false;
          vk_google_surfaceless_query := false;
          vk_khr_shared_presentable_image := false;
          presentId := true;
          presentWait := true;
          surfaceless_query_capabilities := VkSurfaceCapabilitiesKHR_zero;
          queue_family_properties := [1%Z];
          swapchain_map := {[ 1%Z := sd ]};
          surface_map :=
            match swapchain_surface sd with
            | Some s => {[ 10%Z := s ]}
            | None => ∅
            end;
          semaphore_map := ∅;
          fence_map := ∅;
          queue_map := {[ 7%Z := {| queue_family := 0 |} ]} |};
     qfo_release_image_barrier_map :=
       {[ 21%Z := []; 22%Z := []; 99%Z := [] ]} |}.

(** Three images, the first two acquired. *)
Definition example_images : list SWAPCHAIN_IMAGE :=
  [ example_image 21 true; example_image 22 true;
    {| image_state := None; acquired := false |} ].

Definition example_present (chain : list PNextStruct) (index : Z)
  : VkPresentInfoKHR.t :=
  {| VkPresentInfoKHR.pNext := chain;
     VkPresentInfoKHR.waitSemaphoreCount := 0;
     VkPresentInfoKHR.pWaitSemaphores := [];
     VkPresentInfoKHR.swapchainCount := 1;
     VkPresentInfoKHR.pSwapchains := [1%Z];
     VkPresentInfoKHR.pImageIndices := [index] |}.

Definition example_present_id (id : Z) : PNextStruct :=
  PNext_VkPresentIdKHR
    {| VkPresentIdKHR.swapchainCount := 1;
       VkPresentIdKHR.pPresentIds := [id] |}.

Definition example_rect (ox oy w h : Z) : VkRectLayerKHR :=
  {| offset := {| x := ox; y := oy |};
     extent := {| width := w; height := h |};
     layer := 0 |}.

Definition example_present_regions (rects : list VkRectLayerKHR)
  : PNextStruct :=
  PNext_VkPresentRegionsKHR
    {| VkPresentRegionsKHR.swapchainCount := 1;
       VkPresentRegionsKHR.pRegions :=
         [ {| rectangleCount := length rects; pRectangles := rects |} ] |}.

(** A command buffer of a pool of queue family [family]. *)
Definition example_command_buffer (family : Z) : CMD_BUFFER_STATE :=
  {| createInfo_cb :=
       {| commandPool := 50; level := 0; commandBufferCount := 1 |};
     beginInfo := {| begin_flags := 0 |};
     inheritanceInfo := {| renderPass := 0; subpass := 0; framebuffer := 0 |};
     command_pool :=
       {| createFlags := 0; queueFamilyIndex := family; queue_flags := 1;
          pool_unprotected := true |};
     unprotected := true;
     hasRenderPassInstance := false;
     suspendsRenderPassInstance := false;
     resumesRenderPassInstance := false;
     has_draw_cmd := false;
     has_dispatch_cmd := false;
     has_trace_rays_cmd := false;
     has_build_as_cmd := false;
     state := CB_RECORDING;
     commandCount := 0;
     submitCount := 0;
     pipeline_bound := false;
     commands_since_begin_rendering := 0;
     image_layout_change_count := 1;
     status := 0;
     static_status := 0;
     dynamic_status := 0;
     begin_rendering_func_name := "vkCmdBeginRendering";
     lastBound :=
       vreplicate BindPoint_Count
         {| pipeline_state := 0; pipeline_layout := 0;
            push_descriptor_set := 0; per_set := [] |};
     validate_descriptorsets_in_queuesubmit := [];
     inheritedViewportDepths := [];
     usedViewportScissorCount := 0;
     pipelineStaticViewportCount := 0;
     pipelineStaticScissorCount := 0;
     viewportMask := 0;
     viewportWithCountMask := 0;
     viewportWithCountCount := 0;
     scissorMask := 0;
     scissorWithCountMask := 0;
     scissorWithCountCount := 0;
     dynamicViewports := [];
     trashedViewportMask := 0;
     trashedScissorMask := 0;
     trashedViewportCount := false;
     trashedScissorCount := false;
     usedDynamicViewportCount := false;
     usedDynamicScissorCount := false;
     initial_device_mask := 1;
     primitiveTopology := 3;
     rasterization_disabled := false;
     activeRenderPassBeginInfo := None;
     activeRenderPass := None;
     active_subpasses := None;
     active_attachments := None;
     attachments_view_states := [];
     activeSubpassContents := 0;
     active_render_pass_device_mask := 0;
     activeSubpass := 0;
     activeFramebuffer := None;
     framebuffers := [];
     object_bindings := [];
     broken_bindings := [];
     qfo_transfer_buffer_barriers := {| release := []; acquire := [] |};
     qfo_transfer_image_barriers := {| release := []; acquire := [] |};
     waitedEvents := [];
     writeEventsBeforeWait := [];
     events := [];
     activeQueries := [];
     startedQueries := [];
     resetQueries := [];
     updatedQueries := [];
     image_layout_map := [];
     aliased_image_layout_map := [];
     current_vertex_buffer_binding_info := [];
     vertex_buffer_used := false;
     primaryCommandBuffer := 0;
     linkedCommandBuffers := [];
     queue_submit_functions := [];
     queue_submit_functions_after_render_pass := [];
     cmd_execute_commands_functions := [];
     eventUpdates := [];
     queryUpdates := [];
     validated_descriptor_sets := [];
     descriptorset_cache := [];
     index_buffer_binding :=
       {| index_binding :=
            {| buffer_state := None; binding_size := 0;
               binding_offset := 0; binding_stride := 0 |};
          index_type := 0 |};
     performance_lock_acquired := false;
     performance_lock_released := false;
     debug_label := "frame";
     push_constant_data := [];
     push_constant_data_ranges := 0;
     push_constant_data_update := [];
     push_constant_pipeline_layout_set := 0;
     small_indexed_draw_call_count := 0;
     transform_feedback_active := false;
     conditional_rendering_active := false;
     conditional_rendering_inside_render_pass := false;
     conditional_rendering_subpass := 0;
     dynamicColorWriteEnableAttachmentCount := 0 |}.

(** * Further members of [cmd_buffer_state.h] *)

(** ** [CBStatusFlagBits] *)

Definition CBSTATUS_NONE : Z := 0x00000000.
Definition CBSTATUS_LINE_WIDTH_SET : Z := 0x00000001.
Definition CBSTATUS_DEPTH_BIAS_SET : Z := 0x00000002.
Definition CBSTATUS_BLEND_CONSTANTS_SET : Z := 0x00000004.
Definition CBSTATUS_DEPTH_BOUNDS_SET : Z := 0x00000008.
Definition CBSTATUS_STENCIL_READ_MASK_SET : Z := 0x00000010.
Definition CBSTATUS_STENCIL_WRITE_MASK_SET : Z := 0x00000020.
Definition CBSTATUS_STENCIL_REFERENCE_SET : Z := 0x00000040.
Definition CBSTATUS_VIEWPORT_SET : Z := 0x00000080.
Definition CBSTATUS_SCISSOR_SET : Z := 0x00000100.
Definition CBSTATUS_INDEX_BUFFER_BOUND : Z := 0x00000200.
Definition CBSTATUS_EXCLUSIVE_SCISSOR_SET : Z := 0x00000400.
Definition CBSTATUS_SHADING_RATE_PALETTE_SET : Z := 0x00000800.
Definition CBSTATUS_LINE_STIPPLE_SET : Z := 0x00001000.
Definition CBSTATUS_VIEWPORT_W_SCALING_SET : Z := 0x00002000.
Definition CBSTATUS_CULL_MODE_SET : Z := 0x00004000.
Definition CBSTATUS_FRONT_FACE_SET : Z := 0x00008000.
Definition CBSTATUS_PRIMITIVE_TOPOLOGY_SET : Z := 0x00010000.
Definition CBSTATUS_VIEWPORT_WITH_COUNT_SET : Z := 0x00020000.
Definition CBSTATUS_SCISSOR_WITH_COUNT_SET : Z := 0x00040000.
Definition CBSTATUS_VERTEX_INPUT_BINDING_STRIDE_SET : Z := 0x00080000.
Definition CBSTATUS_DEPTH_TEST_ENABLE_SET : Z := 0x00100000.
Definition CBSTATUS_DEPTH_WRITE_ENABLE_SET : Z := 0x00200000.
Definition CBSTATUS_DEPTH_COMPARE_OP_SET : Z := 0x00400000.
Definition CBSTATUS_DEPTH_BOUNDS_TEST_ENABLE_SET : Z := 0x00800000.
Definition CBSTATUS_STENCIL_TEST_ENABLE_SET : Z := 0x01000000.
Definition CBSTATUS_STENCIL_OP_SET : Z := 0x02000000.
Definition CBSTATUS_DISCARD_RECTANGLE_SET : Z := 0x04000000.
Definition CBSTATUS_SAMPLE_LOCATIONS_SET : Z := 0x08000000.
Definition CBSTATUS_COARSE_SAMPLE_ORDER_SET : Z := 0x10000000.
Definition CBSTATUS_PATCH_CONTROL_POINTS_SET : Z := 0x20000000.
Definition CBSTATUS_RASTERIZER_DISCARD_ENABLE_SET : Z := 0x40000000.
Definition CBSTATUS_DEPTH_BIAS_ENABLE_SET : Z := 0x80000000.
Definition CBSTATUS_LOGIC_OP_SET : Z := 0x100000000.
Definition CBSTATUS_PRIMITIVE_RESTART_ENABLE_SET : Z := 0x200000000.
Definition CBSTATUS_VERTEX_INPUT_SET : Z := 0x400000000.
Definition CBSTATUS_COLOR_WRITE_ENABLE_SET : Z := 0x800000000.
Definition CBSTATUS_ALL_STATE_SET : Z := 0xFFFFFFDFF.

(** The enumerators that stand for one piece of state, in declaration
    order. *)
Definition CBStatusFlagBits_single : list Z :=
  [ CBSTATUS_LINE_WIDTH_SET; CBSTATUS_DEPTH_BIAS_SET;
    CBSTATUS_BLEND_CONSTANTS_SET; CBSTATUS_DEPTH_BOUNDS_SET;
    CBSTATUS_STENCIL_READ_MASK_SET; CBSTATUS_STENCIL_WRITE_MASK_SET;
    CBSTATUS_STENCIL_REFERENCE_SET; CBSTATUS_VIEWPORT_SET;
    CBSTATUS_SCISSOR_SET; CBSTATUS_INDEX_BUFFER_BOUND;
    CBSTATUS_EXCLUSIVE_SCISSOR_SET; CBSTATUS_SHADING_RATE_PALETTE_SET;
    CBSTATUS_LINE_STIPPLE_SET; CBSTATUS_VIEWPORT_W_SCALING_SET;
    CBSTATUS_CULL_MODE_SET; CBSTATUS_FRONT_FACE_SET;
    CBSTATUS_PRIMITIVE_TOPOLOGY_SET; CBSTATUS_VIEWPORT_WITH_COUNT_SET;
    CBSTATUS_SCISSOR_WITH_COUNT_SET; CBSTATUS_VERTEX_INPUT_BINDING_STRIDE_SET;
    CBSTATUS_DEPTH_TEST_ENABLE_SET; CBSTATUS_DEPTH_WRITE_ENABLE_SET;
    CBSTATUS_DEPTH_COMPARE_OP_SET; CBSTATUS_DEPTH_BOUNDS_TEST_ENABLE_SET;
    CBSTATUS_STENCIL_TEST_ENABLE_SET; CBSTATUS_STENCIL_OP_SET;
    CBSTATUS_DISCARD_RECTANGLE_SET; CBSTATUS_SAMPLE_LOCATIONS_SET;
    CBSTATUS_COARSE_SAMPLE_ORDER_SET; CBSTATUS_PATCH_CONTROL_POINTS_SET;
    CBSTATUS_RASTERIZER_DISCARD_ENABLE_SET; CBSTATUS_DEPTH_BIAS_ENABLE_SET;
    CBSTATUS_LOGIC_OP_SET; CBSTATUS_PRIMITIVE_RESTART_ENABLE_SET;
    CBSTATUS_VERTEX_INPUT_SET; CBSTATUS_COLOR_WRITE_ENABLE_SET ].

(** ** [GetMetalExport] *)

(** One structure of the [pNext] chain of a [VkEventCreateInfo]. *)
Inductive EventPNextStruct :=
| EventPNext_VkExportMetalObjectCreateInfoEXT (exportObjectType : Z)
| EventPNext_Other (sType : Z).

Definition VK_EXPORT_METAL_OBJECT_TYPE_METAL_SHARED_EVENT_BIT_EXT : Z := 0x20.

Record VkEventCreateInfo := {
  event_pNext : list EventPNextStruct;
  event_flags : Z
}.

(** The [while] loop of [GetMetalExport]: [LvlFindInChain] skips to the next
    [VkExportMetalObjectCreateInfoEXT]; the loop goes on from the structure
    after it unless the export type matches. *)
Fixpoint GetMetalExport_chain (pNext : list EventPNextStruct) : bool :=
  match pNext with
  | [] => false
  | EventPNext_VkExportMetalObjectCreateInfoEXT exportObjectType :: rest =>
      if (exportObjectType
          =? VK_EXPORT_METAL_OBJECT_TYPE_METAL_SHARED_EVENT_BIT_EXT)%Z
      then true
      else GetMetalExport_chain rest
  | EventPNext_Other _ :: rest => GetMetalExport_chain rest
  end.

Definition GetMetalExport (info : VkEventCreateInfo) : bool :=
  GetMetalExport_chain (event_pNext info).

(** ** Dynamic-rendering attachment indices *)

(** [RENDER_PASS_STATE]: the members [GetDynamicColorAttachmentCount]
    reads. *)
Record RENDER_PASS_STATE := {
  use_dynamic_rendering : bool;
  use_dynamic_rendering_inherited : bool;
  dynamic_rendering_begin_rendering_info_colorAttachmentCount : Z;
  inheritance_rendering_info_colorAttachmentCount : Z
}.

Section DynamicRendering.

(** The render-pass object a non-null [activeRenderPass] points to. *)
Variable render_pass_state : VkHandle -> RENDER_PASS_STATE.

Definition GetDynamicColorAttachmentCount (cb : CMD_BUFFER_STATE) : Z :=
  match activeRenderPass cb with
  | Some rp =>
      if use_dynamic_rendering_inherited (render_pass_state rp) then
        inheritance_rendering_info_colorAttachmentCount (render_pass_state rp)
      else if use_dynamic_rendering (render_pass_state rp) then
        dynamic_rendering_begin_rendering_info_colorAttachmentCount
          (render_pass_state rp)
      else 0%Z
  | None => 0%Z
  end.

Definition GetDynamicColorAttachmentImageIndex (cb : CMD_BUFFER_STATE)
    (index : Z) : Z := index.

Definition GetDynamicColorResolveAttachmentImageIndex (cb : CMD_BUFFER_STATE)
    (index : Z) : Z :=
  wrap32 (index + GetDynamicColorAttachmentCount cb).

Definition GetDynamicDepthAttachmentImageIndex (cb : CMD_BUFFER_STATE) : Z :=
  wrap32 (2 * GetDynamicColorAttachmentCount cb).

Definition GetDynamicDepthResolveAttachmentImageIndex (cb : CMD_BUFFER_STATE)
  : Z :=
  wrap32 (2 * GetDynamicColorAttachmentCount cb + 1).

Definition GetDynamicStencilAttachmentImageIndex (cb : CMD_BUFFER_STATE) : Z :=
  wrap32 (2 * GetDynamicColorAttachmentCount cb + 2).

Definition GetDynamicStencilResolveAttachmentImageIndex
    (cb : CMD_BUFFER_STATE) : Z :=
  wrap32 (2 * GetDynamicColorAttachmentCount cb + 3).

End DynamicRendering.

(** The attachments of a dynamic rendering instance: what the six index
    functions are asked about. *)
Inductive DynamicAttachment :=
| DynamicColor (index : Z)
| DynamicColorResolve (index : Z)
| DynamicDepth
| DynamicDepthResolve
| DynamicStencil
| DynamicStencilResolve.

Definition DynamicAttachmentImageIndex
    (render_pass_state : VkHandle -> RENDER_PASS_STATE)
    (cb : CMD_BUFFER_STATE) (a : DynamicAttachment) : Z :=
  match a with
  | DynamicColor index => GetDynamicColorAttachmentImageIndex cb index
  | DynamicColorResolve index =>
      GetDynamicColorResolveAttachmentImageIndex render_pass_state cb index
  | DynamicDepth => GetDynamicDepthAttachmentImageIndex render_pass_state cb
  | DynamicDepthResolve =>
      GetDynamicDepthResolveAttachmentImageIndex render_pass_state cb
  | DynamicStencil => GetDynamicStencilAttachmentImageIndex render_pass_state cb
  | DynamicStencilResolve =>
      GetDynamicStencilResolveAttachmentImageIndex render_pass_state cb
  end.

(** A colour attachment index below the colour attachment count; the depth
    and stencil attachments always exist. *)
Definition DynamicAttachment_valid (count : Z) (a : DynamicAttachment) : Prop :=
  match a with
  | DynamicColor index | DynamicColorResolve index => (0 <= index < count)%Z
  | _ => True
  end.


(** * Further functions of [wsi_validation.cpp] *)

Definition IsExtentInsideBounds (extent min max : VkExtent2D) : bool :=
  if (width extent <? width min)%Z || (width max <? width extent)%Z
     || (height extent <? height min)%Z || (height max <? height extent)%Z
  then false
  else true.

(** [VkSwapchainCreateFlagBitsKHR] and [VkImageCreateFlagBits] enumerators,
    and the enumerators [GetSwapchainImpliedImageCreateInfo] assigns. *)
Definition VK_SWAPCHAIN_CREATE_SPLIT_INSTANCE_BIND_REGIONS_BIT_KHR : Z := 0x1.
Definition VK_SWAPCHAIN_CREATE_PROTECTED_BIT_KHR : Z := 0x2.
Definition VK_SWAPCHAIN_CREATE_MUTABLE_FORMAT_BIT_KHR : Z := 0x4.
Definition VK_IMAGE_CREATE_MUTABLE_FORMAT_BIT : Z := 0x8.
Definition VK_IMAGE_CREATE_SPLIT_INSTANCE_BIND_REGIONS_BIT : Z := 0x40.
Definition VK_IMAGE_CREATE_EXTENDED_USAGE_BIT : Z := 0x100.
Definition VK_IMAGE_CREATE_PROTECTED_BIT : Z := 0x800.
Definition VK_IMAGE_TYPE_2D : Z := 1.
Definition VK_SAMPLE_COUNT_1_BIT : Z := 1.
Definition VK_IMAGE_TILING_OPTIMAL : Z := 0.
Definition VK_IMAGE_LAYOUT_UNDEFINED : VkImageLayout := 0%Z.

Record VkExtent3D := { width3 : Z; height3 : Z; depth3 : Z }.

Module VkImageCreateInfo.
Record t := {
  flags : Z;
  imageType : Z;
  format : Z;
  extent : VkExtent3D;
  mipLevels : Z;
  arrayLayers : Z;
  samples : Z;
  tiling : Z;
  usage : Z;
  sharingMode : Z;
  queueFamilyIndexCount : Z;
  pQueueFamilyIndices : list Z;
  initialLayout : VkImageLayout
}.
End VkImageCreateInfo.

(** The two members of [VkSwapchainCreateInfoKHR] that the record above
    leaves out. *)
Record VkSwapchainCreateInfoKHR_queues := {
  queueFamilyIndexCount : Z;
  pQueueFamilyIndices : list Z
}.

(** [result.flags] after the three conditional assignments; [LvlInitStruct]
    starts it at zero. *)
Definition implied_image_create_flags (flags : Z) : Z :=
  let result := 0%Z in
  let result :=
    if negb (Z.land flags
               VK_SWAPCHAIN_CREATE_SPLIT_INSTANCE_BIND_REGIONS_BIT_KHR =? 0)%Z
    then Z.lor result VK_IMAGE_CREATE_SPLIT_INSTANCE_BIND_REGIONS_BIT
    else result in
  let result :=
    if negb (Z.land flags VK_SWAPCHAIN_CREATE_PROTECTED_BIT_KHR =? 0)%Z
    then Z.lor result VK_IMAGE_CREATE_PROTECTED_BIT
    else result in
  if negb (Z.land flags VK_SWAPCHAIN_CREATE_MUTABLE_FORMAT_BIT_KHR =? 0)%Z
  then Z.lor result
         (Z.lor VK_IMAGE_CREATE_MUTABLE_FORMAT_BIT
            VK_IMAGE_CREATE_EXTENDED_USAGE_BIT)
  else result.

Definition GetSwapchainImpliedImageCreateInfo
    (pCreateInfo : VkSwapchainCreateInfoKHR)
    (queues : VkSwapchainCreateInfoKHR_queues) : VkImageCreateInfo.t :=
  {| VkImageCreateInfo.flags :=
       implied_image_create_flags (create_flags pCreateInfo);
     VkImageCreateInfo.imageType := VK_IMAGE_TYPE_2D;
     VkImageCreateInfo.format := imageFormat pCreateInfo;
     VkImageCreateInfo.extent :=
       {| width3 := width (imageExtent pCreateInfo);
          height3 := height (imageExtent pCreateInfo);
          depth3 := 1 |};
     VkImageCreateInfo.mipLevels := 1;
     VkImageCreateInfo.arrayLayers := imageArrayLayers pCreateInfo;
     VkImageCreateInfo.samples := VK_SAMPLE_COUNT_1_BIT;
     VkImageCreateInfo.tiling := VK_IMAGE_TILING_OPTIMAL;
     VkImageCreateInfo.usage := imageUsage pCreateInfo;
     VkImageCreateInfo.sharingMode := imageSharingMode pCreateInfo;
     VkImageCreateInfo.queueFamilyIndexCount := queueFamilyIndexCount queues;
     VkImageCreateInfo.pQueueFamilyIndices := pQueueFamilyIndices queues;
     VkImageCreateInfo.initialLayout := VK_IMAGE_LAYOUT_UNDEFINED |}.

(** Bit [b] (a single-bit mask) is set in [flags]: the test the C++ code
    writes [flags & b]. *)
Definition has_flag (flags b : Z) : bool := negb (Z.land flags b =? 0)%Z.

(** ** Further classes of messages *)

(** The array-layer error of rectangle [j] of region [i]. *)
Definition is_RectLayer (i j : nat) (m : Message) : bool :=
  match m with
  | Msg_RectLayer i' j' _ _ => (i' =? i)%nat && (j' =? j)%nat
  | _ => false
  end.

(** The errors of the image block that name entry [i] of [pSwapchains]. *)
Definition is_present_entry (i : nat) (m : Message) : bool :=
  match m with
  | Msg_ImageIndexTooLarge j _ _ | Msg_ImageNotAcquired j _
  | Msg_ImageLayout j _ | Msg_QueueCannotPresent j => (j =? i)%nat
  | _ => false
  end.

Definition is_QueueCannotPresent (i : nat) (m : Message) : bool :=
  match m with
  | Msg_QueueCannotPresent j => (j =? i)%nat
  | _ => false
  end.

Definition is_PresentIdFeature (i : nat) (m : Message) : bool :=
  match m with
  | Msg_PresentIdFeature j _ => (j =? i)%nat
  | _ => false
  end.

Definition is_WaitSemaphoreNotBinary (i : nat) (m : Message) : bool :=
  match m with
  | Msg_WaitSemaphoreNotBinary j _ => (j =? i)%nat
  | _ => false
  end.

Definition is_PresentTimesCount (m : Message) : bool :=
  match m with Msg_PresentTimesCount _ _ => true | _ => false end.

Definition is_PresentIdCount (m : Message) : bool :=
  match m with Msg_PresentIdCount _ _ => true | _ => false end.

Definition is_SemaphoreNotBinary (m : Message) : bool :=
  match m with Msg_SemaphoreNotBinary _ _ => true | _ => false end.

Definition is_SemaphoreSignaled (m : Message) : bool :=
  match m with Msg_SemaphoreSignaled _ => true | _ => false end.

Definition is_OldSwapchainSurface (m : Message) : bool :=
  match m with Msg_OldSwapchainSurface _ => true | _ => false end.

Definition is_PresentWaitFeature (m : Message) : bool :=
  match m with Msg_PresentWaitFeature => true | _ => false end.

(** The part of a present validation's log that block [b] wrote, given the
    five parts in call order. *)
Definition block_log (b : PresentBlock) (l1 l2 l3 l4 l5 : list LogRecord)
  : list LogRecord :=
  match b with
  | Block_semaphores => l1
  | Block_images => l2
  | Block_regions => l3
  | Block_times => l4
  | Block_ids => l5
  | Block_elsewhere => []
  end.

(** ** [vkAcquireNextImage2KHR] *)

Record VkAcquireNextImageInfoKHR := {
  acquire_swapchain : VkHandle;
  acquire_timeout : Z;
  acquire_semaphore : VkHandle;
  acquire_fence : VkHandle;
  deviceMask : Z
}.

(** The device-mask checks of the layer, which live outside the two files:
    each takes the mask, the objects to report and the rule identifier. *)
Record DeviceMaskChecks := {
  ValidateDeviceMaskToPhysicalDeviceCount :
    Z -> list VkHandle -> string -> CollaboratorResult;
  ValidateDeviceMaskToZero : Z -> list VkHandle -> string -> CollaboratorResult
}.

Definition PreCallValidateAcquireNextImage2KHR (ext : Collaborators)
    (masks : DeviceMaskChecks) (cc : CoreChecks)
    (pAcquireInfo : VkAcquireNextImageInfoKHR) : W bool :=
  let skip := false in
  let objlist := [acquire_swapchain pAcquireInfo] in
  skip <-
    skip_or skip
      (collaborator "ValidateDeviceMaskToPhysicalDeviceCount"
         (ValidateDeviceMaskToPhysicalDeviceCount masks
            (deviceMask pAcquireInfo) objlist
            "VUID-VkAcquireNextImageInfoKHR-deviceMask-01290")) ;;
  skip <-
    skip_or skip
      (collaborator "ValidateDeviceMaskToZero"
         (ValidateDeviceMaskToZero masks (deviceMask pAcquireInfo) objlist
            "VUID-VkAcquireNextImageInfoKHR-deviceMask-01291")) ;;
  skip_or skip
    (ValidateAcquireNextImage ext cc ACQUIRE_VERSION_2
       (acquire_swapchain pAcquireInfo) (acquire_timeout pAcquireInfo)
       (acquire_semaphore pAcquireInfo) (acquire_fence pAcquireInfo)
       "vkAcquireNextImage2KHR"
       "VUID-VkAcquireNextImageInfoKHR-semaphore-03266").

(** What the acquire validation reports, read off the registered state. *)
Definition acquire_too_many (cc : CoreChecks) (swapchain : VkHandle)
    (timeout : Z) : bool :=
  match Get_SWAPCHAIN_NODE cc swapchain with
  | Some sd =>
      (timeout =? UINT64_MAX)%Z && (acquire_bound cc sd <? acquired_images sd)%Z
  | None => false
  end.

Definition acquire_from_retired (cc : CoreChecks) (swapchain : VkHandle)
  : bool :=
  match Get_SWAPCHAIN_NODE cc swapchain with
  | Some sd => retired sd
  | None => false
  end.

Definition acquire_semaphore_not_binary (cc : CoreChecks) (semaphore : VkHandle)
  : bool :=
  match Get_SEMAPHORE_STATE cc semaphore with
  | Some s => negb (semaphore_type s =? VK_SEMAPHORE_TYPE_BINARY)%Z
  | None => false
  end.

Definition acquire_semaphore_signaled (cc : CoreChecks) (semaphore : VkHandle)
  : bool :=
  match Get_SEMAPHORE_STATE cc semaphore with
  | Some s =>
      (semaphore_type s =? VK_SEMAPHORE_TYPE_BINARY)%Z
      && match Scope s with kSyncScopeInternal => true | _ => false end
      && negb (CanBeSignaled s)
  | None => false
  end.

(** The rule identifiers of the two acquire entry points. *)
Definition acquire_too_many_vuid (version : AcquireVersion) : string :=
  match version with
  | ACQUIRE_VERSION_2 => "VUID-vkAcquireNextImage2KHR-swapchain-01803"
  | ACQUIRE_VERSION_1 => "VUID-vkAcquireNextImageKHR-swapchain-01802"
  end.

Definition acquire_retired_vuid (version : AcquireVersion) : string :=
  match version with
  | ACQUIRE_VERSION_2 => "VUID-VkAcquireNextImageInfoKHR-swapchain-01675"
  | ACQUIRE_VERSION_1 => "VUID-vkAcquireNextImageKHR-swapchain-01285"
  end.

(** The swapchain-related records of an acquire log carry the rule
    identifiers of [version]. *)
Definition acquire_vuids (version : AcquireVersion) (log : list LogRecord)
  : Prop :=
  forall r, In r log ->
    (is_TooManyAcquired (log_message r) = true ->
     log_vuid r = acquire_too_many_vuid version)
    /\ (is_AcquireRetired (log_message r) = true ->
        log_vuid r = acquire_retired_vuid version).

(** The record of the presentation-support error. *)
Definition create_surface_record (cc : CoreChecks) (func_name : string)
    (s : SURFACE_STATE) : LogRecord :=
  {| log_objects := [device (tracker cc); surface_handle s];
     log_vuid := "VUID-VkSwapchainCreateInfoKHR-surface-01270";
     log_message := Msg_SurfaceNotSupported func_name |}.

(** ** [vkCreateSharedSwapchainsKHR] *)

(** Body of the loop over [pCreateInfos]; the function name carries
    [swapchainCount], not the index. *)
Definition create_shared_swapchain (ext : Collaborators) (cc : CoreChecks)
    (swapchainCount : nat) (pCreateInfos : list VkSwapchainCreateInfoKHR)
    (i : nat) (skip : bool) : W bool :=
  info <- deref (pCreateInfos !! i) ;;
  let surface_state := Get_SURFACE_STATE cc (surface info) in
  let old_swapchain_state := Get_SWAPCHAIN_NODE cc (oldSwapchain info) in
  let func_name :=
    ("vkCreateSharedSwapchainsKHR[" ++ pretty swapchainCount ++ "]()")%string
  in
  skip_or skip
    (ValidateCreateSwapchain ext cc func_name info surface_state
       old_swapchain_state).

(** [pCreateInfos] is [None] for a null pointer. *)
Definition PreCallValidateCreateSharedSwapchainsKHR (ext : Collaborators)
    (cc : CoreChecks) (swapchainCount : nat)
    (pCreateInfos : option (list VkSwapchainCreateInfoKHR)) : W bool :=
  let skip := false in
  match pCreateInfos with
  | Some infos =>
      for_range swapchainCount
        (create_shared_swapchain ext cc swapchainCount infos) skip
  | None => ret skip
  end.

(** ** [vkGetSwapchainImagesKHR] *)

Definition VK_SUCCESS : Z := 0.
Definition VK_INCOMPLETE : Z := 5.

(** Code of the state tracker that [PostCallRecordGetSwapchainImagesKHR]
    relies on: the base-class hook, which creates the image states, and the
    image registry [Get<IMAGE_STATE>] of a tracker. *)
Record SwapchainImagesHooks := {
  StateTracker_PostCallRecordGetSwapchainImagesKHR :
    ValidationStateTracker -> VkHandle -> nat -> option (list VkHandle) -> Z ->
    ValidationStateTracker;
  Get_IMAGE_STATE : ValidationStateTracker -> VkHandle -> option IMAGE_STATE
}.

(** The first loop: [new_swapchain_image_index] advances from [index] while
    it is below the count and the image record at it has an image state;
    [remaining] is the distance to the count. *)
Fixpoint new_swapchain_image_index (images : list SWAPCHAIN_IMAGE)
    (index remaining : nat) : nat :=
  match remaining with
  | O => index
  | S remaining' =>
      match images !! index with
      | None => index
      | Some swapchain_image =>
          match image_state swapchain_image with
          | None => index
          | Some _ => new_swapchain_image_index images (S index) remaining'
          end
      end
  end.

(** The function returns the new state and, in call order, the image states
    on which it called [SetInitialLayoutMap].  It has no result when the
    swapchain or one of the images is not registered where the C++ code
    dereferences it, or when [pSwapchainImages] is shorter than the count. *)
Definition PostCallRecordGetSwapchainImagesKHR (hooks : SwapchainImagesHooks)
    (cc : CoreChecks) (swapchain : VkHandle) (pSwapchainImageCount : nat)
    (pSwapchainImages : option (list VkHandle)) (result : Z)
  : option (CoreChecks * list IMAGE_STATE) :=
  let succeeded := (result =? VK_SUCCESS)%Z || (result =? VK_INCOMPLETE)%Z in
  index ←
    (if succeeded && is_some pSwapchainImages then
       swapchain_state ← Get_SWAPCHAIN_NODE cc swapchain;
       Some (new_swapchain_image_index (images swapchain_state) 0
               pSwapchainImageCount)
     else Some 0%nat);
  let tracker' :=
    StateTracker_PostCallRecordGetSwapchainImagesKHR hooks (tracker cc)
      swapchain pSwapchainImageCount pSwapchainImages result in
  initialised ←
    (match pSwapchainImages with
     | Some handles =>
         if succeeded then
           mapM (fun i => handle ← handles !! i;
                          Get_IMAGE_STATE hooks tracker' handle)
                (seq index (pSwapchainImageCount - index))
         else Some []
     | None => Some []
     end);
  Some ({| tracker := tracker';
           qfo_release_image_barrier_map := qfo_release_image_barrier_map cc |},
        initialised).

(** An image record at index [i] that has an image state. *)
Definition image_tracked (imgs : list SWAPCHAIN_IMAGE) (i : nat) : Prop :=
  exists si ist, imgs !! i = Some si /\ image_state si = Some ist.

(** ** Physical-device queries *)

(** [PHYSICAL_DEVICE_STATE]: the members the queries read;
    [pd_queue_family_properties] is the member [queue_family_properties]. *)
Record PHYSICAL_DEVICE_STATE := {
  pd_queue_family_properties : list Z;
  vkGetPhysicalDeviceDisplayPlanePropertiesKHR_called : bool;
  display_plane_property_count : Z
}.

(** One constructor per [LogError] call of the query validation. *)
Inductive QueryMessage :=
| QMsg_SurfaceNotSupported (func_name : string)
| QMsg_PlaneIndex (api_name : string) (planeIndex last_index : Z)
| QMsg_GlobalAlpha (global_alpha : spec_float)
| QMsg_Width (width limit : Z)
| QMsg_Height (height limit : Z)
| QMsg_CreatePlaneIndex (planeIndex last_index : Z)
| QMsg_AlphaMode (alphaMode planeIndex supportedAlpha : Z).

Record QueryLogRecord := {
  qlog_objects : list VkHandle;
  qlog_vuid : string;
  qlog_message : QueryMessage
}.

(** [DISPLAY_MODE_STATE]; [dm_physical_device] is the member
    [physical_device]. *)
Record DISPLAY_MODE_STATE := { dm_physical_device : VkHandle }.

(** What the query validation reads besides the device-level state:
    - [physical_device_map], [display_mode_map]: the instance's registries
      of physical devices and display modes;
    - [GetQueueSupport_at]: [SURFACE_STATE::GetQueueSupport] at any physical
      device;
    - [physical_device]: the physical device of the validated device;
    - [physical_device_count] and [pPhysicalDevices]: the device group the
      device was created for;
    - [maxImageDimension2D]: the limit
      [DispatchGetPhysicalDeviceProperties] returns for a physical device;
    - [supportedAlpha]: the member of the capabilities
      [DispatchGetDisplayPlaneCapabilitiesKHR] returns for a physical
      device, display mode and plane index;
    - [query_LogError_result]: the verdict [LogError] returns. *)
Record PhysicalDeviceQueries := {
  physical_device_map : gmap Z PHYSICAL_DEVICE_STATE;
  display_mode_map : gmap Z DISPLAY_MODE_STATE;
  GetQueueSupport_at : SURFACE_STATE -> VkHandle -> Z -> bool;
  physical_device : VkHandle;
  physical_device_count : nat;
  pPhysicalDevices : list VkHandle;
  maxImageDimension2D : VkHandle -> Z;
  supportedAlpha : VkHandle -> VkHandle -> Z -> Z;
  query_LogError_result : QueryLogRecord -> bool
}.

Definition Get_PHYSICAL_DEVICE_STATE (env : PhysicalDeviceQueries)
    (h : VkHandle) :=
  physical_device_map env !! h.

(** [skip |= LogError (...)] of the query validation: the new flag and the
    record. *)
Definition query_LogError (env : PhysicalDeviceQueries) (skip : bool)
    (objects : list VkHandle) (vuid : string) (msg : QueryMessage)
  : bool * list QueryLogRecord :=
  let r := {| qlog_objects := objects; qlog_vuid := vuid;
              qlog_message := msg |} in
  (skip || query_LogError_result env r, [r]).

(** The loop over the queue families leaves at the first family that
    supports the surface, as [existsb] does. *)
Definition ValidatePhysicalDeviceSurfaceSupport (env : PhysicalDeviceQueries)
    (cc : CoreChecks) (physicalDevice surface : VkHandle)
    (vuid func_name : string) : bool * list QueryLogRecord :=
  let skip := false in
  match Get_PHYSICAL_DEVICE_STATE env physicalDevice,
        Get_SURFACE_STATE cc surface with
  | Some pd_state, Some surface_state =>
      let is_supported :=
        existsb
          (fun i =>
             GetQueueSupport_at env surface_state physicalDevice (Z.of_nat i))
          (seq 0 (length (pd_queue_family_properties pd_state))) in
      if negb is_supported then
        query_LogError env skip [physicalDevice] vuid
          (QMsg_SurfaceNotSupported func_name)
      else (skip, [])
  | _, _ => (skip, [])
  end.

(** The loop of the device-group query over [pPhysicalDevices]. *)
Fixpoint device_group_surface_support (env : PhysicalDeviceQueries)
    (cc : CoreChecks) (surface : VkHandle) (indices : list nat)
    (st : bool * list QueryLogRecord) : option (bool * list QueryLogRecord) :=
  match indices with
  | [] => Some st
  | i :: rest =>
      physicalDevice ← pPhysicalDevices env !! i;
      let '(r, l) :=
        ValidatePhysicalDeviceSurfaceSupport env cc physicalDevice surface
          "VUID-vkGetDeviceGroupSurfacePresentModesKHR-surface-06212"
          "vkGetDeviceGroupSurfacePresentModesKHR" in
      device_group_surface_support env cc surface rest
        (fst st || r, snd st ++ l)
  end.

Definition PreCallValidateGetDeviceGroupSurfacePresentModesKHR
    (env : PhysicalDeviceQueries) (cc : CoreChecks) (surface : VkHandle)
  : option (bool * list QueryLogRecord) :=
  let skip := false in
  if (physical_device_count env =? 1)%nat then
    let '(r, l) :=
      ValidatePhysicalDeviceSurfaceSupport env cc (physical_device env) surface
        "VUID-vkGetDeviceGroupSurfacePresentModesKHR-surface-06212"
        "vkGetDeviceGroupSurfacePresentModesKHR" in
    Some (skip || r, l)
  else
    device_group_surface_support env cc surface
      (seq 0 (physical_device_count env)) (skip, []).

(** [pd_state] is dereferenced without a null check. *)
Definition ValidateGetPhysicalDeviceDisplayPlanePropertiesKHRQuery
    (env : PhysicalDeviceQueries) (physicalDevice : VkHandle) (planeIndex : Z)
    (api_name : string) : option (bool * list QueryLogRecord) :=
  let skip := false in
  pd_state ← Get_PHYSICAL_DEVICE_STATE env physicalDevice;
  if vkGetPhysicalDeviceDisplayPlanePropertiesKHR_called pd_state then
    if (display_plane_property_count pd_state <=? planeIndex)%Z then
      Some (query_LogError env skip [physicalDevice]
              "VUID-vkGetDisplayPlaneSupportedDisplaysKHR-planeIndex-01249"
              (QMsg_PlaneIndex api_name planeIndex
                 (wrap32 (display_plane_property_count pd_state - 1))))
    else Some (skip, [])
  else Some (skip, []).

Definition PreCallValidateGetDisplayPlaneSupportedDisplaysKHR
    (env : PhysicalDeviceQueries) (physicalDevice : VkHandle) (planeIndex : Z)
  : option (bool * list QueryLogRecord) :=
  '(r, l) ←
    ValidateGetPhysicalDeviceDisplayPlanePropertiesKHRQuery env physicalDevice
      planeIndex "vkGetDisplayPlaneSupportedDisplaysKHR";
  Some (false || r, l).

Definition PreCallValidateGetDisplayPlaneCapabilitiesKHR
    (env : PhysicalDeviceQueries) (physicalDevice mode : VkHandle)
    (planeIndex : Z) : option (bool * list QueryLogRecord) :=
  '(r, l) ←
    ValidateGetPhysicalDeviceDisplayPlanePropertiesKHRQuery env physicalDevice
      planeIndex "vkGetDisplayPlaneCapabilitiesKHR";
  Some (false || r, l).

(** [VkDisplayPlaneInfo2KHR]. *)
Record VkDisplayPlaneInfo2KHR := {
  plane_info_mode : VkHandle;
  plane_info_planeIndex : Z
}.

Definition PreCallValidateGetDisplayPlaneCapabilities2KHR
    (env : PhysicalDeviceQueries) (physicalDevice : VkHandle)
    (pDisplayPlaneInfo : VkDisplayPlaneInfo2KHR)
  : option (bool * list QueryLogRecord) :=
  '(r, l) ←
    ValidateGetPhysicalDeviceDisplayPlanePropertiesKHRQuery env physicalDevice
      (plane_info_planeIndex pDisplayPlaneInfo)
      "vkGetDisplayPlaneCapabilities2KHR";
  Some (false || r, l).

(** ** [vkCreateDisplayPlaneSurfaceKHR] *)

Definition VK_DISPLAY_PLANE_ALPHA_GLOBAL_BIT_KHR : Z := 0x2.

(** [VkDisplaySurfaceCreateInfoKHR]: the members that are read.
    [globalAlpha] is a [float]: a binary32 number in canonical form.
    [display_imageExtent] is the member [imageExtent]. *)
Record VkDisplaySurfaceCreateInfoKHR := {
  displayMode : VkHandle;
  planeIndex : Z;
  globalAlpha : spec_float;
  alphaMode : Z;
  display_imageExtent : VkExtent2D
}.

(** The [float] constants [1.0f] and [0.0f]. *)
Definition float_one : spec_float := S754_finite false 8388608 (-23).
Definition float_zero : spec_float := S754_zero false.

(** [skip |= LogError (...)], on the flag and the log so far. *)
Definition query_log (env : PhysicalDeviceQueries)
    (st : bool * list QueryLogRecord) (objects : list VkHandle)
    (vuid : string) (msg : QueryMessage) : bool * list QueryLogRecord :=
  let r := {| qlog_objects := objects; qlog_vuid := vuid;
              qlog_message := msg |} in
  (fst st || query_LogError_result env r, snd st ++ [r]).

(** The function has no result when the display mode is registered and its
    physical device is not: [pd_state] is dereferenced without a check. *)
Definition PreCallValidateCreateDisplayPlaneSurfaceKHR
    (env : PhysicalDeviceQueries) (pCreateInfo : VkDisplaySurfaceCreateInfoKHR)
  : option (bool * list QueryLogRecord) :=
  let st := (false, []) in
  let display_mode := displayMode pCreateInfo in
  let plane_index := planeIndex pCreateInfo in
  let st :=
    if (alphaMode pCreateInfo =? VK_DISPLAY_PLANE_ALPHA_GLOBAL_BIT_KHR)%Z then
      let global_alpha := globalAlpha pCreateInfo in
      if SFltb float_one global_alpha || SFltb global_alpha float_zero then
        query_log env st [display_mode]
          "VUID-VkDisplaySurfaceCreateInfoKHR-alphaMode-01254"
          (QMsg_GlobalAlpha global_alpha)
      else st
    else st in
  match display_mode_map env !! display_mode with
  | Some dm_state =>
      let physical_device := dm_physical_device dm_state in
      let pd_state := Get_PHYSICAL_DEVICE_STATE env physical_device in
      let limit := maxImageDimension2D env physical_device in
      let width := width (display_imageExtent pCreateInfo) in
      let height := height (display_imageExtent pCreateInfo) in
      let st :=
        if (limit <=? width)%Z then
          query_log env st [display_mode]
            "VUID-VkDisplaySurfaceCreateInfoKHR-width-01256"
            (QMsg_Width width limit)
        else st in
      let st :=
        if (limit <=? height)%Z then
          query_log env st [display_mode]
            "VUID-VkDisplaySurfaceCreateInfoKHR-width-01256"
            (QMsg_Height height limit)
        else st in
      pd_state ← pd_state;
      if vkGetPhysicalDeviceDisplayPlanePropertiesKHR_called pd_state then
        if (display_plane_property_count pd_state <=? plane_index)%Z then
          Some (query_log env st [display_mode]
                  "VUID-VkDisplaySurfaceCreateInfoKHR-planeIndex-01252"
                  (QMsg_CreatePlaneIndex plane_index
                     (wrap32 (display_plane_property_count pd_state - 1))))
        else
          let supported :=
            supportedAlpha env physical_device display_mode plane_index in
          if (Z.land (alphaMode pCreateInfo) supported =? 0)%Z then
            Some (query_log env st [display_mode]
                    "VUID-VkDisplaySurfaceCreateInfoKHR-alphaMode-01255"
                    (QMsg_AlphaMode (alphaMode pCreateInfo) plane_index
                       supported))
          else Some st
      else Some st
  | None => Some st
  end.

(** Some record of a query log carries a message of the class [P]. *)
Definition query_reported (P : QueryMessage -> bool)
    (log : list QueryLogRecord) : bool :=
  existsb (fun r => P (qlog_message r)) log.

Definition is_QMsg_GlobalAlpha (m : QueryMessage) : bool :=
  match m with QMsg_GlobalAlpha _ => true | _ => false end.
Definition is_QMsg_Width (m : QueryMessage) : bool :=
  match m with QMsg_Width _ _ => true | _ => false end.
Definition is_QMsg_Height (m : QueryMessage) : bool :=
  match m with QMsg_Height _ _ => true | _ => false end.
Definition is_QMsg_CreatePlaneIndex (m : QueryMessage) : bool :=
  match m with QMsg_CreatePlaneIndex _ _ => true | _ => false end.
Definition is_QMsg_AlphaMode (m : QueryMessage) : bool :=
  match m with QMsg_AlphaMode _ _ _ => true | _ => false end.

(** ** Test data for the further properties *)

(** A command buffer of a pool of queue family [family] inside the render
    pass instance of the render-pass object 60. *)
Definition example_command_buffer_rendering (family : Z) : CMD_BUFFER_STATE :=
  {| createInfo_cb :=
       {| commandPool := 50; level := 0; commandBufferCount := 1 |};
     beginInfo := {| begin_flags := 0 |};
     inheritanceInfo := {| renderPass := 0; subpass := 0; framebuffer := 0 |};
     command_pool :=
       {| createFlags := 0; queueFamilyIndex := family; queue_flags := 1;
          pool_unprotected := true |};
     unprotected := true;
     hasRenderPassInstance := true;
     suspendsRenderPassInstance := false;
     resumesRenderPassInstance := false;
     has_draw_cmd := false;
     has_dispatch_cmd := false;
     has_trace_rays_cmd := false;
     has_build_as_cmd := false;
     state := CB_RECORDING;
     commandCount := 0;
     submitCount := 0;
     pipeline_bound := false;
     commands_since_begin_rendering := 0;
     image_layout_change_count := 1;
     status := 0;
     static_status := 0;
     dynamic_status := 0;
     begin_rendering_func_name := "vkCmdBeginRendering";
     lastBound :=
       vreplicate BindPoint_Count
         {| pipeline_state := 0; pipeline_layout := 0;
            push_descriptor_set := 0; per_set := [] |};
     validate_descriptorsets_in_queuesubmit := [];
     inheritedViewportDepths := [];
     usedViewportScissorCount := 0;
     pipelineStaticViewportCount := 0;
     pipelineStaticScissorCount := 0;
     viewportMask := 0;
     viewportWithCountMask := 0;
     viewportWithCountCount := 0;
     scissorMask := 0;
     scissorWithCountMask := 0;
     scissorWithCountCount := 0;
     dynamicViewports := [];
     trashedViewportMask := 0;
     trashedScissorMask := 0;
     trashedViewportCount := false;
     trashedScissorCount := false;
     usedDynamicViewportCount := false;
     usedDynamicScissorCount := false;
     initial_device_mask := 1;
     primitiveTopology := 3;
     rasterization_disabled := false;
     activeRenderPassBeginInfo := None;
     activeRenderPass := Some 60%Z;
     active_subpasses := None;
     active_attachments := None;
     attachments_view_states := [];
     activeSubpassContents := 0;
     active_render_pass_device_mask := 0;
     activeSubpass := 0;
     activeFramebuffer := None;
     framebuffers := [];
     object_bindings := [];
     broken_bindings := [];
     qfo_transfer_buffer_barriers := {| release := []; acquire := [] |};
     qfo_transfer_image_barriers := {| release := []; acquire := [] |};
     waitedEvents := [];
     writeEventsBeforeWait := [];
     events := [];
     activeQueries := [];
     startedQueries := [];
     resetQueries := [];
     updatedQueries := [];
     image_layout_map := [];
     aliased_image_layout_map := [];
     current_vertex_buffer_binding_info := [];
     vertex_buffer_used := false;
     primaryCommandBuffer := 0;
     linkedCommandBuffers := [];
     queue_submit_functions := [];
     queue_submit_functions_after_render_pass := [];
     cmd_execute_commands_functions := [];
     eventUpdates := [];
     queryUpdates := [];
     validated_descriptor_sets := [];
     descriptorset_cache := [];
     index_buffer_binding :=
       {| index_binding :=
            {| buffer_state := None; binding_size := 0;
               binding_offset := 0; binding_stride := 0 |};
          index_type := 0 |};
     performance_lock_acquired := false;
     performance_lock_released := false;
     debug_label := "frame";
     push_constant_data := [];
     push_constant_data_ranges := 0;
     push_constant_data_update := [];
     push_constant_pipeline_layout_set := 0;
     small_indexed_draw_call_count := 0;
     transform_feedback_active := false;
     conditional_rendering_active := false;
     conditional_rendering_inside_render_pass := false;
     conditional_rendering_subpass := 0;
     dynamicColorWriteEnableAttachmentCount := 0 |}.

(** A render-pass object begun by [vkCmdBeginRendering] with two colour
    attachments. *)
Definition example_render_pass_state (rp : VkHandle) : RENDER_PASS_STATE :=
  {| use_dynamic_rendering := true;
     use_dynamic_rendering_inherited := false;
     dynamic_rendering_begin_rendering_info_colorAttachmentCount := 2;
     inheritance_rendering_info_colorAttachmentCount := 0 |}.

(** A surface (handle 11) that no queue family can present to. *)
Definition example_unsupported_surface : SURFACE_STATE :=
  {| surface_handle := 11;
     GetCapabilities :=
       {| minImageCount := 2; maxImageCount := 8;
          currentTransform := 1; supportedTransforms := 1 |};
     GetQueueSupport := fun _ => false;
     surface_swapchain := Some 2%Z |}.

Definition example_create_info_on (surf old : VkHandle)
  : VkSwapchainCreateInfoKHR :=
  {| create_flags := 0;
     surface := surf;
     create_minImageCount := 3;
     imageFormat := 44;
     imageColorSpace := 0;
     imageExtent := {| width := 100; height := 100 |};
     imageArrayLayers := 1;
     imageUsage := 16;
     imageSharingMode := 0;
     preTransform := 1;
     compositeAlpha := 1;
     presentMode := 2;
     clipped := true;
     oldSwapchain := old |}.

(** A retired swapchain on the unsupported surface. *)
Definition example_retired_swapchain : SWAPCHAIN_NODE :=
  {| createInfo := example_create_info_on 11 0;
     retired := true;
     images := example_images;
     acquired_images := 0;
     max_present_id := 0;
     swapchain_surface := Some example_unsupported_surface |}.

(** A device with two surfaces (10 and 11) and two swapchains (1 on surface
    10, the retired 2 on surface 11), a timeline semaphore (30) and a binary
    semaphore that cannot be signaled (31); neither [presentId] nor
    [presentWait] is enabled. *)
Definition example_device2 : CoreChecks :=
  {| tracker :=
       {| device := 100;
          vk_khr_android_surface := false;
          vk_google_surfaceless_query := false;
          vk_khr_shared_presentable_image := false;
          presentId := false;
          presentWait := false;
          surfaceless_query_capabilities := VkSurfaceCapabilitiesKHR_zero;
          queue_family_properties := [1%Z];
          swapchain_map :=
            {[ 1%Z := example_swapchain false example_images 2 2 0 1;
               2%Z := example_retired_swapchain ]};
          surface_map :=
            {[ 10%Z := example_surface 2;
               11%Z := example_unsupported_surface ]};
          semaphore_map :=
            {[ 30%Z := {| semaphore_type := VK_SEMAPHORE_TYPE_TIMELINE;
                          Scope := kSyncScopeInternal;
                          CanBeSignaled := true |};
               31%Z := {| semaphore_type := VK_SEMAPHORE_TYPE_BINARY;
                          Scope := kSyncScopeInternal;
                          CanBeSignaled := false |} ]};
          fence_map := ∅;
          queue_map := {[ 7%Z := {| queue_family := 0 |} ]} |};
     qfo_release_image_barrier_map := {[ 21%Z := [] ]} |}.

(** Collaborators whose [LogError] never asks to return. *)
Definition example_collaborators_continue : Collaborators :=
  {| LogError_result := fun _ => false;
     ValidateFenceForSubmit := fun _ _ _ _ => (false, []);
     ValidateWaitSemaphore := fun _ _ _ _ _ _ => (false, []);
     FindLayouts := fun _ => Some [VK_IMAGE_LAYOUT_PRESENT_SRC_KHR];
     ValidateCreateSwapchainLimits := fun _ _ _ => (false, []);
     StateTracker_PreCallRecordDestroySwapchainKHR := fun st _ => st |}.

(** A present call with the given wait semaphores, swapchains, image
    indices and extension structures. *)
Definition example_present_on (semaphores swapchains : list VkHandle)
    (indices : list Z) (chain : list PNextStruct) : VkPresentInfoKHR.t :=
  {| VkPresentInfoKHR.pNext := chain;
     VkPresentInfoKHR.waitSemaphoreCount := length semaphores;
     VkPresentInfoKHR.pWaitSemaphores := semaphores;
     VkPresentInfoKHR.swapchainCount := length swapchains;
     VkPresentInfoKHR.pSwapchains := swapchains;
     VkPresentInfoKHR.pImageIndices := indices |}.

(** State-tracker hooks under which every image handle is registered and
    the base-class hook leaves the tracker as it is. *)
Definition example_hooks : SwapchainImagesHooks :=
  {| StateTracker_PostCallRecordGetSwapchainImagesKHR :=
       fun st _ _ _ _ => st;
     Get_IMAGE_STATE :=
       fun _ h =>
         Some {| image := h;
                 image_extent := {| width := 100; height := 100 |} |} |}.

(** ** The source rectangle of a display present *)

Definition is_DisplaySrcRect (m : Message) : bool :=
  match m with Msg_DisplaySrcRect _ _ => true | _ => false end.

(** The image the swapchain loop has reached when it looks at the
    [VkDisplayPresentInfoKHR]: entry [i] names a registered swapchain and an
    index below its image count, and the image record there has an image
    state and is acquired. *)
Definition present_entry_image (cc : CoreChecks) (info : VkPresentInfoKHR.t)
    (i : nat) : option IMAGE_STATE :=
  sc ← VkPresentInfoKHR.pSwapchains info !! i;
  sd ← Get_SWAPCHAIN_NODE cc sc;
  index ← VkPresentInfoKHR.pImageIndices info !! i;
  if (Z.of_nat (length (images sd)) <=? index)%Z then None
  else
    si ← images sd !! Z.to_nat index;
    ist ← image_state si;
    if acquired si then Some ist else None.

(** The four comparisons of [present_display_info]. *)
Definition display_src_rect_outside (r : VkRect2D) (e : VkExtent2D) : bool :=
  (x (rect2d_offset r) <? 0)%Z || (y (rect2d_offset r) <? 0)%Z
  || (width e <? wrap32 (x (rect2d_offset r) + width (rect2d_extent r)))%Z
  || (height e <? wrap32 (y (rect2d_offset r) + height (rect2d_extent r)))%Z.

(** What entry [i] contributes to the source-rectangle error. *)
Definition present_entry_src_rect_outside (cc : CoreChecks)
    (info : VkPresentInfoKHR.t) (i : nat) : bool :=
  match present_entry_image cc info i,
        LvlFindInChain as_VkDisplayPresentInfoKHR (VkPresentInfoKHR.pNext info)
  with
  | Some ist, Some display_present_info =>
      display_src_rect_outside (srcRect display_present_info)
        (image_extent ist)
  | _, _ => false
  end.

(** A present call with a [VkDisplayPresentInfoKHR] whose source rectangle
    starts at ([ox], [oy]) and is [w] by [h]. *)
Definition example_display_present (ox oy w h : Z) : PNextStruct :=
  PNext_VkDisplayPresentInfoKHR
    {| srcRect := {| rect2d_offset := {| x := ox; y := oy |};
                     rect2d_extent := {| width := w; height := h |} |};
       dstRect := {| rect2d_offset := {| x := 0; y := 0 |};
                     rect2d_extent := {| width := w; height := h |} |};
       persistent := false |}.

(** An instance with two physical devices: 200 has two queue families, of
    which family 1 supports every surface, and two display planes; 201 has
    no queue family and its display planes have not been queried.  The
    display mode 300 belongs to physical device 200. *)
Definition example_queries : PhysicalDeviceQueries :=
  {| physical_device_map :=
       {[ 200%Z := {| pd_queue_family_properties := [1%Z; 2%Z];
                      vkGetPhysicalDeviceDisplayPlanePropertiesKHR_called :=
                        true;
                      display_plane_property_count := 2 |};
          201%Z := {| pd_queue_family_properties := [];
                      vkGetPhysicalDeviceDisplayPlanePropertiesKHR_called :=
                        false;
                      display_plane_property_count := 0 |} ]};
     display_mode_map := {[ 300%Z := {| dm_physical_device := 200 |} ]};
     GetQueueSupport_at := fun _ pd i => (pd =? 200)%Z && (i =? 1)%Z;
     physical_device := 200;
     physical_device_count := 2;
     pPhysicalDevices := [200%Z; 201%Z];
     maxImageDimension2D := fun _ => 4096%Z;
     supportedAlpha := fun _ _ _ => 1%Z;
     query_LogError_result := fun _ => true |}.

(** A display surface as wide as the image dimension limit, with global
    alpha 1. *)
Definition example_display_surface : VkDisplaySurfaceCreateInfoKHR :=
  {| displayMode := 300;
     planeIndex := 0;
     globalAlpha := float_one;
     alphaMode := VK_DISPLAY_PLANE_ALPHA_GLOBAL_BIT_KHR;
     display_imageExtent := {| width := 4096; height := 100 |} |}.

(** A swapchain 200 wide and 100 high with the given pre-transform, on the
    surface of the test device. *)
Definition example_wide_swapchain (transform : Z) : SWAPCHAIN_NODE :=
  {| createInfo :=
       {| create_flags := 0;
          surface := 10;
          create_minImageCount := 3;
          imageFormat := 44;
          imageColorSpace := 0;
          imageExtent := {| width := 200; height := 100 |};
          imageArrayLayers := 1;
          imageUsage := 16;
          imageSharingMode := 0;
          preTransform := transform;
          compositeAlpha := 1;
          presentMode := 2;
          clipped := true;
          oldSwapchain := 0 |};
     retired := false;
     images := example_images;
     acquired_images := 2;
     max_present_id := 5;
     swapchain_surface := Some (example_surface 2) |}.

(** ** The early returns of swapchain creation *)

(** The records of the two [oldSwapchain] checks. *)
Definition create_old_surface_record (func_name : string)
    (pCreateInfo : VkSwapchainCreateInfoKHR) : LogRecord :=
  {| log_objects := [oldSwapchain pCreateInfo];
     log_vuid := "VUID-VkSwapchainCreateInfoKHR-oldSwapchain-01933";
     log_message := Msg_OldSwapchainSurface func_name |}.

Definition create_old_retired_record (func_name : string)
    (pCreateInfo : VkSwapchainCreateInfoKHR) : LogRecord :=
  {| log_objects := [oldSwapchain pCreateInfo];
     log_vuid := "VUID-VkSwapchainCreateInfoKHR-oldSwapchain-01933";
     log_message := Msg_OldSwapchainRetired func_name |}.

(** No queue of the device can present to the surface. *)
Definition no_queue_presents (cc : CoreChecks) (s : SURFACE_STATE) : Prop :=
  forall q qs,
    queue_map (tracker cc) !! q = Some qs ->
    GetQueueSupport s (queue_family qs) = false.

(** Creation validation returns at the presentation-support check: the
    Android surface extension is not enabled, no queue can present to the
    surface, and [LogError] returns true for the error. *)
Definition create_returns_at_surface (ext : Collaborators) (cc : CoreChecks)
    (func_name : string) (pCreateInfo : VkSwapchainCreateInfoKHR) : Prop :=
  vk_khr_android_surface (tracker cc) = false
  /\ exists s,
       Get_SURFACE_STATE cc (surface pCreateInfo) = Some s
       /\ no_queue_presents cc s
       /\ LogError_result ext (create_surface_record cc func_name s) = true.

(** Creation validation returns at the surface check of [oldSwapchain]: the
    old swapchain was created for another surface and [LogError] returns
    true for the error. *)
Definition create_returns_at_old_surface (ext : Collaborators)
    (func_name : string) (pCreateInfo : VkSwapchainCreateInfoKHR)
    (old : SWAPCHAIN_NODE) : Prop :=
  surface (createInfo old) <> surface pCreateInfo
  /\ LogError_result ext (create_old_surface_record func_name pCreateInfo)
     = true.

(* ===================================================================== *)
(** * Properties *)
(* ===================================================================== *)

Lemma bind_point_index_inj (a b : LvlBindPoint) :
  bind_point_index a = bind_point_index b -> a = b.
Proof. destruct a, b; simpl; intros H; try reflexivity; discriminate H. Qed.

(** ** Queue-family ownership classification *)

Section QFOClassificationProps.

Variable IsTransferOp : QueueFamilyIndices -> bool.

(** What the specification says of [IsTransferOp]: no family change, no
    transfer. *)
Hypothesis IsTransferOp_no_change :
  forall q, srcQueueFamilyIndex q = dstQueueFamilyIndex q ->
            IsTransferOp q = false.

Lemma IsReleaseOp_iff (cb : CMD_BUFFER_STATE) (b : Barrier) :
  IsReleaseOp IsTransferOp cb b = true <->
  exists q, barrier_families b = Some q /\ IsTransferOp q = true /\
            queueFamilyIndex (command_pool cb) = srcQueueFamilyIndex q.
Proof.
  destruct b as [q|q|q|q| | |]; simpl;
    try (split; [discriminate | intros (q' & Hq & _); discriminate]);
    rewrite andb_true_iff, Z.eqb_eq;
    (split;
     [ intros [Ht He]; exists q; auto
     | intros (q' & Hq & Ht & He); injection Hq as <-; auto ]).
Qed.

Lemma IsAcquireOp_iff (cb : CMD_BUFFER_STATE) (b : Barrier) :
  IsAcquireOp IsTransferOp cb b = true <->
  exists q, barrier_families b = Some q /\ IsTransferOp q = true /\
            queueFamilyIndex (command_pool cb) = dstQueueFamilyIndex q.
Proof.
  destruct b as [q|q|q|q| | |]; simpl;
    try (split; [discriminate | intros (q' & Hq & _); discriminate]);
    rewrite andb_true_iff, Z.eqb_eq;
    (split;
     [ intros [Ht He]; exists q; auto
     | intros (q' & Hq & Ht & He); injection Hq as <-; auto ]).
Qed.

(** C1.  A recorded barrier is a release exactly when it is an ownership
    transfer and the pool's queue family is its source family, an acquire
    exactly when it is an ownership transfer and the pool's queue family is
    its destination family; a barrier whose source and destination families
    are equal is neither, and the barrier types without queue-family
    members are never a release or an acquire. *)
Theorem release_acquire_classification (cb : CMD_BUFFER_STATE) (b : Barrier) :
  (IsReleaseOp IsTransferOp cb b = true <->
   exists q, barrier_families b = Some q /\ IsTransferOp q = true /\
             queueFamilyIndex (command_pool cb) = srcQueueFamilyIndex q)
  /\ (IsAcquireOp IsTransferOp cb b = true <->
      exists q, barrier_families b = Some q /\ IsTransferOp q = true /\
                queueFamilyIndex (command_pool cb) = dstQueueFamilyIndex q)
  /\ (forall q, barrier_families b = Some q ->
                srcQueueFamilyIndex q = dstQueueFamilyIndex q ->
                IsReleaseOp IsTransferOp cb b = false
                /\ IsAcquireOp IsTransferOp cb b = false)
  /\ (barrier_families b = None ->
      IsReleaseOp IsTransferOp cb b = false
      /\ IsAcquireOp IsTransferOp cb b = false).
Proof.
  split; [apply IsReleaseOp_iff |].
  split; [apply IsAcquireOp_iff |].
  split.
  - intros q Hq Heq.
    destruct b; simpl in *; try discriminate;
      injection Hq as ->; rewrite (IsTransferOp_no_change q Heq); auto.
  - intros Hn. destruct b; simpl in *; try discriminate; auto.
Qed.

End QFOClassificationProps.

Lemma IsTransferOp_spec_no_change (q : QueueFamilyIndices) :
  srcQueueFamilyIndex q = dstQueueFamilyIndex q -> IsTransferOp_spec q = false.
Proof.
  intros H. unfold IsTransferOp_spec. rewrite H, Z.eqb_refl. reflexivity.
Qed.

(** ** Pipeline binding *)

Lemma lastBound_BindPipeline_same bp p cb :
  lastBound (BindPipeline bp p cb) !!! bind_point_index bp
  = set_pipeline_state p (lastBound cb !!! bind_point_index bp).
Proof. unfold BindPipeline; simpl. apply vlookup_insert. Qed.

Lemma lastBound_BindPipeline_other bp bp' p cb :
  bp' <> bp ->
  lastBound (BindPipeline bp p cb) !!! bind_point_index bp'
  = lastBound cb !!! bind_point_index bp'.
Proof.
  intros Hne. unfold BindPipeline; simpl. apply vlookup_insert_ne.
  intros Heq. apply Hne. symmetry. apply bind_point_index_inj, Heq.
Qed.

(** C8.  After [BindPipeline (bp, p)] the slot of [bp] holds [p] as its
    pipeline and the buffer is marked pipeline-bound; the slots of the other
    bind points, the other members of the slot of [bp] and every other
    member of the command buffer are as before. *)
Theorem BindPipeline_frame (cb : CMD_BUFFER_STATE) (bp : LvlBindPoint) (p : Z) :
  let cb' := BindPipeline bp p cb in
  pipeline_state (lastBound cb' !!! bind_point_index bp) = p
  /\ GetCurrentPipeline cb' bp = p
  /\ pipeline_bound cb' = true
  /\ (forall bp', bp' <> bp ->
        lastBound cb' !!! bind_point_index bp'
        = lastBound cb !!! bind_point_index bp')
  /\ (let slot' := lastBound cb' !!! bind_point_index bp in
      let slot := lastBound cb !!! bind_point_index bp in
      pipeline_layout slot' = pipeline_layout slot
      /\ push_descriptor_set slot' = push_descriptor_set slot
      /\ per_set slot' = per_set slot)
  /\ same_other_members cb' cb.
Proof.
  intros cb'. subst cb'.
  unfold GetCurrentPipeline.
  rewrite lastBound_BindPipeline_same.
  repeat split.
  intros bp' Hne. apply lastBound_BindPipeline_other, Hne.
Qed.

(** ** The validation monad *)

Lemma bind_Some {A B : Type} (m : W A) (k : A -> W B) (b : B)
    (l : list LogRecord) :
  bind m k = Some (b, l) <->
  exists a l1 l2, m = Some (a, l1) /\ k a = Some (b, l2) /\ l = l1 ++ l2.
Proof.
  unfold bind. split.
  - destruct m as [[a l1]|]; [| discriminate].
    destruct (k a) as [[b' l2]|] eqn:Hk; [| discriminate].
    intros H. injection H as <- <-. exists a, l1, l2. auto.
  - intros (a & l1 & l2 & -> & Hk & ->). rewrite Hk. reflexivity.
Qed.

Lemma bind_defined {A B : Type} (m : W A) (k : A -> W B) :
  is_Some m -> (forall a, is_Some (k a)) -> is_Some (bind m k).
Proof.
  intros [[a l1] ->] Hk. unfold bind.
  destruct (Hk a) as [[b l2] ->]. eauto.
Qed.

Lemma bind_ret_l {A B : Type} (a : A) (k : A -> W B) : bind (ret a) k = k a.
Proof. unfold bind, ret. destruct (k a) as [[b l]|]; reflexivity. Qed.

Lemma skip_or_Some (skip : bool) (m : W bool) (b : bool) (l : list LogRecord) :
  skip_or skip m = Some (b, l) <-> exists r, m = Some (r, l) /\ b = skip || r.
Proof.
  unfold skip_or. rewrite bind_Some. split.
  - intros (a & l1 & l2 & Hm & Hr & ->). injection Hr as <- <-.
    rewrite app_nil_r. eauto.
  - intros (r & Hm & ->). exists r, l, []. rewrite app_nil_r. auto.
Qed.

Lemma reported_app (P : Message -> bool) (l1 l2 : list LogRecord) :
  reported P (l1 ++ l2) = reported P l1 || reported P l2.
Proof. unfold reported. apply existsb_app. Qed.

Lemma reported_true (P : Message -> bool) (log : list LogRecord) :
  reported P log = true <-> exists r, In r log /\ P (log_message r) = true.
Proof. unfold reported. apply existsb_exists. Qed.

Lemma reported_false (P : Message -> bool) (log : list LogRecord) :
  reported P log = false <-> forall r, In r log -> P (log_message r) = false.
Proof.
  unfold reported. induction log as [|r log IH]; simpl.
  - split; [intros _ r [] | reflexivity].
  - rewrite orb_false_iff, IH. split.
    + intros [Hr Hl] r' [<- | Hin]; auto.
    + intros H. split; [apply H; auto | intros r' Hin; apply H; auto].
Qed.

Lemma collaborator_Some (origin : string) (c : CollaboratorResult)
    (b : bool) (l : list LogRecord) :
  collaborator origin c = Some (b, l) ->
  forall r, In r l -> exists text, log_message r = Msg_Collaborator origin text.
Proof.
  unfold collaborator. intros H. injection H as <- <-.
  intros r Hin. apply in_map_iff in Hin as ([[objs vuid] text] & <- & _).
  simpl. eauto.
Qed.

Lemma collaborator_reported (P : Message -> bool) (origin : string)
    (c : CollaboratorResult) (b : bool) (l : list LogRecord) :
  (forall o t, P (Msg_Collaborator o t) = false) ->
  collaborator origin c = Some (b, l) -> reported P l = false.
Proof.
  intros HP H. apply reported_false. intros r Hin.
  destruct (collaborator_Some _ _ _ _ H r Hin) as [text ->]. apply HP.
Qed.

Lemma collaborator_defined (origin : string) (c : CollaboratorResult) :
  is_Some (collaborator origin c).
Proof. unfold collaborator. eauto. Qed.

Lemma reported_of_class (P Q : Message -> bool) (l : list LogRecord) :
  (forall m, Q m = true -> P m = false) ->
  (forall r, In r l -> Q (log_message r) = true) ->
  reported P l = false.
Proof.
  intros HPQ Hl. apply reported_false. intros r Hin. apply HPQ, Hl, Hin.
Qed.

(** ** Acquire *)

Lemma acquire_semaphore_check_log ext cc version semaphore fn vuid skip :
  exists s l,
    acquire_semaphore_check ext cc version semaphore fn vuid skip = Some (s, l)
    /\ forall r, In r l -> is_acquire_precheck (log_message r) = true.
Proof.
  unfold acquire_semaphore_check, skip_or, LogError, ret, bind.
  repeat case_match; simpl; eexists _, _;
    (split; [reflexivity |]); intros r Hin; simpl in Hin;
    repeat destruct Hin as [<- | Hin]; try contradiction; reflexivity.
Qed.

Lemma acquire_fence_check_log ext cc fence skip :
  exists s l,
    acquire_fence_check ext cc fence skip = Some (s, l)
    /\ forall r, In r l -> is_acquire_precheck (log_message r) = true.
Proof.
  unfold acquire_fence_check.
  destruct (Get_FENCE_STATE cc fence) as [fs|].
  - destruct (collaborator_defined "ValidateFenceForSubmit"
                (ValidateFenceForSubmit ext fs
                   "VUID-vkAcquireNextImageKHR-fence-01287"
                   "VUID-vkAcquireNextImageKHR-fence-01287"
                   "vkAcquireNextImageKHR()")) as [[b l] Hc].
    exists (skip || b), l. split.
    + apply skip_or_Some. eauto.
    + intros r Hin. destruct (collaborator_Some _ _ _ _ Hc r Hin) as [t ->].
      reflexivity.
  - exists skip, []. split; [reflexivity | intros r []].
Qed.

Lemma acquire_retired_check_log ext version swapchain fn sd skip :
  exists s l,
    acquire_retired_check ext version swapchain fn sd skip = Some (s, l)
    /\ reported is_AcquireRetired l = retired sd
    /\ reported is_TooManyAcquired l = false.
Proof.
  unfold acquire_retired_check, skip_or, LogError, ret, bind.
  destruct (retired sd); simpl; eexists _, _; repeat split.
Qed.

Lemma acquire_count_check_log ext cc version swapchain timeout fn sd skip :
  exists s l,
    acquire_count_check ext cc version swapchain timeout fn sd skip
    = Some (s, l)
    /\ reported is_TooManyAcquired l
       = (timeout =? UINT64_MAX)%Z
         && (acquire_bound cc sd <? acquired_images sd)%Z
    /\ reported is_AcquireRetired l = false.
Proof.
  unfold acquire_count_check, skip_or, LogError, ret, bind.
  destruct ((timeout =? UINT64_MAX)%Z
            && (acquire_bound cc sd <? acquired_images sd)%Z);
    simpl; eexists _, _; repeat split.
Qed.

(** What [ValidateAcquireNextImage] reports for a known swapchain. *)
Lemma ValidateAcquireNextImage_known ext cc version swapchain timeout
    semaphore fence fn vuid sd :
  Get_SWAPCHAIN_NODE cc swapchain = Some sd ->
  exists skip log,
    ValidateAcquireNextImage ext cc version swapchain timeout semaphore fence
      fn vuid = Some (skip, log)
    /\ reported is_TooManyAcquired log
       = (timeout =? UINT64_MAX)%Z
         && (acquire_bound cc sd <? acquired_images sd)%Z
    /\ reported is_AcquireRetired log = retired sd.
Proof.
  intros Hget. unfold ValidateAcquireNextImage. rewrite Hget.
  destruct (acquire_semaphore_check_log ext cc version semaphore fn vuid false)
    as (s1 & l1 & E1 & C1).
  destruct (acquire_fence_check_log ext cc fence s1) as (s2 & l2 & E2 & C2).
  destruct (acquire_retired_check_log ext version swapchain fn sd s2)
    as (s3 & l3 & E3 & R3 & T3).
  destruct (acquire_count_check_log ext cc version swapchain timeout fn sd s3)
    as (s4 & l4 & E4 & T4 & R4).
  exists s4, (l1 ++ l2 ++ l3 ++ l4). split.
  - rewrite E1; simpl. rewrite E2; simpl. rewrite E3; simpl. rewrite E4.
    reflexivity.
  - rewrite !reported_app, T3, T4, R3, R4.
    rewrite (reported_of_class is_TooManyAcquired is_acquire_precheck l1),
      (reported_of_class is_TooManyAcquired is_acquire_precheck l2),
      (reported_of_class is_AcquireRetired is_acquire_precheck l1),
      (reported_of_class is_AcquireRetired is_acquire_precheck l2);
      auto; try (intros []; simpl; congruence).
    simpl. rewrite orb_false_r. split; reflexivity.
Qed.

Lemma wrap32_small (z : Z) : (0 <= z <= UINT32_MAX)%Z -> wrap32 z = z.
Proof. unfold wrap32, UINT32_MAX. intros H. apply Z.mod_small. lia. Qed.

Lemma acquire_bound_in_range cc sd :
  (0 <= minImageCount (acquire_capabilities cc sd)
   <= Z.of_nat (length (images sd)))%Z ->
  (Z.of_nat (length (images sd)) <= UINT32_MAX)%Z ->
  acquire_bound cc sd
  = (Z.of_nat (length (images sd))
     - minImageCount (acquire_capabilities cc sd))%Z.
Proof.
  intros H Hmax. unfold acquire_bound.
  rewrite (wrap32_small (Z.of_nat _)) by lia.
  apply wrap32_small. lia.
Qed.


(** C2 (amended).  On a known swapchain the too-many-images error is
    reported exactly when the timeout is [UINT64_MAX] and [acquired_images]
    is strictly greater than the [uint32_t] difference of the image count and
    [minImageCount]; when [minImageCount] does not exceed the image count
    that difference is the plain one.  A bounded timeout is never flagged. *)
Theorem acquire_count_bound ext cc version swapchain timeout semaphore fence
    fn vuid sd :
  Get_SWAPCHAIN_NODE cc swapchain = Some sd ->
  exists skip log,
    ValidateAcquireNextImage ext cc version swapchain timeout semaphore fence
      fn vuid = Some (skip, log)
    /\ (reported is_TooManyAcquired log = true <->
        timeout = UINT64_MAX
        /\ (wrap32 (wrap32 (Z.of_nat (length (images sd)))
                    - minImageCount (acquire_capabilities cc sd))
            < acquired_images sd)%Z)
    /\ ((0 <= minImageCount (acquire_capabilities cc sd)
         <= Z.of_nat (length (images sd)))%Z ->
        (Z.of_nat (length (images sd)) <= UINT32_MAX)%Z ->
        (reported is_TooManyAcquired log = true <->
         timeout = UINT64_MAX
         /\ (Z.of_nat (length (images sd))
             - minImageCount (acquire_capabilities cc sd)
             < acquired_images sd)%Z))
    /\ (timeout <> UINT64_MAX -> reported is_TooManyAcquired log = false).
Proof.
  intros Hget.
  destruct (ValidateAcquireNextImage_known ext cc version swapchain timeout
              semaphore fence fn vuid sd Hget) as (skip & log & E & T & _).
  exists skip, log. split; [exact E |].
  assert (Hiff : reported is_TooManyAcquired log = true <->
                 timeout = UINT64_MAX
                 /\ (acquire_bound cc sd < acquired_images sd)%Z).
  { rewrite T, andb_true_iff, Z.eqb_eq, Z.ltb_lt. reflexivity. }
  split; [exact Hiff |]. split.
  - intros Hr Hmax. rewrite <- (acquire_bound_in_range cc sd Hr Hmax).
    exact Hiff.
  - intros Hne. rewrite T. apply Z.eqb_neq in Hne. rewrite Hne. reflexivity.
Qed.


(** ** Retired swapchains *)

Lemma PreCallValidateWaitForPresentKHR_known ext cc swapchain presentId_
    timeout sd :
  Get_SWAPCHAIN_NODE cc swapchain = Some sd ->
  exists skip log,
    PreCallValidateWaitForPresentKHR ext cc swapchain presentId_ timeout
    = Some (skip, log)
    /\ reported is_WaitForPresentRetired log = retired sd.
Proof.
  intros Hget. unfold PreCallValidateWaitForPresentKHR. rewrite Hget.
  unfold skip_or, LogError, ret, bind.
  destruct (presentWait (tracker cc)), (retired sd); simpl;
    eexists _, _; split; reflexivity.
Qed.

Lemma AnyQueueSupports_defined cc s :
  exists b, AnyQueueSupports cc (Some s) = Some (b, []).
Proof.
  unfold AnyQueueSupports.
  destruct (map_to_list (queue_map (tracker cc))); simpl; eauto.
Qed.

Lemma AnyQueueSupports_result cc s :
  exists b,
    AnyQueueSupports cc (Some s) = Some (b, [])
    /\ (b = false <-> no_queue_presents cc s).
Proof.
  unfold AnyQueueSupports, no_queue_presents.
  destruct (map_to_list (queue_map (tracker cc))) as [|kv queues] eqn:Hl.
  - exists false. split; [reflexivity |]. split; [| reflexivity].
    intros _ q qs Hq. apply elem_of_map_to_list in Hq. rewrite Hl in Hq.
    apply list_elem_of_In in Hq. destruct Hq.
  - eexists. split; [cbn [deref]; rewrite bind_ret_l; reflexivity |].
    split.
    + intros E q qs Hq.
      destruct (GetQueueSupport s (queue_family qs)) eqn:G; [| reflexivity].
      assert (Ht : existsb
                     (fun kv0 : Z * QUEUE_STATE =>
                        GetQueueSupport s (queue_family (snd kv0)))
                     (kv :: queues) = true).
      { apply existsb_exists. exists (q, qs). split; [| exact G].
        rewrite <- Hl. apply list_elem_of_In, elem_of_map_to_list, Hq. }
      rewrite E in Ht. discriminate Ht.
    + intros Hnone.
      destruct (existsb _ (kv :: queues)) eqn:E; [| reflexivity].
      apply existsb_exists in E as ([q qs] & Hin & Hs).
      rewrite <- Hl in Hin. apply list_elem_of_In, elem_of_map_to_list in Hin.
      simpl in Hs. rewrite (Hnone q qs Hin) in Hs. discriminate Hs.
Qed.

(** The presentation-support block: when it returns, and what it logs. *)
Lemma create_surface_support_check_result ext cc fn surface_state :
  vk_khr_android_surface (tracker cc) = true \/ is_Some surface_state ->
  exists r l,
    create_surface_support_check ext cc fn surface_state = Some (r, l)
    /\ (r = true <->
        vk_khr_android_surface (tracker cc) = false
        /\ exists s,
             surface_state = Some s
             /\ no_queue_presents cc s
             /\ LogError_result ext (create_surface_record cc fn s) = true)
    /\ reported is_OldSwapchainRetired l = false
    /\ (r = true -> l <> []).
Proof.
  unfold create_surface_support_check.
  destruct (vk_khr_android_surface (tracker cc)) eqn:Ha; simpl.
  - intros _. exists false, []. split; [reflexivity |].
    split; [| split; [reflexivity | discriminate]].
    split; [discriminate | intros [H _]; discriminate H].
  - intros [Hf | [s ->]]; [discriminate |].
    destruct (AnyQueueSupports_result cc s) as (b & -> & Hb). simpl.
    destruct b; simpl.
    + exists false, []. split; [reflexivity |].
      split; [| split; [reflexivity | discriminate]].
      split; [discriminate |].
      intros (_ & s' & E & Hnone & _). injection E as <-.
      apply Hb in Hnone. discriminate Hnone.
    + unfold LogError. fold (create_surface_record cc fn s).
      eexists _, _. split; [reflexivity |].
      split; [| split; [reflexivity | discriminate]].
      split.
      * intros Hv. split; [reflexivity |]. exists s.
        split; [reflexivity |]. split; [apply Hb; reflexivity | exact Hv].
      * intros (_ & s' & E & _ & Hv). injection E as <-. exact Hv.
Qed.

(** The [oldSwapchain] block: when it reports the retirement, and when it
    returns before doing so. *)
Lemma create_old_swapchain_check_result ext fn pCreateInfo old :
  exists r l,
    create_old_swapchain_check ext fn pCreateInfo (Some old) = Some (r, l)
    /\ (reported is_OldSwapchainRetired l = true <->
        retired old = true
        /\ ~ create_returns_at_old_surface ext fn pCreateInfo old)
    /\ (reported is_OldSwapchainRetired l = true ->
        In (create_old_retired_record fn pCreateInfo) l)
    /\ (create_returns_at_old_surface ext fn pCreateInfo old -> r = true)
    /\ (retired old = true -> l <> []).
Proof.
  unfold create_old_swapchain_check, create_returns_at_old_surface, LogError.
  fold (create_old_surface_record fn pCreateInfo).
  fold (create_old_retired_record fn pCreateInfo).
  destruct (surface (createInfo old) =? surface pCreateInfo)%Z eqn:Hsurf;
    [apply Z.eqb_eq in Hsurf | apply Z.eqb_neq in Hsurf];
    cbn [negb bind ret app].
  - destruct (retired old) eqn:Hret; cbn [bind ret app];
      eexists _, _; (split; [reflexivity |]); simpl;
      intuition (first [discriminate | congruence]).
  - destruct (LogError_result ext (create_old_surface_record fn pCreateInfo))
      eqn:Hv; cbn [bind ret app].
    + eexists _, _. split; [reflexivity |]. simpl.
      intuition (first [discriminate | congruence]).
    + destruct (retired old) eqn:Hret; cbn [bind ret app];
        eexists _, _; (split; [reflexivity |]); simpl;
        intuition (first [discriminate | congruence]).
Qed.

(** What creation validation reports about a registered [oldSwapchain]. *)
Lemma PreCallValidateCreateSwapchainKHR_old ext cc pCreateInfo old :
  vk_khr_android_surface (tracker cc) = true
  \/ is_Some (Get_SURFACE_STATE cc (surface pCreateInfo)) ->
  Get_SWAPCHAIN_NODE cc (oldSwapchain pCreateInfo) = Some old ->
  exists skip log,
    PreCallValidateCreateSwapchainKHR ext cc pCreateInfo = Some (skip, log)
    /\ (reported is_OldSwapchainRetired log = true <->
        retired old = true
        /\ ~ create_returns_at_surface ext cc "vkCreateSwapchainKHR()"
               pCreateInfo
        /\ ~ create_returns_at_old_surface ext "vkCreateSwapchainKHR()"
               pCreateInfo old)
    /\ (reported is_OldSwapchainRetired log = true ->
        In (create_old_retired_record "vkCreateSwapchainKHR()" pCreateInfo)
           log)
    /\ (create_returns_at_surface ext cc "vkCreateSwapchainKHR()" pCreateInfo
        \/ create_returns_at_old_surface ext "vkCreateSwapchainKHR()"
             pCreateInfo old ->
        skip = true)
    /\ (retired old = true -> log <> []).
Proof.
  intros Hs Hold.
  unfold PreCallValidateCreateSwapchainKHR, ValidateCreateSwapchain.
  rewrite Hold.
  destruct (create_surface_support_check_result ext cc
              "vkCreateSwapchainKHR()" _ Hs) as (r1 & l1 & E1 & Hr1 & R1 & N1).
  fold (create_returns_at_surface ext cc "vkCreateSwapchainKHR()" pCreateInfo)
    in Hr1.
  rewrite E1; cbn [bind].
  destruct r1; cbn [bind].
  - exists true, (l1 ++ []). split; [reflexivity |].
    rewrite app_nil_r, R1.
    split; [| split; [discriminate | split; [reflexivity |]]].
    + split; [discriminate |]. intros (_ & H & _).
      exfalso. apply H, Hr1. reflexivity.
    + intros _. apply N1. reflexivity.
  - assert (Hno : ~ create_returns_at_surface ext cc "vkCreateSwapchainKHR()"
                      pCreateInfo)
      by (intros H; apply Hr1 in H; discriminate H).
    destruct (create_old_swapchain_check_result ext "vkCreateSwapchainKHR()"
                pCreateInfo old) as (r2 & l2 & E2 & Hiff & Hin & Hret & Hne).
    rewrite E2; cbn [bind].
    assert (Hlog : forall l3,
              reported is_OldSwapchainRetired l3 = false ->
              (reported is_OldSwapchainRetired (l1 ++ l2 ++ l3) = true <->
               retired old = true
               /\ ~ create_returns_at_surface ext cc "vkCreateSwapchainKHR()"
                      pCreateInfo
               /\ ~ create_returns_at_old_surface ext "vkCreateSwapchainKHR()"
                      pCreateInfo old)
              /\ (reported is_OldSwapchainRetired (l1 ++ l2 ++ l3) = true ->
                  In (create_old_retired_record "vkCreateSwapchainKHR()"
                        pCreateInfo) (l1 ++ l2 ++ l3))
              /\ (retired old = true -> l1 ++ l2 ++ l3 <> [])).
    { intros l3 R3. rewrite !reported_app, R1, R3, orb_false_r. simpl.
      split; [rewrite Hiff; tauto |]. split.
      - intros H. apply in_app_iff. right. apply in_app_iff. left.
        apply Hin, H.
      - intros H E. apply app_eq_nil in E as [_ E].
        apply app_eq_nil in E as [E _]. apply (Hne H E). }
    destruct r2; cbn [bind].
    + exists true, (l1 ++ l2 ++ []). split; [reflexivity |].
      destruct (Hlog [] eq_refl) as (H1 & H2 & H3).
      split; [exact H1 |]. split; [exact H2 |]. split; [reflexivity | exact H3].
    + destruct (collaborator_defined "ValidateCreateSwapchain"
                  (ValidateCreateSwapchainLimits ext "vkCreateSwapchainKHR()"
                     pCreateInfo
                     (Get_SURFACE_STATE cc (surface pCreateInfo))))
        as [[b3 l3] E3].
      rewrite E3. exists b3, (l1 ++ l2 ++ l3). split; [reflexivity |].
      assert (R3 : reported is_OldSwapchainRetired l3 = false).
      { apply (collaborator_reported _ _ _ _ _ (fun _ _ => eq_refl) E3). }
      destruct (Hlog l3 R3) as (H1 & H2 & H3).
      split; [exact H1 |]. split; [exact H2 |]. split; [| exact H3].
      intros [H | H]; [contradiction |]. apply Hret in H. discriminate H.
Qed.

(** C5 (amended).  On a registered swapchain an acquire reports the
    retirement error exactly when the swapchain is retired, and so does a
    wait-for-present.  A swapchain creation naming it as [oldSwapchain]
    reports the retirement error exactly when the swapchain is retired and
    the validation has not returned before the retirement test, at the
    presentation-support check or at the surface check of [oldSwapchain];
    such a return happens when [LogError] returns true for the error of
    that check, and the result of the validation is then true.  A creation
    naming a retired swapchain always reports some error.  None of the
    three retirement errors is reported for a swapchain that is not
    retired. *)
Theorem retired_swapchain_flagged ext cc swapchain sd :
  Get_SWAPCHAIN_NODE cc swapchain = Some sd ->
  (forall version timeout semaphore fence fn vuid,
     exists skip log,
       ValidateAcquireNextImage ext cc version swapchain timeout semaphore
         fence fn vuid = Some (skip, log)
       /\ reported is_AcquireRetired log = retired sd)
  /\ (forall presentId_ timeout,
        exists skip log,
          PreCallValidateWaitForPresentKHR ext cc swapchain presentId_ timeout
          = Some (skip, log)
          /\ reported is_WaitForPresentRetired log = retired sd)
  /\ (forall pCreateInfo,
        oldSwapchain pCreateInfo = swapchain ->
        vk_khr_android_surface (tracker cc) = true
        \/ is_Some (Get_SURFACE_STATE cc (surface pCreateInfo)) ->
        exists skip log,
          PreCallValidateCreateSwapchainKHR ext cc pCreateInfo
          = Some (skip, log)
          /\ (reported is_OldSwapchainRetired log = true <->
              retired sd = true
              /\ ~ create_returns_at_surface ext cc "vkCreateSwapchainKHR()"
                     pCreateInfo
              /\ ~ create_returns_at_old_surface ext "vkCreateSwapchainKHR()"
                     pCreateInfo sd)
          /\ (reported is_OldSwapchainRetired log = true ->
              In (create_old_retired_record "vkCreateSwapchainKHR()"
                    pCreateInfo) log)
          /\ (create_returns_at_surface ext cc "vkCreateSwapchainKHR()"
                pCreateInfo
              \/ create_returns_at_old_surface ext "vkCreateSwapchainKHR()"
                   pCreateInfo sd ->
              skip = true)
          /\ (retired sd = true -> log <> [])).
Proof.
  intros Hget. split; [| split].
  - intros version timeout semaphore fence fn vuid.
    destruct (ValidateAcquireNextImage_known ext cc version swapchain timeout
                semaphore fence fn vuid sd Hget) as (skip & log & E & _ & R).
    eauto.
  - intros presentId_ timeout.
    apply PreCallValidateWaitForPresentKHR_known, Hget.
  - intros pCreateInfo <- Hs.
    apply PreCallValidateCreateSwapchainKHR_old; assumption.
Qed.

(** ** Swapchain destruction *)

Lemma classic_In_dec (k : Z) (l : list Z) : In k l \/ ~ In k l.
Proof.
  induction l as [|a l IH]; simpl; [right; tauto |].
  destruct (Z.eq_dec a k); [left; auto | tauto].
Qed.

Lemma erase_swapchain_images_other imgs
    (m : gmap Z (list QFOImageTransferBarrier)) (k : Z) :
  ~ In k (images_with_state imgs) ->
  erase_swapchain_images imgs m !! k = m !! k.
Proof.
  unfold erase_swapchain_images.
  revert m. induction imgs as [|si imgs IH]; intros m Hnin; simpl.
  - reflexivity.
  - simpl in Hnin. rewrite in_app_iff in Hnin.
    rewrite IH by tauto.
    destruct (image_state si) as [ist|]; [| reflexivity].
    apply lookup_delete_ne. intros Heq. apply Hnin. left. left. exact Heq.
Qed.

Lemma erase_swapchain_images_erased imgs
    (m : gmap Z (list QFOImageTransferBarrier)) (k : Z) :
  In k (images_with_state imgs) ->
  erase_swapchain_images imgs m !! k = None.
Proof.
  unfold erase_swapchain_images.
  revert m. induction imgs as [|si imgs IH]; intros m Hin; simpl.
  - destruct Hin.
  - simpl in Hin. rewrite in_app_iff in Hin.
    destruct (classic_In_dec k (images_with_state imgs)) as [Hi|Hn].
    + apply IH, Hi.
    + destruct Hin as [Hin | Hin]; [| contradiction].
      fold (erase_swapchain_images imgs
              (match image_state si with
               | Some ist => delete (image ist) m
               | None => m
               end)).
      rewrite erase_swapchain_images_other by exact Hn.
      destruct (image_state si) as [ist|]; [| destruct Hin].
      destruct Hin as [<- | []]. apply lookup_delete_eq.
Qed.

(** C7.  Destroying a known, non-null swapchain erases from
    [qfo_release_image_barrier_map] the entries keyed by its images that have
    an image state, and leaves every other entry as it was; image records
    without an image state erase nothing. *)
Theorem destroy_swapchain_erases ext cc swapchain sd :
  swapchain <> VK_NULL_HANDLE ->
  Get_SWAPCHAIN_NODE cc swapchain = Some sd ->
  let cc' := PreCallRecordDestroySwapchainKHR ext cc swapchain in
  (forall k, In k (images_with_state (images sd)) ->
             qfo_release_image_barrier_map cc' !! k = None)
  /\ (forall k, ~ In k (images_with_state (images sd)) ->
                qfo_release_image_barrier_map cc' !! k
                = qfo_release_image_barrier_map cc !! k)
  /\ (Forall (fun si => image_state si = None) (images sd) ->
      qfo_release_image_barrier_map cc' = qfo_release_image_barrier_map cc).
Proof.
  intros Hnz Hget cc'. subst cc'. unfold PreCallRecordDestroySwapchainKHR.
  simpl. apply Z.eqb_neq in Hnz. rewrite Hnz, Hget. simpl.
  split; [| split].
  - intros k Hin. apply erase_swapchain_images_erased, Hin.
  - intros k Hnin. apply erase_swapchain_images_other, Hnin.
  - intros Hall. apply map_eq. intros k.
    apply erase_swapchain_images_other.
    unfold images_with_state. intros Hin.
    apply in_flat_map in Hin as (si & Hsi & Hk).
    rewrite Forall_forall in Hall.
    rewrite (Hall si) in Hk; [destruct Hk |].
    apply list_elem_of_In, Hsi.
Qed.

(** ** Loops *)

Lemma for_each_defined {A S : Type} (l : list A) (body : A -> S -> W S)
    (s : S) :
  (forall a s0, In a l -> is_Some (body a s0)) ->
  is_Some (for_each l body s).
Proof.
  revert s. induction l as [|a l IH]; intros s Hb; simpl.
  - unfold ret. eauto.
  - apply bind_defined.
    + apply Hb. left. reflexivity.
    + intros s1. apply IH. intros a' s0 Hin. apply Hb. right. exact Hin.
Qed.

(** A record of the loop's log was logged by one of its iterations. *)
Lemma for_each_In_elim {A S : Type} (l : list A) (body : A -> S -> W S)
    (s s' : S) (log : list LogRecord) (r : LogRecord) :
  for_each l body s = Some (s', log) -> In r log ->
  exists a s0 s1 l0, In a l /\ body a s0 = Some (s1, l0) /\ In r l0.
Proof.
  revert s log. induction l as [|a l IH]; intros s log H Hin; simpl in H.
  - injection H as <- <-. destruct Hin.
  - apply bind_Some in H as (s1 & l1 & l2 & Hb & Hrest & ->).
    apply in_app_iff in Hin as [Hin | Hin].
    + exists a, s, s1, l1. split; [left; reflexivity | auto].
    + destruct (IH _ _ Hrest Hin) as (a' & s0 & s1' & l0 & Ha & Hb' & Hr).
      exists a', s0, s1', l0. split; [right; exact Ha | auto].
Qed.

(** Each iteration of a loop that completes has run, and what it logged is
    part of the loop's log. *)
Lemma for_each_In_intro {A S : Type} (l : list A) (body : A -> S -> W S)
    (s s' : S) (log : list LogRecord) (a : A) :
  for_each l body s = Some (s', log) -> In a l ->
  exists s0 s1 l0, body a s0 = Some (s1, l0) /\ forall r, In r l0 -> In r log.
Proof.
  revert s log. induction l as [|a' l IH]; intros s log H Hin; simpl in H.
  - destruct Hin.
  - apply bind_Some in H as (s1 & l1 & l2 & Hb & Hrest & ->).
    destruct Hin as [-> | Hin].
    + exists s, s1, l1. split; [exact Hb |].
      intros r Hr. apply in_app_iff. left. exact Hr.
    + destruct (IH _ _ Hrest Hin) as (s0 & s1' & l0 & Hb' & Hsub).
      exists s0, s1', l0. split; [exact Hb' |].
      intros r Hr. apply in_app_iff. right. apply Hsub, Hr.
Qed.

Lemma for_each_from_block {A S : Type} (b : PresentBlock) (l : list A)
    (body : A -> S -> W S) (s s' : S) (log : list LogRecord) :
  (forall a s0 s1 l0, In a l -> body a s0 = Some (s1, l0) -> from_block b l0) ->
  for_each l body s = Some (s', log) -> from_block b log.
Proof.
  intros Hb H r Hin.
  destruct (for_each_In_elim _ _ _ _ _ _ H Hin)
    as (a & s0 & s1 & l0 & Ha & Hbody & Hr).
  apply (Hb a s0 s1 l0 Ha Hbody r Hr).
Qed.

Lemma from_block_nil b : from_block b [].
Proof. intros r []. Qed.

Lemma from_block_app b l1 l2 :
  from_block b l1 -> from_block b l2 -> from_block b (l1 ++ l2).
Proof.
  intros H1 H2 r Hin. apply in_app_iff in Hin as [Hin | Hin]; auto.
Qed.

Lemma from_block_reported (P : Message -> bool) (b : PresentBlock) log :
  (forall m, P m = true -> present_block m <> b) ->
  from_block b log -> reported P log = false.
Proof.
  intros HP Hb. apply reported_false. intros r Hin.
  destruct (P (log_message r)) eqn:E; [| reflexivity].
  exfalso. apply (HP _ E). apply Hb, Hin.
Qed.

(** Inversion of a completed computation, one construct at a time. *)
Ltac w_inv :=
  repeat match goal with
    | H : bind _ _ = Some _ |- _ =>
        apply bind_Some in H; destruct H as (? & ? & ? & ? & ? & ->)
    | H : skip_or _ _ = Some _ |- _ =>
        apply skip_or_Some in H; destruct H as (? & ? & ->)
    | H : ret _ = Some _ |- _ => unfold ret in H
    | H : LogError _ _ _ _ = Some _ |- _ => unfold LogError in H
    | H : deref ?o = Some _ |- _ =>
        let E := fresh "E" in
        destruct o eqn:E; simpl in H; [| discriminate H]
    | H : Some _ = Some _ |- _ => injection H as ? ?; subst
    | H : None = Some _ |- _ => discriminate H
    | H : (if ?c then _ else _) = Some _ |- _ =>
        let E := fresh "E" in destruct c eqn:E
    | H : match ?o with Some _ => _ | None => _ end = Some _ |- _ =>
        let E := fresh "E" in destruct o eqn:E
    end.

Ltac from_block_tac :=
  repeat first
    [ apply from_block_nil
    | apply from_block_app
    | (intros ? [<- | []]; reflexivity) ].

(** ** Present: where each block's records come from *)

Lemma collaborator_from_block origin c b l :
  collaborator origin c = Some (b, l) -> from_block Block_semaphores l.
Proof.
  intros H r Hin. destruct (collaborator_Some _ _ _ _ H r Hin) as [t ->].
  reflexivity.
Qed.

Lemma present_wait_semaphore_block ext cc queue flags info i st st' l :
  present_wait_semaphore ext cc queue flags info i st = Some (st', l) ->
  from_block Block_semaphores l.
Proof.
  unfold present_wait_semaphore. destruct st as [skip sems]. intros H.
  w_inv; from_block_tac;
    try (eapply collaborator_from_block; eassumption).
Qed.

Lemma present_layout_block ext cc queue i l skip skip' log :
  present_layout ext cc queue i l skip = Some (skip', log) ->
  from_block Block_images log.
Proof. unfold present_layout. intros H. w_inv; from_block_tac. Qed.

Lemma present_display_info_block ext queue info ist skip skip' log :
  present_display_info ext queue info ist skip = Some (skip', log) ->
  from_block Block_images log.
Proof. unfold present_display_info. intros H. w_inv; from_block_tac. Qed.

Lemma present_swapchain_block ext cc queue qs info i skip skip' log :
  present_swapchain ext cc queue qs info i skip = Some (skip', log) ->
  from_block Block_images log.
Proof.
  unfold present_swapchain. intros H.
  w_inv; from_block_tac;
    try (eapply present_display_info_block; eassumption);
    try (eapply for_each_from_block; [| eassumption];
         intros; eapply present_layout_block; eassumption).
Qed.

Lemma present_rectangle_block ext sc sd region i j skip skip' log :
  present_rectangle ext sc sd region i j skip = Some (skip', log) ->
  from_block Block_regions log.
Proof. unfold present_rectangle. intros H. w_inv; from_block_tac. Qed.

Lemma present_region_block ext cc info regions i skip skip' log :
  present_region ext cc info regions i skip = Some (skip', log) ->
  from_block Block_regions log.
Proof.
  unfold present_region, for_range. intros H. w_inv. from_block_tac.
  eapply for_each_from_block; [| eassumption].
  intros; eapply present_rectangle_block; eassumption.
Qed.

Lemma present_regions_check_block ext cc info skip skip' log :
  present_regions_check ext cc info skip = Some (skip', log) ->
  from_block Block_regions log.
Proof.
  unfold present_regions_check, for_range. intros H. w_inv; from_block_tac.
  eapply for_each_from_block; [| eassumption].
  intros; eapply present_region_block; eassumption.
Qed.

Lemma present_times_check_block ext info skip skip' log :
  present_times_check ext info skip = Some (skip', log) ->
  from_block Block_times log.
Proof. unfold present_times_check. intros H. w_inv; from_block_tac. Qed.

Lemma present_id_feature_block ext info ids i skip skip' log :
  present_id_feature ext info ids i skip = Some (skip', log) ->
  from_block Block_ids log.
Proof. unfold present_id_feature. intros H. w_inv; from_block_tac. Qed.

Lemma present_id_increasing_block ext cc info ids i skip skip' log :
  present_id_increasing ext cc info ids i skip = Some (skip', log) ->
  from_block Block_ids log.
Proof. unfold present_id_increasing. intros H. w_inv; from_block_tac. Qed.

Lemma present_id_check_block ext cc info skip skip' log :
  present_id_check ext cc info skip = Some (skip', log) ->
  from_block Block_ids log.
Proof.
  unfold present_id_check, for_range. intros H. w_inv; from_block_tac;
    try (eapply for_each_from_block; [| eassumption]; intros;
         first [ eapply present_id_feature_block; eassumption
               | eapply present_id_increasing_block; eassumption ]).
Qed.

(** The log of a completed present validation, block by block. *)
Lemma PreCallValidateQueuePresentKHR_parts ext cc queue info skip log :
  PreCallValidateQueuePresentKHR ext cc queue info = Some (skip, log) ->
  exists qs s1 l1 s2 l2 s3 l3 s4 l4 l5,
    Get_QUEUE_STATE cc queue = Some qs
    /\ for_range (VkPresentInfoKHR.swapchainCount info)
         (present_swapchain ext cc queue qs info) s1 = Some (s2, l2)
    /\ present_regions_check ext cc info s2 = Some (s3, l3)
    /\ present_times_check ext info s3 = Some (s4, l4)
    /\ present_id_check ext cc info s4 = Some (skip, l5)
    /\ from_block Block_semaphores l1
    /\ log = l1 ++ l2 ++ l3 ++ l4 ++ l5.
Proof.
  unfold PreCallValidateQueuePresentKHR. intros H.
  apply bind_Some in H as (qs & l0 & l & Hq & H & ->).
  apply bind_Some in H as (flags & l0' & l' & Hf & H & ->).
  apply bind_Some in H as ([s1 sems] & l1 & l'' & Hsem & H & ->).
  apply bind_Some in H as (s2 & l2 & l''' & Hsw & H & ->).
  assert (Hl0 : l0 = []) by (unfold deref, ret in Hq; w_inv; reflexivity).
  assert (Hl0' : l0' = []) by (unfold deref, ret in Hf; w_inv; reflexivity).
  assert (Hqs : Get_QUEUE_STATE cc queue = Some qs).
  { unfold deref, ret in Hq.
    destruct (Get_QUEUE_STATE cc queue); [| discriminate].
    injection Hq as -> _. reflexivity. }
  assert (B1 : from_block Block_semaphores l1).
  { eapply for_each_from_block; [| exact Hsem].
    intros a s0 s1' l0'' _ Hb.
    eapply present_wait_semaphore_block; exact Hb. }
  subst l0 l0'. simpl.
  destruct (VkPresentInfoKHR.pNext info) as [|p ps] eqn:Hp.
  - injection H as <- <-.
    exists qs, s1, l1, s2, l2, s2, [], s2, [], [].
    unfold present_regions_check, present_times_check, present_id_check.
    rewrite Hp. simpl. rewrite app_nil_r. repeat split; auto.
  - apply bind_Some in H as (s3 & l3 & l4' & Hr & H & ->).
    apply bind_Some in H as (s4 & l4 & l5 & Ht & Hi & ->).
    exists qs, s1, l1, s2, l2, s3, l3, s4, l4, l5. repeat split; auto.
Qed.

(** ** Present: a well-formed call completes *)

Lemma skip_or_defined skip m : is_Some m -> is_Some (skip_or skip m).
Proof.
  intros Hm. unfold skip_or. apply bind_defined; [exact Hm |].
  intros a. unfold ret. eauto.
Qed.

Lemma is_some_true {A : Type} (o : option A) :
  is_some o = true -> exists a, o = Some a.
Proof. destruct o; [eauto | discriminate]. Qed.

Ltac w_def :=
  repeat match goal with
    | |- is_Some (Some _) => eexists; reflexivity
    | |- is_Some (bind _ _) => apply bind_defined; [| intros ?]
    | |- is_Some (skip_or _ _) => apply skip_or_defined
    | |- is_Some (ret _) => unfold ret; eauto
    | |- is_Some (LogError _ _ _ _) => unfold LogError; eauto
    | |- is_Some (collaborator _ _) => apply collaborator_defined
    | |- is_Some (deref (Some _)) => unfold deref
    | |- is_Some (if ?c then _ else _) => destruct c
    | |- is_Some (match ?o with Some _ => _ | None => _ end) =>
        let E := fresh "E" in destruct o eqn:E
    end.

Lemma lookup_lt_defined {A : Type} (l : list A) (i : nat) :
  (i < length l)%nat -> exists a, l !! i = Some a.
Proof. intros H. apply lookup_lt_is_Some_2 in H as [a Ha]. eauto. Qed.

Lemma present_wait_semaphore_defined ext cc queue flags info i st :
  (i < length (VkPresentInfoKHR.pWaitSemaphores info))%nat ->
  is_Some (present_wait_semaphore ext cc queue flags info i st).
Proof.
  intros Hi. unfold present_wait_semaphore. destruct st as [skip sems].
  destruct (lookup_lt_defined _ _ Hi) as [sem ->]. w_def.
Qed.

Lemma present_layout_defined ext cc queue i l skip :
  is_Some (present_layout ext cc queue i l skip).
Proof. unfold present_layout. w_def. Qed.

Lemma present_display_info_defined ext queue info ist skip :
  is_Some (present_display_info ext queue info ist skip).
Proof. unfold present_display_info. w_def. Qed.

Lemma present_swapchain_defined ext cc queue qs info i skip :
  present_swapchain_ok cc info i = true ->
  is_Some (present_swapchain ext cc queue qs info i skip).
Proof.
  unfold present_swapchain_ok, present_swapchain.
  destruct (VkPresentInfoKHR.pSwapchains info !! i) as [sc|]; [| discriminate].
  unfold deref at 1. rewrite bind_ret_l.
  destruct (Get_SWAPCHAIN_NODE cc sc) as [sd|]; [| intros _; w_def].
  destruct (VkPresentInfoKHR.pImageIndices info !! i) as [index|];
    [| discriminate].
  rewrite andb_true_iff, orb_true_iff. intros [Hidx Hs].
  apply Z.leb_le in Hidx.
  unfold deref at 1. rewrite bind_ret_l.
  apply bind_defined.
  - destruct (Z.of_nat (length (images sd)) <=? index)%Z eqn:Hle; [w_def |].
    apply Z.leb_gt in Hle.
    assert (Hlt : (Z.to_nat index < length (images sd))%nat) by lia.
    destruct (lookup_lt_defined _ _ Hlt) as [si ->].
    unfold deref at 1. rewrite bind_ret_l.
    destruct (image_state si) as [ist|]; [| w_def].
    destruct (negb (acquired si)); [w_def |].
    apply bind_defined; [| intros s; apply present_display_info_defined].
    destruct (FindLayouts ext ist) as [layouts|]; [| w_def].
    apply for_each_defined. intros; apply present_layout_defined.
  - intros s. destruct (vk_khr_android_surface (tracker cc)); simpl; [w_def |].
    destruct Hs as [Hs | Hs]; [discriminate |].
    apply is_some_true in Hs as [ss ->].
    unfold deref at 1. rewrite bind_ret_l. w_def.
Qed.

Lemma present_rectangle_defined ext sc sd region i j skip :
  (j < length (pRectangles region))%nat ->
  is_Some (present_rectangle ext sc sd region i j skip).
Proof.
  intros Hj. unfold present_rectangle.
  destruct (lookup_lt_defined _ _ Hj) as [rect ->].
  unfold deref at 1. rewrite bind_ret_l. w_def.
Qed.

Lemma present_region_defined ext cc info regions i skip :
  present_region_ok cc info regions i = true ->
  is_Some (present_region ext cc info regions i skip).
Proof.
  unfold present_region_ok, present_region, for_range.
  destruct (VkPresentInfoKHR.pSwapchains info !! i) as [sc|]; [| discriminate].
  destruct (VkPresentRegionsKHR.pRegions regions !! i) as [region|];
    [| discriminate].
  rewrite andb_true_iff. intros [Hs Hr].
  apply is_some_true in Hs as [sd Hsd]. apply Nat.leb_le in Hr.
  unfold deref at 1. rewrite bind_ret_l, Hsd.
  unfold deref. rewrite !bind_ret_l.
  apply for_each_defined. intros j s0 Hj.
  apply present_rectangle_defined. apply in_seq in Hj. lia.
Qed.

Lemma forallb_seq (f : nat -> bool) (n i : nat) :
  forallb f (seq 0 n) = true -> In i (seq 0 n) -> f i = true.
Proof. intros H Hin. rewrite forallb_forall in H. apply H, Hin. Qed.

Lemma present_regions_check_defined ext cc info skip :
  match LvlFindInChain as_VkPresentRegionsKHR (VkPresentInfoKHR.pNext info) with
  | Some regions =>
      forallb (present_region_ok cc info regions)
        (seq 0 (VkPresentRegionsKHR.swapchainCount regions))
  | None => true
  end = true ->
  is_Some (present_regions_check ext cc info skip).
Proof.
  unfold present_regions_check, for_range.
  destruct (LvlFindInChain as_VkPresentRegionsKHR _) as [regions|];
    [| intros _; w_def].
  intros H. apply for_each_defined. intros i s0 Hi.
  apply present_region_defined. eapply forallb_seq; eassumption.
Qed.

Lemma present_times_check_defined ext info skip :
  is_some (VkPresentInfoKHR.pSwapchains info !! 0%nat) = true ->
  is_Some (present_times_check ext info skip).
Proof.
  intros H. apply is_some_true in H as [first Hf].
  unfold present_times_check. rewrite Hf.
  destruct (LvlFindInChain as_VkPresentTimesInfoGOOGLE _); [| w_def].
  destruct (negb _); [| w_def].
  unfold deref. rewrite bind_ret_l. w_def.
Qed.

Lemma present_id_feature_defined ext cc info ids i skip :
  is_some (VkPresentInfoKHR.pSwapchains info !! 0%nat) = true ->
  present_id_ok cc info ids i = true ->
  is_Some (present_id_feature ext info ids i skip).
Proof.
  intros H. apply is_some_true in H as [first Hf].
  unfold present_id_ok, present_id_feature. rewrite Hf.
  destruct (VkPresentInfoKHR.pSwapchains info !! i) as [sc|]; [| discriminate].
  destruct (VkPresentIdKHR.pPresentIds ids !! i) as [id|]; [| discriminate].
  intros _. unfold deref. rewrite bind_ret_l.
  destruct (negb (id =? 0)%Z); [| w_def].
  rewrite bind_ret_l. w_def.
Qed.

Lemma present_id_increasing_defined ext cc info ids i skip :
  present_id_ok cc info ids i = true ->
  is_Some (present_id_increasing ext cc info ids i skip).
Proof.
  unfold present_id_ok, present_id_increasing.
  destruct (VkPresentInfoKHR.pSwapchains info !! i) as [sc|]; [| discriminate].
  destruct (VkPresentIdKHR.pPresentIds ids !! i) as [id|]; [| discriminate].
  unfold deref at 1 2. rewrite !bind_ret_l.
  destruct (id =? 0)%Z; simpl; [intros _; w_def |].
  intros Hs. apply is_some_true in Hs as [st Hst]. rewrite Hst.
  unfold deref. rewrite bind_ret_l. w_def.
Qed.

Lemma present_id_check_defined ext cc info skip :
  is_some (VkPresentInfoKHR.pSwapchains info !! 0%nat) = true ->
  match LvlFindInChain as_VkPresentIdKHR (VkPresentInfoKHR.pNext info) with
  | Some ids =>
      forallb (present_id_ok cc info ids)
        (seq 0 (VkPresentIdKHR.swapchainCount ids))
  | None => true
  end = true ->
  is_Some (present_id_check ext cc info skip).
Proof.
  intros Hfirst. unfold present_id_check, for_range.
  destruct (LvlFindInChain as_VkPresentIdKHR _) as [ids|];
    [| intros _; w_def].
  intros H.
  apply bind_defined.
  { destruct (negb (presentId (tracker cc))); [| w_def].
    apply for_each_defined. intros i s0 Hi.
    apply (present_id_feature_defined ext cc); [exact Hfirst |].
    eapply forallb_seq; eassumption. }
  intros s1. apply bind_defined.
  { destruct (negb _); [| w_def].
    apply is_some_true in Hfirst as [first ->].
    unfold deref. rewrite bind_ret_l. w_def. }
  intros s2. apply for_each_defined. intros i s0 Hi.
  apply present_id_increasing_defined. eapply forallb_seq; eassumption.
Qed.

(** A well-formed present call is validated to completion. *)
Lemma PreCallValidateQueuePresentKHR_defined ext cc queue info :
  present_well_formed cc queue info = true ->
  is_Some (PreCallValidateQueuePresentKHR ext cc queue info).
Proof.
  unfold present_well_formed. rewrite !andb_true_iff.
  intros [[[[[Hq Hsem] Hsw] Hfirst] Hreg] Hid].
  unfold PreCallValidateQueuePresentKHR.
  unfold present_queue_ok in Hq.
  destruct (Get_QUEUE_STATE cc queue) as [qs|]; [| discriminate].
  apply is_some_true in Hq as [flags Hflags].
  unfold deref at 1. rewrite bind_ret_l, Hflags.
  unfold deref at 1. rewrite bind_ret_l.
  apply Nat.leb_le in Hsem.
  apply bind_defined.
  { apply for_each_defined. intros i st Hi.
    apply present_wait_semaphore_defined. apply in_seq in Hi. lia. }
  intros [s1 sems]. apply bind_defined.
  { apply for_each_defined. intros i s0 Hi.
    apply present_swapchain_defined. eapply forallb_seq; eassumption. }
  intros s2. destruct (VkPresentInfoKHR.pNext info) eqn:Hp; [w_def |].
  rewrite <- Hp in Hreg, Hid.
  apply bind_defined;
    [apply present_regions_check_defined; exact Hreg | intros s3].
  apply bind_defined;
    [apply present_times_check_defined; exact Hfirst | intros s4].
  apply present_id_check_defined; assumption.
Qed.

(** ** Present identifiers *)

Lemma present_id_increasing_elim ext cc info ids j s0 s1 l0 r :
  present_id_increasing ext cc info ids j s0 = Some (s1, l0) ->
  In r l0 ->
  exists sc id st,
    VkPresentInfoKHR.pSwapchains info !! j = Some sc
    /\ VkPresentIdKHR.pPresentIds ids !! j = Some id
    /\ Get_SWAPCHAIN_NODE cc sc = Some st
    /\ id <> 0%Z /\ (id <= max_present_id st)%Z
    /\ r = present_id_record j sc id (max_present_id st).
Proof.
  unfold present_id_increasing. intros H Hin.
  w_inv; simpl in Hin; try contradiction.
  destruct Hin as [<- | []].
  match goal with
  | E1 : negb (_ =? 0)%Z = true, E2 : (_ <=? _)%Z = true |- _ =>
      apply negb_true_iff, Z.eqb_neq in E1; apply Z.leb_le in E2
  end.
  eexists _, _, _. repeat split; eauto.
Qed.

Lemma present_id_increasing_intro ext cc info ids j s0 s1 l0 sc id st :
  present_id_increasing ext cc info ids j s0 = Some (s1, l0) ->
  VkPresentInfoKHR.pSwapchains info !! j = Some sc ->
  VkPresentIdKHR.pPresentIds ids !! j = Some id ->
  Get_SWAPCHAIN_NODE cc sc = Some st ->
  id <> 0%Z -> (id <= max_present_id st)%Z ->
  In (present_id_record j sc id (max_present_id st)) l0.
Proof.
  unfold present_id_increasing. intros H Hsc Hid Hst Hnz Hle.
  apply Z.eqb_neq in Hnz. apply Z.leb_le in Hle.
  rewrite Hsc in H. cbn [deref] in H. rewrite bind_ret_l in H.
  rewrite Hid in H. cbn [deref] in H. rewrite bind_ret_l in H.
  rewrite Hnz, Hst in H. cbn [negb deref] in H. rewrite bind_ret_l in H.
  rewrite Hle in H.
  w_inv. left. reflexivity.
Qed.

(** What the present-id block reports about entry [i]. *)
Lemma present_id_check_entry ext cc info ids s s' l i sc id :
  LvlFindInChain as_VkPresentIdKHR (VkPresentInfoKHR.pNext info) = Some ids ->
  present_id_check ext cc info s = Some (s', l) ->
  (i < VkPresentIdKHR.swapchainCount ids)%nat ->
  VkPresentInfoKHR.pSwapchains info !! i = Some sc ->
  VkPresentIdKHR.pPresentIds ids !! i = Some id ->
  (reported (is_PresentIdNotIncreasing i) l = true ->
   id <> 0%Z
   /\ exists st, Get_SWAPCHAIN_NODE cc sc = Some st
                 /\ (id <= max_present_id st)%Z)
  /\ (forall st, Get_SWAPCHAIN_NODE cc sc = Some st ->
                 id <> 0%Z -> (id <= max_present_id st)%Z ->
                 In (present_id_record i sc id (max_present_id st)) l).
Proof.
  intros Hfind H Hi Hsc Hid. unfold present_id_check in H.
  rewrite Hfind in H.
  apply bind_Some in H as (s1 & l1 & l' & H1 & H & ->).
  apply bind_Some in H as (s2 & l2 & l3 & H2 & H3 & ->).
  unfold for_range in *.
  assert (B1 : reported (is_PresentIdNotIncreasing i) l1 = false).
  { apply reported_false. intros r Hin.
    destruct (negb (presentId (tracker cc)));
      [| clear H2 H3; w_inv; destruct Hin].
    destruct (for_each_In_elim _ _ _ _ _ _ H1 Hin)
      as (a & s0 & s1' & l0 & _ & Hb & Hr).
    unfold present_id_feature in Hb. clear H2 H3.
    w_inv; simpl in Hr; try contradiction;
      destruct Hr as [<- | []]; reflexivity. }
  assert (B2 : reported (is_PresentIdNotIncreasing i) l2 = false).
  { apply reported_false. intros r Hin. clear H1 H3.
    w_inv; simpl in Hin; try contradiction;
      destruct Hin as [<- | []]; reflexivity. }
  split.
  - rewrite !reported_app, B1, B2. simpl. intros Hr.
    apply reported_true in Hr as (r & Hin & HP).
    destruct (for_each_In_elim _ _ _ _ _ _ H3 Hin)
      as (j & s0 & s1' & l0 & _ & Hb & Hr).
    destruct (present_id_increasing_elim _ _ _ _ _ _ _ _ _ Hb Hr)
      as (sc' & id' & st & Hsc' & Hid' & Hst & Hnz & Hle & ->).
    simpl in HP. apply Nat.eqb_eq in HP. subst j.
    rewrite Hsc in Hsc'. rewrite Hid in Hid'.
    injection Hsc' as <-. injection Hid' as <-. eauto.
  - intros st Hst Hnz Hle.
    assert (Hin : In i (seq 0 (VkPresentIdKHR.swapchainCount ids)))
      by (apply in_seq; lia).
    destruct (for_each_In_intro _ _ _ _ _ _ H3 Hin)
      as (s0 & s1' & l0 & Hb & Hsub).
    apply in_app_iff. right. apply in_app_iff. right. apply Hsub.
    eapply present_id_increasing_intro; eassumption.
Qed.

(** The blocks of a present validation other than the present-id block do
    not report the present-id error. *)
Lemma present_id_only_in_id_block ext cc queue info skip log i :
  PreCallValidateQueuePresentKHR ext cc queue info = Some (skip, log) ->
  exists l0 s4 l5,
    present_id_check ext cc info s4 = Some (skip, l5)
    /\ log = l0 ++ l5
    /\ reported (is_PresentIdNotIncreasing i) l0 = false.
Proof.
  intros H.
  destruct (PreCallValidateQueuePresentKHR_parts _ _ _ _ _ _ H)
    as (qs & s1 & l1 & s2 & l2 & s3 & l3 & s4 & l4 & l5
        & _ & Hsw & Hreg & Htimes & Hid & B1 & ->).
  exists (l1 ++ l2 ++ l3 ++ l4), s4, l5. split; [exact Hid |].
  split; [rewrite <- !app_assoc; reflexivity |].
  rewrite !reported_app.
  rewrite (from_block_reported _ Block_semaphores l1),
    (from_block_reported _ Block_images l2),
    (from_block_reported _ Block_regions l3),
    (from_block_reported _ Block_times l4); try reflexivity;
    try (intros []; simpl; congruence); auto.
  - eapply present_times_check_block; eassumption.
  - eapply present_regions_check_block; eassumption.
  - eapply for_each_from_block; [| exact Hsw].
    intros; eapply present_swapchain_block; eassumption.
Qed.

(** The present-id block of a completed validation has read entry [i]. *)
Lemma present_id_check_lookup ext cc info ids s s' l i :
  LvlFindInChain as_VkPresentIdKHR (VkPresentInfoKHR.pNext info) = Some ids ->
  present_id_check ext cc info s = Some (s', l) ->
  (i < VkPresentIdKHR.swapchainCount ids)%nat ->
  exists sc, VkPresentInfoKHR.pSwapchains info !! i = Some sc.
Proof.
  intros Hfind H Hi. unfold present_id_check, for_range in H.
  rewrite Hfind in H.
  apply bind_Some in H as (s1 & l1 & l' & _ & H & ->).
  apply bind_Some in H as (s2 & l2 & l3 & _ & H3 & ->).
  assert (Hin : In i (seq 0 (VkPresentIdKHR.swapchainCount ids)))
    by (apply in_seq; lia).
  destruct (for_each_In_intro _ _ _ _ _ _ H3 Hin)
    as (s0 & s1' & l0 & Hb & _).
  unfold present_id_increasing in Hb.
  destruct (VkPresentInfoKHR.pSwapchains info !! i) as [sc|];
    [eauto | discriminate].
Qed.

(** C3.  For entry [i] of the [VkPresentIdKHR] structure of a present call,
    a present id that is not zero and at most the swapchain's
    [max_present_id] is reported as not increasing; a present id above
    [max_present_id] is not.  A well-formed call is validated to
    completion. *)
Theorem present_id_monotonic ext cc queue info ids i sc st id :
  LvlFindInChain as_VkPresentIdKHR (VkPresentInfoKHR.pNext info) = Some ids ->
  (i < VkPresentIdKHR.swapchainCount ids)%nat ->
  VkPresentInfoKHR.pSwapchains info !! i = Some sc ->
  VkPresentIdKHR.pPresentIds ids !! i = Some id ->
  Get_SWAPCHAIN_NODE cc sc = Some st ->
  (present_well_formed cc queue info = true ->
   is_Some (PreCallValidateQueuePresentKHR ext cc queue info))
  /\ forall skip log,
      PreCallValidateQueuePresentKHR ext cc queue info = Some (skip, log) ->
      (id <> 0%Z -> (id <= max_present_id st)%Z ->
       In (present_id_record i sc id (max_present_id st)) log
       /\ reported (is_PresentIdNotIncreasing i) log = true)
      /\ ((max_present_id st < id)%Z ->
          reported (is_PresentIdNotIncreasing i) log = false).
Proof.
  intros Hfind Hi Hsc Hid Hst.
  split; [apply PreCallValidateQueuePresentKHR_defined |].
  intros skip log Hrun.
  destruct (present_id_only_in_id_block _ _ _ _ _ _ i Hrun)
    as (l0 & s4 & l5 & Hcheck & -> & Hl0).
  destruct (present_id_check_entry _ _ _ _ _ _ _ _ _ _ Hfind Hcheck Hi Hsc Hid)
    as [Helim Hintro].
  split.
  - intros Hnz Hle.
    assert (Hin : In (present_id_record i sc id (max_present_id st)) l5)
      by (apply Hintro; assumption).
    split; [apply in_app_iff; right; exact Hin |].
    apply reported_true. eexists. split; [apply in_app_iff; right; exact Hin |].
    simpl. apply Nat.eqb_refl.
  - intros Hgt. rewrite reported_app, Hl0. simpl.
    destruct (reported (is_PresentIdNotIncreasing i) l5) eqn:E; [| reflexivity].
    destruct (Helim eq_refl) as (_ & st' & Hst' & Hle).
    rewrite Hst in Hst'. injection Hst' as <-. lia.
Qed.

(** C10.  A present id equal to zero is never reported as not increasing,
    whatever the swapchain's [max_present_id] is.  A well-formed call is
    validated to completion. *)
Theorem present_id_zero_exempt ext cc queue info ids i :
  LvlFindInChain as_VkPresentIdKHR (VkPresentInfoKHR.pNext info) = Some ids ->
  (i < VkPresentIdKHR.swapchainCount ids)%nat ->
  VkPresentIdKHR.pPresentIds ids !! i = Some 0%Z ->
  (present_well_formed cc queue info = true ->
   is_Some (PreCallValidateQueuePresentKHR ext cc queue info))
  /\ forall skip log,
      PreCallValidateQueuePresentKHR ext cc queue info = Some (skip, log) ->
      reported (is_PresentIdNotIncreasing i) log = false.
Proof.
  intros Hfind Hi Hid.
  split; [apply PreCallValidateQueuePresentKHR_defined |].
  intros skip log Hrun.
  destruct (present_id_only_in_id_block _ _ _ _ _ _ i Hrun)
    as (l0 & s4 & l5 & Hcheck & -> & Hl0).
  destruct (present_id_check_lookup _ _ _ _ _ _ _ _ Hfind Hcheck Hi)
    as [sc Hsc].
  destruct (present_id_check_entry _ _ _ _ _ _ _ _ _ _ Hfind Hcheck Hi Hsc Hid)
    as [Helim _].
  rewrite reported_app, Hl0. simpl.
  destruct (reported (is_PresentIdNotIncreasing i) l5) eqn:E; [| reflexivity].
  destruct (Helim eq_refl) as (Hnz & _). contradiction.
Qed.

(** ** Presented images *)

Lemma present_layout_intro ext cc queue i l s0 s1 l0 :
  present_layout ext cc queue i l s0 = Some (s1, l0) ->
  l <> VK_IMAGE_LAYOUT_PRESENT_SRC_KHR ->
  vk_khr_shared_presentable_image (tracker cc) = false
  \/ l <> VK_IMAGE_LAYOUT_SHARED_PRESENT_KHR ->
  In (present_layout_record cc i queue l) l0.
Proof.
  unfold present_layout. intros H Hsrc Hshared.
  apply Z.eqb_neq in Hsrc. rewrite Hsrc in H.
  assert (Hc : negb (vk_khr_shared_presentable_image (tracker cc))
               || negb (l =? VK_IMAGE_LAYOUT_SHARED_PRESENT_KHR)%Z = true).
  { apply orb_true_iff. destruct Hshared as [-> | Hne]; [left; reflexivity |].
    right. apply negb_true_iff, Z.eqb_neq, Hne. }
  rewrite Hc in H. simpl in H. w_inv. left. reflexivity.
Qed.

(** What the image block logs for entry [i] of a registered swapchain. *)
Lemma present_swapchain_reports ext cc queue qs info i s0 s1 l0 sc sd index :
  present_swapchain ext cc queue qs info i s0 = Some (s1, l0) ->
  VkPresentInfoKHR.pSwapchains info !! i = Some sc ->
  Get_SWAPCHAIN_NODE cc sc = Some sd ->
  VkPresentInfoKHR.pImageIndices info !! i = Some index ->
  ((Z.of_nat (length (images sd)) <= index)%Z ->
   In (present_index_record cc i sc index
         (wrap32 (Z.of_nat (length (images sd))))) l0)
  /\ (forall si,
        (index < Z.of_nat (length (images sd)))%Z ->
        images sd !! Z.to_nat index = Some si ->
        (image_state si = None \/ acquired si = false ->
         In (present_not_acquired_record cc i sc index) l0)
        /\ (forall ist layouts l,
              image_state si = Some ist -> acquired si = true ->
              FindLayouts ext ist = Some layouts -> In l layouts ->
              l <> VK_IMAGE_LAYOUT_PRESENT_SRC_KHR ->
              vk_khr_shared_presentable_image (tracker cc) = false
              \/ l <> VK_IMAGE_LAYOUT_SHARED_PRESENT_KHR ->
              In (present_layout_record cc i queue l) l0)).
Proof.
  unfold present_swapchain. intros H Hsc Hsd Hidx.
  rewrite Hsc in H. cbn [deref] in H. rewrite bind_ret_l, Hsd, Hidx in H.
  cbn [deref] in H. rewrite bind_ret_l in H.
  apply bind_Some in H as (s2 & l2 & l3 & H2 & _ & ->).
  split.
  - intros Hle. apply Z.leb_le in Hle. rewrite Hle in H2.
    w_inv. apply in_app_iff. left. left. reflexivity.
  - intros si Hlt Hsi. apply Z.leb_gt in Hlt. rewrite Hlt, Hsi in H2.
    cbn [deref] in H2. rewrite bind_ret_l in H2. split.
    + intros Hna. apply in_app_iff. left.
      destruct (image_state si) as [ist|].
      * destruct Hna as [Hna | Hna]; [discriminate |].
        rewrite Hna in H2. simpl in H2. w_inv. left. reflexivity.
      * w_inv. left. reflexivity.
    + intros ist layouts l Hist Hacq Hfind Hl Hsrc Hshared.
      rewrite Hist, Hacq in H2. simpl in H2. rewrite Hfind in H2.
      apply bind_Some in H2 as (s3 & l4 & l5 & Hloop & _ & ->).
      destruct (for_each_In_intro _ _ _ _ _ _ Hloop Hl)
        as (s4 & s5 & l6 & Hb & Hsub).
      apply in_app_iff. left. apply in_app_iff. left. apply Hsub.
      eapply present_layout_intro; eassumption.
Qed.

(** C4.  For entry [i] of a present call whose swapchain is registered, an
    error is reported when the image index is not below the number of
    images, or when the image record at that index has no image state or is
    not acquired; for an acquired image an error is reported for every
    tracked layout that is neither [VK_IMAGE_LAYOUT_PRESENT_SRC_KHR] nor,
    with the shared-presentable-image extension enabled,
    [VK_IMAGE_LAYOUT_SHARED_PRESENT_KHR].  A well-formed call is validated to
    completion. *)
Theorem present_image_checks ext cc queue info i sc sd index :
  (i < VkPresentInfoKHR.swapchainCount info)%nat ->
  VkPresentInfoKHR.pSwapchains info !! i = Some sc ->
  Get_SWAPCHAIN_NODE cc sc = Some sd ->
  VkPresentInfoKHR.pImageIndices info !! i = Some index ->
  (present_well_formed cc queue info = true ->
   is_Some (PreCallValidateQueuePresentKHR ext cc queue info))
  /\ forall skip log,
      PreCallValidateQueuePresentKHR ext cc queue info = Some (skip, log) ->
      ((Z.of_nat (length (images sd)) <= index)%Z ->
       In (present_index_record cc i sc index
             (wrap32 (Z.of_nat (length (images sd))))) log)
      /\ (forall si,
            (index < Z.of_nat (length (images sd)))%Z ->
            images sd !! Z.to_nat index = Some si ->
            (image_state si = None \/ acquired si = false ->
             In (present_not_acquired_record cc i sc index) log)
            /\ (forall ist layouts l,
                  image_state si = Some ist -> acquired si = true ->
                  FindLayouts ext ist = Some layouts -> In l layouts ->
                  l <> VK_IMAGE_LAYOUT_PRESENT_SRC_KHR ->
                  vk_khr_shared_presentable_image (tracker cc) = false
                  \/ l <> VK_IMAGE_LAYOUT_SHARED_PRESENT_KHR ->
                  In (present_layout_record cc i queue l) log)).
Proof.
  intros Hi Hsc Hsd Hidx.
  split; [apply PreCallValidateQueuePresentKHR_defined |].
  intros skip log Hrun.
  destruct (PreCallValidateQueuePresentKHR_parts _ _ _ _ _ _ Hrun)
    as (qs & s1 & l1 & s2 & l2 & s3 & l3 & s4 & l4 & l5
        & _ & Hsw & _ & _ & _ & _ & ->).
  assert (Hin : In i (seq 0 (VkPresentInfoKHR.swapchainCount info)))
    by (apply in_seq; lia).
  destruct (for_each_In_intro _ _ _ _ _ _ Hsw Hin)
    as (s0 & s1' & l0 & Hb & Hsub).
  destruct (present_swapchain_reports _ _ _ _ _ _ _ _ _ _ _ _ Hb Hsc Hsd Hidx)
    as [Hlarge Himg].
  assert (Hlog : forall r, In r l0 -> In r (l1 ++ l2 ++ l3 ++ l4 ++ l5)).
  { intros r Hr. apply in_app_iff. right. apply in_app_iff. left.
    apply Hsub, Hr. }
  split.
  - intros Hle. apply Hlog, Hlarge, Hle.
  - intros si Hlt Hsi. destruct (Himg si Hlt Hsi) as [Hna Hlay]. split.
    + intros H. apply Hlog, Hna, H.
    + intros ist layouts l Hist Hacq Hfind Hl Hsrc Hshared.
      apply Hlog. eapply Hlay; eassumption.
Qed.

(** ** Present regions *)

Lemma rotate_mask_zero (t : Z) :
  Z.land t rotate_90_270_mask = 0%Z <-> ~ has_rotate_90_270 t.
Proof.
  unfold rotate_90_270_mask, has_rotate_90_270.
  rewrite !Z.land_lor_distr_r, !Z.lor_eq_0_iff.
  split.
  - intros [[H1 H2] [H3 H4]] [H | [H | [H | H]]]; contradiction.
  - intros H.
    repeat split;
      match goal with
      | |- ?a = 0%Z => destruct (Z.eq_dec a 0%Z) as [E|E]; [exact E |]
      end; exfalso; apply H; tauto.
Qed.

Lemma transformed_rect_rotated (t : Z) (rect : VkRectLayerKHR) :
  has_rotate_90_270 t -> transformed_rect t rect = swap_rect rect.
Proof.
  intros H. unfold transformed_rect.
  destruct (Z.land t rotate_90_270_mask =? 0)%Z eqn:E; [| reflexivity].
  apply Z.eqb_eq, rotate_mask_zero in E. contradiction.
Qed.

Lemma transformed_rect_upright (t : Z) (rect : VkRectLayerKHR) :
  ~ has_rotate_90_270 t -> transformed_rect t rect = rect.
Proof.
  intros H. unfold transformed_rect.
  apply rotate_mask_zero, Z.eqb_eq in H. rewrite H. reflexivity.
Qed.

(** What one iteration of the rectangle loop reports about rectangle [j] of
    region [i]. *)
Lemma present_rectangle_reported ext sc sd region i' j' s0 s1 l0 rect i j :
  present_rectangle ext sc sd region i' j' s0 = Some (s1, l0) ->
  pRectangles region !! j' = Some rect ->
  reported (is_RectOffset i j) l0
  = (i' =? i)%nat && (j' =? j)%nat
    && rect_exceeds_extent (createInfo sd)
         (transformed_rect (preTransform (createInfo sd)) rect).
Proof.
  unfold present_rectangle, rect_exceeds_extent. intros H Hrect.
  rewrite Hrect in H. cbn [deref] in H. rewrite bind_ret_l in H.
  apply bind_Some in H as (s2 & l2 & l' & H2 & H & ->).
  apply bind_Some in H as (s3 & l3 & l4 & H3 & H4 & ->).
  rewrite !reported_app.
  assert (R4 : reported (is_RectOffset i j) l4 = false).
  { clear H2 H3. w_inv; reflexivity. }
  rewrite R4, orb_false_r.
  destruct (width (imageExtent (createInfo sd)) <? _)%Z;
    destruct (height (imageExtent (createInfo sd)) <? _)%Z;
    clear H4; w_inv; simpl;
    destruct ((i' =? i)%nat && (j' =? j)%nat); reflexivity.
Qed.

Lemma present_region_elim ext cc info regs i' s0 s1 l0 i j :
  present_region ext cc info regs i' s0 = Some (s1, l0) ->
  reported (is_RectOffset i j) l0 = true ->
  i' = i
  /\ exists sc sd region rect,
      VkPresentInfoKHR.pSwapchains info !! i = Some sc
      /\ Get_SWAPCHAIN_NODE cc sc = Some sd
      /\ VkPresentRegionsKHR.pRegions regs !! i = Some region
      /\ pRectangles region !! j = Some rect
      /\ rect_exceeds_extent (createInfo sd)
           (transformed_rect (preTransform (createInfo sd)) rect) = true.
Proof.
  unfold present_region, for_range. intros H Hrep.
  apply bind_Some in H as (sc & l1 & l' & Hsc & H & ->).
  apply bind_Some in H as (sd & l2 & l'' & Hsd & H & ->).
  apply bind_Some in H as (region & l3 & l4 & Hreg & Hloop & ->).
  unfold deref, ret in Hsc, Hsd, Hreg.
  destruct (VkPresentInfoKHR.pSwapchains info !! i') as [sc'|] eqn:Esc;
    [| discriminate].
  destruct (Get_SWAPCHAIN_NODE cc sc) as [sd'|] eqn:Esd; [| discriminate].
  destruct (VkPresentRegionsKHR.pRegions regs !! i') as [region'|] eqn:Ereg;
    [| discriminate].
  injection Hsc as -> <-. injection Hsd as -> <-. injection Hreg as -> <-.
  simpl in Hrep.
  apply reported_true in Hrep as (r & Hin & HP).
  destruct (for_each_In_elim _ _ _ _ _ _ Hloop Hin)
    as (j' & s2 & s3 & l5 & Hj' & Hb & Hr).
  assert (Hrect : exists rect, pRectangles region !! j' = Some rect).
  { unfold present_rectangle in Hb.
    destruct (pRectangles region !! j') as [rect|]; [eauto | discriminate]. }
  destruct Hrect as [rect Hrect].
  pose proof (present_rectangle_reported _ _ _ _ _ _ _ _ _ _ i j Hb Hrect)
    as Hrep.
  assert (Ht : reported (is_RectOffset i j) l5 = true).
  { apply reported_true. eauto. }
  rewrite Ht in Hrep. symmetry in Hrep.
  rewrite !andb_true_iff, !Nat.eqb_eq in Hrep.
  destruct Hrep as [[-> ->] Hex].
  split; [reflexivity |]. exists sc, sd, region, rect. auto.
Qed.

Lemma present_region_intro ext cc info regs i s0 s1 l0 j sc sd region rect :
  present_region ext cc info regs i s0 = Some (s1, l0) ->
  VkPresentInfoKHR.pSwapchains info !! i = Some sc ->
  Get_SWAPCHAIN_NODE cc sc = Some sd ->
  VkPresentRegionsKHR.pRegions regs !! i = Some region ->
  (j < rectangleCount region)%nat ->
  pRectangles region !! j = Some rect ->
  rect_exceeds_extent (createInfo sd)
    (transformed_rect (preTransform (createInfo sd)) rect) = true ->
  reported (is_RectOffset i j) l0 = true.
Proof.
  unfold present_region, for_range. intros H Hsc Hsd Hreg Hj Hrect Hex.
  rewrite Hsc in H. cbn [deref] in H. rewrite bind_ret_l, Hsd in H.
  cbn [deref] in H. rewrite bind_ret_l, Hreg in H.
  cbn [deref] in H. rewrite bind_ret_l in H.
  assert (Hin : In j (seq 0 (rectangleCount region))) by (apply in_seq; lia).
  destruct (for_each_In_intro _ _ _ _ _ _ H Hin)
    as (s2 & s3 & l5 & Hb & Hsub).
  pose proof (present_rectangle_reported _ _ _ _ _ _ _ _ _ _ i j Hb Hrect)
    as Hrep.
  rewrite !Nat.eqb_refl, Hex in Hrep. simpl in Hrep.
  apply reported_true in Hrep as (r & Hr & HP).
  apply reported_true. exists r. split; [apply Hsub, Hr | exact HP].
Qed.

Lemma present_regions_check_entry ext cc info regs s s' l i j sc sd region
    rect :
  LvlFindInChain as_VkPresentRegionsKHR (VkPresentInfoKHR.pNext info)
  = Some regs ->
  present_regions_check ext cc info s = Some (s', l) ->
  (i < VkPresentRegionsKHR.swapchainCount regs)%nat ->
  VkPresentInfoKHR.pSwapchains info !! i = Some sc ->
  Get_SWAPCHAIN_NODE cc sc = Some sd ->
  VkPresentRegionsKHR.pRegions regs !! i = Some region ->
  (j < rectangleCount region)%nat ->
  pRectangles region !! j = Some rect ->
  reported (is_RectOffset i j) l
  = rect_exceeds_extent (createInfo sd)
      (transformed_rect (preTransform (createInfo sd)) rect).
Proof.
  intros Hfind H Hi Hsc Hsd Hreg Hj Hrect.
  unfold present_regions_check, for_range in H. rewrite Hfind in H.
  destruct (rect_exceeds_extent _ _) eqn:Hex.
  - assert (Hin : In i (seq 0 (VkPresentRegionsKHR.swapchainCount regs)))
      by (apply in_seq; lia).
    destruct (for_each_In_intro _ _ _ _ _ _ H Hin)
      as (s0 & s1 & l0 & Hb & Hsub).
    pose proof (present_region_intro _ _ _ _ _ _ _ _ _ _ _ _ _
                  Hb Hsc Hsd Hreg Hj Hrect Hex) as Hrep.
    apply reported_true in Hrep as (r & Hr & HP).
    apply reported_true. exists r. split; [apply Hsub, Hr | exact HP].
  - destruct (reported (is_RectOffset i j) l) eqn:Hrep; [| reflexivity].
    apply reported_true in Hrep as (r & Hin & HP).
    destruct (for_each_In_elim _ _ _ _ _ _ H Hin)
      as (i' & s0 & s1 & l0 & _ & Hb & Hr).
    assert (Ht : reported (is_RectOffset i j) l0 = true)
      by (apply reported_true; eauto).
    destruct (present_region_elim _ _ _ _ _ _ _ _ _ _ Hb Ht)
      as (-> & sc' & sd' & region' & rect' & Hsc' & Hsd' & Hreg' & Hrect'
          & Hex').
    rewrite Hsc in Hsc'. injection Hsc' as <-.
    rewrite Hsd in Hsd'. injection Hsd' as <-.
    rewrite Hreg in Hreg'. injection Hreg' as <-.
    rewrite Hrect in Hrect'. injection Hrect' as <-.
    congruence.
Qed.

(** The blocks of a present validation other than the regions block do not
    report the offset-and-extent error. *)
Lemma rect_offset_only_in_regions_block ext cc queue info skip log i j :
  PreCallValidateQueuePresentKHR ext cc queue info = Some (skip, log) ->
  exists s2 s3 l3,
    present_regions_check ext cc info s2 = Some (s3, l3)
    /\ reported (is_RectOffset i j) log = reported (is_RectOffset i j) l3.
Proof.
  intros H.
  destruct (PreCallValidateQueuePresentKHR_parts _ _ _ _ _ _ H)
    as (qs & s1 & l1 & s2 & l2 & s3 & l3 & s4 & l4 & l5
        & _ & Hsw & Hreg & Htimes & Hid & B1 & ->).
  exists s2, s3, l3. split; [exact Hreg |].
  rewrite !reported_app.
  rewrite (from_block_reported _ Block_semaphores l1),
    (from_block_reported _ Block_images l2),
    (from_block_reported _ Block_times l4),
    (from_block_reported _ Block_ids l5);
    try (intros []; simpl; congruence); auto.
  - simpl. rewrite orb_false_r. reflexivity.
  - eapply present_id_check_block; eassumption.
  - eapply present_times_check_block; eassumption.
  - eapply for_each_from_block; [| exact Hsw].
    intros; eapply present_swapchain_block; eassumption.
Qed.

Lemma rect_exceeds_extent_iff ci rect :
  rect_exceeds_extent ci rect = true <->
  (width (imageExtent ci)
   < wrap32 (x (offset rect) + width (extent rect)))%Z
  \/ (height (imageExtent ci)
      < wrap32 (y (offset rect) + height (extent rect)))%Z.
Proof.
  unfold rect_exceeds_extent. rewrite orb_true_iff, !Z.ltb_lt. reflexivity.
Qed.

(** C6 (amended).  For a swapchain whose pre-transform has a 90 or 270
    degree rotation bit, mirrored or not, the rectangle that is checked has
    the given rectangle's [offset.y] as its [offset.x] and [offset.x] as its
    [offset.y], its [extent.height] as its [extent.width] and [extent.width]
    as its [extent.height]; otherwise it is the given rectangle.  The
    offset-and-extent error is therefore reported, under such a rotation,
    exactly when the [uint32_t] sum of the given [offset.y] and
    [extent.height] exceeds [imageExtent.width] or that of the given
    [offset.x] and [extent.width] exceeds [imageExtent.height]; and without
    rotation exactly when the [uint32_t] sum of [offset.x] and
    [extent.width] exceeds [imageExtent.width] or that of [offset.y] and
    [extent.height] exceeds [imageExtent.height].  For offsets that are not
    negative and sums that fit 32 bits these are the plain sums.  A
    well-formed call is validated to completion. *)
Theorem present_rectangle_bounds ext cc queue info regs i j sc sd region rect :
  LvlFindInChain as_VkPresentRegionsKHR (VkPresentInfoKHR.pNext info)
  = Some regs ->
  (i < VkPresentRegionsKHR.swapchainCount regs)%nat ->
  VkPresentInfoKHR.pSwapchains info !! i = Some sc ->
  Get_SWAPCHAIN_NODE cc sc = Some sd ->
  VkPresentRegionsKHR.pRegions regs !! i = Some region ->
  (j < rectangleCount region)%nat ->
  pRectangles region !! j = Some rect ->
  let ci := createInfo sd in
  let checked := transformed_rect (preTransform ci) rect in
  (has_rotate_90_270 (preTransform ci) ->
   x (offset checked) = y (offset rect)
   /\ y (offset checked) = x (offset rect)
   /\ width (extent checked) = height (extent rect)
   /\ height (extent checked) = width (extent rect)
   /\ layer checked = layer rect)
  /\ (~ has_rotate_90_270 (preTransform ci) -> checked = rect)
  /\ (present_well_formed cc queue info = true ->
      is_Some (PreCallValidateQueuePresentKHR ext cc queue info))
  /\ forall skip log,
      PreCallValidateQueuePresentKHR ext cc queue info = Some (skip, log) ->
      (has_rotate_90_270 (preTransform ci) ->
       (reported (is_RectOffset i j) log = true <->
        (width (imageExtent ci)
         < wrap32 (y (offset rect) + height (extent rect)))%Z
        \/ (height (imageExtent ci)
            < wrap32 (x (offset rect) + width (extent rect)))%Z))
      /\ (~ has_rotate_90_270 (preTransform ci) ->
          (reported (is_RectOffset i j) log = true <->
           (width (imageExtent ci)
            < wrap32 (x (offset rect) + width (extent rect)))%Z
           \/ (height (imageExtent ci)
               < wrap32 (y (offset rect) + height (extent rect)))%Z))
      /\ (reported (is_RectOffset i j) log = true <->
          (width (imageExtent ci)
           < wrap32 (x (offset checked) + width (extent checked)))%Z
          \/ (height (imageExtent ci)
              < wrap32 (y (offset checked) + height (extent checked)))%Z)
      /\ ((0 <= x (offset checked))%Z ->
          (0 <= y (offset checked))%Z ->
          (0 <= width (extent checked))%Z ->
          (0 <= height (extent checked))%Z ->
          (x (offset checked) + width (extent checked) <= UINT32_MAX)%Z ->
          (y (offset checked) + height (extent checked) <= UINT32_MAX)%Z ->
          (reported (is_RectOffset i j) log = true <->
           (width (imageExtent ci)
            < x (offset checked) + width (extent checked))%Z
           \/ (height (imageExtent ci)
               < y (offset checked) + height (extent checked))%Z)).
Proof.
  intros Hfind Hi Hsc Hsd Hreg Hj Hrect ci checked.
  split.
  { intros Hrot. subst checked.
    rewrite (transformed_rect_rotated _ rect Hrot). repeat split. }
  split; [apply transformed_rect_upright |].
  split; [apply PreCallValidateQueuePresentKHR_defined |].
  intros skip log Hrun.
  destruct (rect_offset_only_in_regions_block _ _ _ _ _ _ i j Hrun)
    as (s2 & s3 & l3 & Hcheck & ->).
  rewrite (present_regions_check_entry _ _ _ _ _ _ _ _ _ _ _ _ _
             Hfind Hcheck Hi Hsc Hsd Hreg Hj Hrect).
  fold ci. fold checked.
  split; [| split; [| split]].
  - intros Hrot. subst checked.
    rewrite (transformed_rect_rotated _ rect Hrot).
    apply rect_exceeds_extent_iff.
  - intros Hup. subst checked.
    rewrite (transformed_rect_upright _ rect Hup).
    apply rect_exceeds_extent_iff.
  - apply rect_exceeds_extent_iff.
  - intros Hx Hy Hw Hh Hxw Hyh. rewrite rect_exceeds_extent_iff.
    rewrite !wrap32_small by lia. reflexivity.
Qed.

(** * The properties at the test device *)

Lemma release_acquire_classification_witness :
  let b := ImageMemoryBarrier
             {| srcQueueFamilyIndex := 1; dstQueueFamilyIndex := 2 |} in
  IsReleaseOp IsTransferOp_spec (example_command_buffer 1) b = true
  /\ IsAcquireOp IsTransferOp_spec (example_command_buffer 2) b = true
  /\ IsReleaseOp IsTransferOp_spec (example_command_buffer 1)
       (BufferMemoryBarrier
          {| srcQueueFamilyIndex := 1; dstQueueFamilyIndex := 1 |}) = false.
Proof.
  intros b.
  destruct (release_acquire_classification IsTransferOp_spec
              IsTransferOp_spec_no_change (example_command_buffer 1) b)
    as (Hrel & _).
  destruct (release_acquire_classification IsTransferOp_spec
              IsTransferOp_spec_no_change (example_command_buffer 2) b)
    as (_ & Hacq & _).
  destruct (release_acquire_classification IsTransferOp_spec
              IsTransferOp_spec_no_change (example_command_buffer 1)
              (BufferMemoryBarrier
                 {| srcQueueFamilyIndex := 1; dstQueueFamilyIndex := 1 |}))
    as (_ & _ & Hsame & _).
  split; [| split].
  - apply Hrel. eexists. repeat split; reflexivity.
  - apply Hacq. eexists. repeat split; reflexivity.
  - apply (Hsame _ eq_refl eq_refl).
Defined.

Lemma BindPipeline_frame_witness :
  let cb := example_command_buffer 0 in
  let cb' := BindPipeline BindPoint_Compute 4096 cb in
  GetCurrentPipeline cb' BindPoint_Compute = 4096%Z
  /\ pipeline_bound cb' = true
  /\ GetCurrentPipeline cb' BindPoint_Graphics
     = GetCurrentPipeline cb BindPoint_Graphics
  /\ state cb' = CB_RECORDING.
Proof.
  intros cb cb'.
  destruct (BindPipeline_frame cb BindPoint_Compute 4096)
    as (_ & Hcur & Hbound & Hother & _ & Hsame).
  split; [exact Hcur |]. split; [exact Hbound |]. split.
  - unfold GetCurrentPipeline, cb'.
    rewrite (Hother BindPoint_Graphics); [reflexivity | discriminate].
  - reflexivity.
Defined.

(** Three images, [minImageCount] 2, two images acquired: a third acquire
    with an unbounded timeout is flagged. *)
Lemma acquire_count_bound_witness :
  let sd := example_swapchain false example_images 2 2 0 1 in
  Get_SWAPCHAIN_NODE (example_device sd) 1 = Some sd
  /\ exists skip log,
      ValidateAcquireNextImage example_collaborators (example_device sd)
        ACQUIRE_VERSION_1 1 UINT64_MAX 0 0 "vkAcquireNextImageKHR"
        "VUID-vkAcquireNextImageKHR-semaphore-03265" = Some (skip, log)
      /\ reported is_TooManyAcquired log = true.
Proof.
  intros sd. split; [reflexivity |].
  destruct (acquire_count_bound example_collaborators (example_device sd)
              ACQUIRE_VERSION_1 1 UINT64_MAX 0 0 "vkAcquireNextImageKHR"
              "VUID-vkAcquireNextImageKHR-semaphore-03265" sd eq_refl)
    as (skip & log & E & Hiff & _).
  exists skip, log. split; [exact E |].
  apply Hiff. split; [reflexivity | vm_compute; reflexivity].
Defined.

(** No image yet, [minImageCount] 2, nothing acquired: the plain difference
    is negative and below [acquired_images], yet nothing is reported. *)
Lemma acquire_count_plain_difference_fails :
  let sd := example_swapchain false [] 0 2 0 1 in
  let cc := example_device sd in
  let run :=
    ValidateAcquireNextImage example_collaborators cc ACQUIRE_VERSION_1 1
      UINT64_MAX 0 0 "vkAcquireNextImageKHR"
      "VUID-vkAcquireNextImageKHR-semaphore-03265" in
  Get_SWAPCHAIN_NODE cc 1 = Some sd
  /\ ~ (reported is_TooManyAcquired (log_of run) = true <->
        (Z.of_nat (length (images sd))
         - minImageCount (acquire_capabilities cc sd)
         < acquired_images sd)%Z).
Proof.
  intros sd cc run. split; [reflexivity |].
  intros [_ H].
  assert (Hr : reported is_TooManyAcquired (log_of run) = true).
  { apply H. vm_compute. reflexivity. }
  vm_compute in Hr. discriminate Hr.
Qed.



Lemma retired_swapchain_flagged_witness :
  let sd := example_swapchain true example_images 0 2 0 1 in
  let cc := example_device sd in
  let pCreateInfo := example_create_info 1 1 in
  Get_SWAPCHAIN_NODE cc 1 = Some sd
  /\ retired sd = true
  /\ oldSwapchain pCreateInfo = 1%Z
  /\ (exists skip log,
        ValidateAcquireNextImage example_collaborators cc ACQUIRE_VERSION_1 1
          1000 0 0 "vkAcquireNextImageKHR"
          "VUID-vkAcquireNextImageKHR-semaphore-03265" = Some (skip, log)
        /\ reported is_AcquireRetired log = true)
  /\ (exists skip log,
        PreCallValidateWaitForPresentKHR example_collaborators cc 1 5 1000
        = Some (skip, log)
        /\ reported is_WaitForPresentRetired log = true)
  /\ (exists skip log,
        PreCallValidateCreateSwapchainKHR example_collaborators cc pCreateInfo
        = Some (skip, log)
        /\ reported is_OldSwapchainRetired log = true
        /\ In (create_old_retired_record "vkCreateSwapchainKHR()" pCreateInfo)
             log).
Proof.
  intros sd cc pCreateInfo.
  destruct (retired_swapchain_flagged example_collaborators cc 1 sd eq_refl)
    as (Hacq & Hwait & Hcreate).
  split; [reflexivity |]. split; [reflexivity |]. split; [reflexivity |].
  split; [| split].
  - destruct (Hacq ACQUIRE_VERSION_1 1000%Z 0%Z 0%Z "vkAcquireNextImageKHR"
                "VUID-vkAcquireNextImageKHR-semaphore-03265")
      as (skip & log & E & R).
    exists skip, log. split; [exact E | exact R].
  - destruct (Hwait 5%Z 1000%Z) as (skip & log & E & R).
    exists skip, log. split; [exact E | exact R].
  - destruct (Hcreate pCreateInfo eq_refl)
      as (skip & log & E & Hiff & Hin & _).
    + right. eexists. reflexivity.
    + assert (R : reported is_OldSwapchainRetired log = true).
      { apply Hiff. split; [reflexivity |]. split.
        - intros (_ & s & Es & Hnone & _).
          vm_compute in Es. injection Es as <-.
          discriminate (Hnone 7%Z _ eq_refl).
        - intros [Hsurf _]. apply Hsurf. reflexivity. }
      exists skip, log. split; [exact E |].
      split; [exact R | exact (Hin R)].
Defined.

(** The retired swapchain 2, made for surface 11, named as [oldSwapchain]
    of a creation on surface 11, which no queue can present to, and of a
    creation on surface 10: the validation returns at the
    presentation-support check in the first case and at the surface check
    of [oldSwapchain] in the second, and the retirement error is reported
    in neither. *)
Lemma retired_old_swapchain_not_flagged :
  let cc := example_device2 in
  let sd := example_retired_swapchain in
  let on_unsupported := example_create_info_on 11 2 in
  let on_other_surface := example_create_info_on 10 2 in
  let run pCreateInfo :=
    PreCallValidateCreateSwapchainKHR example_collaborators cc pCreateInfo in
  Get_SWAPCHAIN_NODE cc 2 = Some sd
  /\ retired sd = true
  /\ oldSwapchain on_unsupported = 2%Z
  /\ oldSwapchain on_other_surface = 2%Z
  /\ is_Some (Get_SURFACE_STATE cc (surface on_unsupported))
  /\ is_Some (Get_SURFACE_STATE cc (surface on_other_surface))
  /\ run on_unsupported
     = Some (true,
             [create_surface_record cc "vkCreateSwapchainKHR()"
                example_unsupported_surface])
  /\ run on_other_surface
     = Some (true,
             [create_old_surface_record "vkCreateSwapchainKHR()"
                on_other_surface])
  /\ ~ (retired sd = true ->
        reported is_OldSwapchainRetired (log_of (run on_unsupported)) = true)
  /\ ~ (retired sd = true ->
        reported is_OldSwapchainRetired (log_of (run on_other_surface))
        = true).
Proof.
  intros cc sd on_unsupported on_other_surface run.
  split; [reflexivity |]. split; [reflexivity |]. split; [reflexivity |].
  split; [reflexivity |]. split; [eexists; reflexivity |].
  split; [eexists; reflexivity |].
  split; [vm_compute; reflexivity |]. split; [vm_compute; reflexivity |].
  split; intros H; specialize (H eq_refl); vm_compute in H; discriminate H.
Qed.

Lemma destroy_swapchain_erases_witness :
  let sd := example_swapchain false example_images 2 2 0 1 in
  let cc := example_device sd in
  let cc' := PreCallRecordDestroySwapchainKHR example_collaborators cc 1 in
  1%Z <> VK_NULL_HANDLE
  /\ Get_SWAPCHAIN_NODE cc 1 = Some sd
  /\ qfo_release_image_barrier_map cc' !! 21%Z = None
  /\ qfo_release_image_barrier_map cc' !! 22%Z = None
  /\ qfo_release_image_barrier_map cc' !! 99%Z = Some [].
Proof.
  intros sd cc cc'.
  assert (Hnz : 1%Z <> VK_NULL_HANDLE) by discriminate.
  destruct (destroy_swapchain_erases example_collaborators cc 1 sd Hnz
              eq_refl) as (Herased & Hkept & _).
  split; [exact Hnz |]. split; [reflexivity |].
  split; [apply Herased; simpl; auto |].
  split; [apply Herased; simpl; auto |].
  unfold cc'. rewrite Hkept; [reflexivity |].
  simpl. intros [H | [H | []]]; discriminate H.
Defined.

(** Present with [presentId] 5 on a swapchain whose [max_present_id] is 5. *)
Lemma present_id_monotonic_witness :
  let sd := example_swapchain false example_images 2 2 5 1 in
  let cc := example_device sd in
  let info := example_present [example_present_id 5] 0 in
  present_well_formed cc 7 info = true
  /\ exists skip log,
      PreCallValidateQueuePresentKHR example_collaborators cc 7 info
      = Some (skip, log)
      /\ In (present_id_record 0 1 5 5) log.
Proof.
  intros sd cc info. split; [reflexivity |].
  destruct (present_id_monotonic example_collaborators cc 7 info
              {| VkPresentIdKHR.swapchainCount := 1;
                 VkPresentIdKHR.pPresentIds := [5%Z] |}
              0%nat 1%Z sd 5%Z eq_refl (Nat.lt_0_succ 0) eq_refl eq_refl
              eq_refl) as (Hdef & Hprop).
  destruct (Hdef eq_refl) as [[skip log] E].
  exists skip, log. split; [exact E |].
  apply (Hprop skip log E); [discriminate | simpl; lia].
Defined.

Lemma present_id_zero_exempt_witness :
  let sd := example_swapchain false example_images 2 2 5 1 in
  let cc := example_device sd in
  let info := example_present [example_present_id 0] 0 in
  present_well_formed cc 7 info = true
  /\ exists skip log,
      PreCallValidateQueuePresentKHR example_collaborators cc 7 info
      = Some (skip, log)
      /\ reported (is_PresentIdNotIncreasing 0) log = false.
Proof.
  intros sd cc info. split; [reflexivity |].
  destruct (present_id_zero_exempt example_collaborators cc 7 info
              {| VkPresentIdKHR.swapchainCount := 1;
                 VkPresentIdKHR.pPresentIds := [0%Z] |}
              0%nat eq_refl (Nat.lt_0_succ 0) eq_refl) as (Hdef & Hprop).
  destruct (Hdef eq_refl) as [[skip log] E].
  exists skip, log. split; [exact E | exact (Hprop skip log E)].
Defined.

(** Presenting index 3 of a swapchain of three images, index 2, whose record
    has no image state, and index 0, one of whose layouts is not a present
    layout. *)
Lemma present_image_checks_witness :
  let sd := example_swapchain false example_images 2 2 5 1 in
  let cc := example_device sd in
  present_well_formed cc 7 (example_present [] 3) = true
  /\ (exists skip log,
        PreCallValidateQueuePresentKHR example_collaborators cc 7
          (example_present [] 3) = Some (skip, log)
        /\ In (present_index_record cc 0 1 3 3) log)
  /\ (exists skip log,
        PreCallValidateQueuePresentKHR example_collaborators cc 7
          (example_present [] 2) = Some (skip, log)
        /\ In (present_not_acquired_record cc 0 1 2) log)
  /\ (exists skip log,
        PreCallValidateQueuePresentKHR example_collaborators cc 7
          (example_present [] 0) = Some (skip, log)
        /\ In (present_layout_record cc 0 7 2) log).
Proof.
  intros sd cc. split; [reflexivity |]. split; [| split].
  - destruct (present_image_checks example_collaborators cc 7
                (example_present [] 3) 0%nat 1%Z sd 3%Z
                (Nat.lt_0_succ 0) eq_refl eq_refl eq_refl) as (Hdef & Hprop).
    destruct (Hdef eq_refl) as [[skip log] E].
    exists skip, log. split; [exact E |].
    destruct (Hprop skip log E) as (Hlarge & _). apply Hlarge. simpl. lia.
  - destruct (present_image_checks example_collaborators cc 7
                (example_present [] 2) 0%nat 1%Z sd 2%Z
                (Nat.lt_0_succ 0) eq_refl eq_refl eq_refl) as (Hdef & Hprop).
    destruct (Hdef eq_refl) as [[skip log] E].
    exists skip, log. split; [exact E |].
    destruct (Hprop skip log E) as (_ & Himg).
    apply (Himg {| image_state := None; acquired := false |});
      [simpl; lia | reflexivity | left; reflexivity].
  - destruct (present_image_checks example_collaborators cc 7
                (example_present [] 0) 0%nat 1%Z sd 0%Z
                (Nat.lt_0_succ 0) eq_refl eq_refl eq_refl) as (Hdef & Hprop).
    destruct (Hdef eq_refl) as [[skip log] E].
    exists skip, log. split; [exact E |].
    destruct (Hprop skip log E) as (_ & Himg).
    destruct (Himg (example_image 21 true)) as [_ Hlay];
      [simpl; lia | reflexivity |].
    eapply Hlay; try reflexivity.
    + simpl. right. left. reflexivity.
    + discriminate.
    + left. reflexivity.
Defined.

(** A rectangle 150 wide and 50 high at the origin of a swapchain 200 wide
    and 100 high.  Upright it lies inside the image and is not reported;
    under a 90 degree rotation its width is checked against the image
    height, and it is reported. *)
Lemma present_rectangle_bounds_witness :
  let rect := example_rect 0 0 150 50 in
  let info := example_present [example_present_regions [rect]] 0 in
  let run transform :=
    PreCallValidateQueuePresentKHR example_collaborators
      (example_device (example_wide_swapchain transform)) 7 info in
  present_well_formed
    (example_device
       (example_wide_swapchain VK_SURFACE_TRANSFORM_ROTATE_90_BIT_KHR)) 7 info
  = true
  /\ has_rotate_90_270 VK_SURFACE_TRANSFORM_ROTATE_90_BIT_KHR
  /\ ~ has_rotate_90_270 VK_SURFACE_TRANSFORM_IDENTITY_BIT_KHR
  /\ (exists skip log,
        run VK_SURFACE_TRANSFORM_ROTATE_90_BIT_KHR = Some (skip, log)
        /\ reported (is_RectOffset 0 0) log = true)
  /\ (exists skip log,
        run VK_SURFACE_TRANSFORM_IDENTITY_BIT_KHR = Some (skip, log)
        /\ reported (is_RectOffset 0 0) log = false).
Proof.
  intros rect info run.
  assert (Hrot : has_rotate_90_270 VK_SURFACE_TRANSFORM_ROTATE_90_BIT_KHR)
    by (left; discriminate).
  assert (Hup : ~ has_rotate_90_270 VK_SURFACE_TRANSFORM_IDENTITY_BIT_KHR)
    by (intros [H | [H | [H | H]]]; apply H; reflexivity).
  split; [reflexivity |]. split; [exact Hrot |]. split; [exact Hup |].
  assert (H : forall transform,
            present_well_formed
              (example_device (example_wide_swapchain transform)) 7 info
            = true ->
            exists skip log,
              run transform = Some (skip, log)
              /\ (has_rotate_90_270 transform ->
                  (reported (is_RectOffset 0 0) log = true <->
                   (200 < wrap32 (0 + 50))%Z \/ (100 < wrap32 (0 + 150))%Z))
              /\ (~ has_rotate_90_270 transform ->
                  (reported (is_RectOffset 0 0) log = true <->
                   (200 < wrap32 (0 + 150))%Z \/ (100 < wrap32 (0 + 50))%Z))).
  { intros transform Hwf.
    destruct (present_rectangle_bounds example_collaborators
                (example_device (example_wide_swapchain transform)) 7 info
                {| VkPresentRegionsKHR.swapchainCount := 1;
                   VkPresentRegionsKHR.pRegions :=
                     [ {| rectangleCount := 1; pRectangles := [rect] |} ] |}
                0%nat 0%nat 1%Z (example_wide_swapchain transform)
                {| rectangleCount := 1; pRectangles := [rect] |} rect
                eq_refl (Nat.lt_0_succ 0) eq_refl eq_refl eq_refl
                (Nat.lt_0_succ 0) eq_refl)
      as (_ & _ & Hdef & Hprop).
    destruct (Hdef Hwf) as [[skip log] E].
    exists skip, log. split; [exact E |].
    destruct (Hprop skip log E) as (Hr & Hu & _). split; assumption. }
  split.
  - destruct (H VK_SURFACE_TRANSFORM_ROTATE_90_BIT_KHR eq_refl)
      as (skip & log & E & Hr & _).
    exists skip, log. split; [exact E |].
    apply (Hr Hrot). right. reflexivity.
  - destruct (H VK_SURFACE_TRANSFORM_IDENTITY_BIT_KHR eq_refl)
      as (skip & log & E & _ & Hu).
    exists skip, log. split; [exact E |].
    destruct (reported (is_RectOffset 0 0) log); [| reflexivity].
    destruct (proj1 (Hu Hup) eq_refl) as [Hlt | Hlt]; discriminate Hlt.
Defined.

(** Two rectangles on an upright swapchain 100 wide.  The first starts at
    column 1 and is [UINT32_MAX] wide: the plain sum exceeds the width, and
    nothing is reported.  The second starts at column -5 and is 3 wide: the
    plain sums exceed nothing, and the error is reported.  A third rectangle
    on a swapchain 200 wide and 100 high under a 90 degree rotation starts
    at row 2147483647 and is 2147483799 high and 50 wide: after the exchange
    the plain sum of its column and width, 4294967446, exceeds the image
    width, yet the [uint32_t] sum is 150 and nothing is reported. *)
Lemma present_rectangle_plain_sum_fails :
  let sd := example_swapchain false example_images 2 2 5 1 in
  let cc := example_device sd in
  let wide := example_rect 1 0 4294967295 1 in
  let left_of := example_rect (-5) 0 3 1 in
  let info := example_present [example_present_regions [wide; left_of]] 0 in
  let log :=
    log_of (PreCallValidateQueuePresentKHR example_collaborators cc 7 info) in
  let ci := createInfo sd in
  let rotated :=
    example_wide_swapchain VK_SURFACE_TRANSFORM_ROTATE_90_BIT_KHR in
  let tall := example_rect 0 2147483647 50 2147483799 in
  let info_rotated := example_present [example_present_regions [tall]] 0 in
  let log_rotated :=
    log_of (PreCallValidateQueuePresentKHR example_collaborators
              (example_device rotated) 7 info_rotated) in
  present_well_formed cc 7 info = true
  /\ ~ has_rotate_90_270 (preTransform ci)
  /\ ~ (reported (is_RectOffset 0 0) log = true <->
        (width (imageExtent ci) < x (offset wide) + width (extent wide))%Z
        \/ (height (imageExtent ci)
            < y (offset wide) + height (extent wide))%Z)
  /\ ~ (reported (is_RectOffset 0 1) log = true <->
        (width (imageExtent ci)
         < x (offset left_of) + width (extent left_of))%Z
        \/ (height (imageExtent ci)
            < y (offset left_of) + height (extent left_of))%Z)
  /\ present_well_formed (example_device rotated) 7 info_rotated = true
  /\ has_rotate_90_270 (preTransform (createInfo rotated))
  /\ ~ (reported (is_RectOffset 0 0) log_rotated = true <->
        (width (imageExtent (createInfo rotated))
         < y (offset tall) + height (extent tall))%Z
        \/ (height (imageExtent (createInfo rotated))
            < x (offset tall) + width (extent tall))%Z).
Proof.
  intros sd cc wide left_of info log ci rotated tall info_rotated log_rotated.
  split; [reflexivity |]. split; [| split; [| split; [| split; [| split]]]].
  - intros [H | [H | [H | H]]]; apply H; reflexivity.
  - intros [_ H].
    assert (Hr : reported (is_RectOffset 0 0) log = true).
    { apply H. left. vm_compute. reflexivity. }
    vm_compute in Hr. discriminate Hr.
  - intros [H _].
    assert (Hr : reported (is_RectOffset 0 1) log = true)
      by (vm_compute; reflexivity).
    destruct (H Hr) as [Hx | Hy];
      [vm_compute in Hx; discriminate Hx | vm_compute in Hy; discriminate Hy].
  - reflexivity.
  - left. discriminate.
  - intros [_ H].
    assert (Hr : reported (is_RectOffset 0 0) log_rotated = true).
    { apply H. left. vm_compute. reflexivity. }
    vm_compute in Hr. discriminate Hr.
Qed.

(* ===================================================================== *)
(** * Further properties of [cmd_buffer_state.h] *)
(* ===================================================================== *)

(** ** Pipeline binding composes *)

Lemma set_pipeline_state_twice (p q : Z) (lb : LAST_BOUND_STATE) :
  set_pipeline_state p (set_pipeline_state q lb) = set_pipeline_state p lb.
Proof. reflexivity. Qed.

Lemma lastBound_rebind (i : fin BindPoint_Count) (p q : Z)
    (v : vec LAST_BOUND_STATE BindPoint_Count) :
  vinsert i
    (set_pipeline_state p (vinsert i (set_pipeline_state q (v !!! i)) v !!! i))
    (vinsert i (set_pipeline_state q (v !!! i)) v)
  = vinsert i (set_pipeline_state p (v !!! i)) v.
Proof.
  apply vec_eq. intros j. destruct (decide (i = j)) as [<- | Hne].
  - rewrite !vlookup_insert. apply set_pipeline_state_twice.
  - rewrite !vlookup_insert_ne by exact Hne. reflexivity.
Qed.

Lemma lastBound_bind_swap (i j : fin BindPoint_Count) (p q : Z)
    (v : vec LAST_BOUND_STATE BindPoint_Count) :
  i <> j ->
  vinsert i
    (set_pipeline_state p (vinsert j (set_pipeline_state q (v !!! j)) v !!! i))
    (vinsert j (set_pipeline_state q (v !!! j)) v)
  = vinsert j
      (set_pipeline_state q
         (vinsert i (set_pipeline_state p (v !!! i)) v !!! j))
      (vinsert i (set_pipeline_state p (v !!! i)) v).
Proof.
  intros Hne. apply vec_eq. intros k.
  destruct (decide (i = k)) as [<- | Hik].
  - rewrite vlookup_insert.
    rewrite (vlookup_insert_ne j i) by (intros E; apply Hne; symmetry; exact E).
    rewrite (vlookup_insert_ne j i) by (intros E; apply Hne; symmetry; exact E).
    rewrite vlookup_insert. reflexivity.
  - rewrite (vlookup_insert_ne i k) by exact Hik.
    destruct (decide (j = k)) as [<- | Hjk].
    + rewrite !vlookup_insert.
      rewrite (vlookup_insert_ne i j) by exact Hne. reflexivity.
    + rewrite !(vlookup_insert_ne j k) by exact Hjk.
      rewrite (vlookup_insert_ne i k) by exact Hik. reflexivity.
Qed.

(** X1.  Binding a pipeline at a bind point that already has one replaces
    it: the command buffer after [BindPipeline (bp, q)] followed by
    [BindPipeline (bp, p)] is the one after [BindPipeline (bp, p)] alone. *)
Theorem BindPipeline_rebind (cb : CMD_BUFFER_STATE) (bp : LvlBindPoint)
    (p q : Z) :
  BindPipeline bp p (BindPipeline bp q cb) = BindPipeline bp p cb.
Proof.
  unfold BindPipeline. cbn [lastBound]. rewrite lastBound_rebind. reflexivity.
Qed.

(** X2.  Bindings at two different bind points do not interfere: the two
    calls of [BindPipeline] give the same command buffer in either order. *)
Theorem BindPipeline_commute (cb : CMD_BUFFER_STATE) (bp1 bp2 : LvlBindPoint)
    (p1 p2 : Z) :
  bp1 <> bp2 ->
  BindPipeline bp1 p1 (BindPipeline bp2 p2 cb)
  = BindPipeline bp2 p2 (BindPipeline bp1 p1 cb).
Proof.
  intros Hne. unfold BindPipeline. cbn [lastBound].
  rewrite (lastBound_bind_swap (bind_point_index bp1) (bind_point_index bp2)).
  - reflexivity.
  - intros E. apply Hne, bind_point_index_inj, E.
Qed.

(** ** Release and acquire are exclusive across families *)

(** X3.  Whatever [IsTransferOp] decides, a barrier whose source and
    destination queue families differ is not both a release and an acquire
    for the same command buffer: the pool's family cannot equal both. *)
Theorem release_acquire_not_both (IsTransferOp : QueueFamilyIndices -> bool)
    (cb : CMD_BUFFER_STATE) (b : Barrier) (q : QueueFamilyIndices) :
  barrier_families b = Some q ->
  srcQueueFamilyIndex q <> dstQueueFamilyIndex q ->
  IsReleaseOp IsTransferOp cb b && IsAcquireOp IsTransferOp cb b = false.
Proof.
  intros Hq Hne.
  destruct (IsReleaseOp IsTransferOp cb b) eqn:Hr;
    destruct (IsAcquireOp IsTransferOp cb b) eqn:Ha; try reflexivity.
  exfalso. apply Hne.
  destruct b; simpl in Hq; try discriminate; injection Hq as ->;
    simpl in Hr, Ha;
    apply andb_true_iff in Hr as [_ Hr]; apply andb_true_iff in Ha as [_ Ha];
    apply Z.eqb_eq in Hr, Ha; congruence.
Qed.

(** ** The chain of a [VkEventCreateInfo] *)

(** X4.  [GetMetalExport] is true exactly when some
    [VkExportMetalObjectCreateInfoEXT] of the chain asks for the shared
    event, wherever it stands: export structures of another type before it
    do not end the search. *)
Theorem GetMetalExport_iff (info : VkEventCreateInfo) :
  GetMetalExport info = true <->
  In (EventPNext_VkExportMetalObjectCreateInfoEXT
        VK_EXPORT_METAL_OBJECT_TYPE_METAL_SHARED_EVENT_BIT_EXT)
     (event_pNext info).
Proof.
  unfold GetMetalExport. induction (event_pNext info) as [|s rest IH]; simpl.
  - split; [discriminate | intros []].
  - destruct s as [t | other].
    + destruct (t =? VK_EXPORT_METAL_OBJECT_TYPE_METAL_SHARED_EVENT_BIT_EXT)%Z
        eqn:Ht.
      * apply Z.eqb_eq in Ht as ->. split; auto.
      * rewrite IH. apply Z.eqb_neq in Ht. split; [auto |].
        intros [E | Hin]; [| exact Hin]. injection E as E. contradiction.
    + rewrite IH. split; [auto |]. intros [E | Hin]; [discriminate | exact Hin].
Qed.

(** ** Dynamic-rendering attachment indices *)

Lemma wrap32_id (z : Z) : (0 <= z < 4294967296)%Z -> wrap32 z = z.
Proof. intros H. unfold wrap32. apply Z.mod_small. exact H. Qed.

(** X5.  While twice the colour attachment count plus three fits
    [uint32_t], the six index functions lay the attachments out without
    collision: colour attachments first, their resolve attachments next,
    then depth, depth resolve, stencil and stencil resolve; every index is
    below [2 * count + 4] and two different attachments never share one. *)
Theorem DynamicAttachmentImageIndex_injective
    (render_pass_state : VkHandle -> RENDER_PASS_STATE)
    (cb : CMD_BUFFER_STATE) (a : DynamicAttachment) :
  let count := GetDynamicColorAttachmentCount render_pass_state cb in
  (0 <= count <= 2147483646)%Z ->
  DynamicAttachment_valid count a ->
  (0 <= DynamicAttachmentImageIndex render_pass_state cb a < 2 * count + 4)%Z
  /\ forall b,
       DynamicAttachment_valid count b ->
       DynamicAttachmentImageIndex render_pass_state cb a
       = DynamicAttachmentImageIndex render_pass_state cb b ->
       a = b.
Proof.
  intros count Hc Ha.
  assert (Hidx : forall c, DynamicAttachment_valid count c ->
            DynamicAttachmentImageIndex render_pass_state cb c
            = match c with
              | DynamicColor i => i
              | DynamicColorResolve i => (i + count)%Z
              | DynamicDepth => (2 * count)%Z
              | DynamicDepthResolve => (2 * count + 1)%Z
              | DynamicStencil => (2 * count + 2)%Z
              | DynamicStencilResolve => (2 * count + 3)%Z
              end).
  { intros c Hv.
    destruct c; simpl in Hv |- *;
      unfold GetDynamicColorAttachmentImageIndex,
        GetDynamicColorResolveAttachmentImageIndex,
        GetDynamicDepthAttachmentImageIndex,
        GetDynamicDepthResolveAttachmentImageIndex,
        GetDynamicStencilAttachmentImageIndex,
        GetDynamicStencilResolveAttachmentImageIndex;
      fold count; try reflexivity; apply wrap32_id; lia. }
  split.
  - rewrite (Hidx a Ha). destruct a; simpl in Ha; lia.
  - intros b Hb. rewrite (Hidx a Ha), (Hidx b Hb).
    destruct a, b; simpl in Ha, Hb; intros E; try (f_equal; lia);
      try reflexivity; exfalso; lia.
Qed.

(** ** Status flags *)

(** X6.  Every single-state enumerator of [CBStatusFlagBits] is one bit, the
    bits are pairwise different, and [CBSTATUS_ALL_STATE_SET] is the union
    of all of them except [CBSTATUS_INDEX_BUFFER_BOUND], the one it is
    documented to leave out. *)
Theorem CBSTATUS_ALL_STATE_SET_covers :
  CBStatusFlagBits_single = map (fun k => (2 ^ Z.of_nat k)%Z) (seq 0 36)
  /\ CBSTATUS_ALL_STATE_SET
     = fold_right Z.lor 0%Z
         (List.filter (fun f => negb (f =? CBSTATUS_INDEX_BUFFER_BOUND)%Z)
            CBStatusFlagBits_single)
  /\ forall f, In f CBStatusFlagBits_single ->
       (Z.land CBSTATUS_ALL_STATE_SET f =? 0)%Z
       = (f =? CBSTATUS_INDEX_BUFFER_BOUND)%Z.
Proof.
  split; [reflexivity |]. split; [reflexivity |].
  intros f Hin. unfold CBStatusFlagBits_single in Hin. simpl in Hin.
  repeat (destruct Hin as [<- | Hin]; [reflexivity |]). contradiction.
Qed.

(* ===================================================================== *)
(** * Further properties of [wsi_validation.cpp] *)
(* ===================================================================== *)

(** ** Extents and implied image create infos *)

Lemma IsExtentInsideBounds_iff (extent min max : VkExtent2D) :
  IsExtentInsideBounds extent min max = true <->
  (width min <= width extent <= width max)%Z
  /\ (height min <= height extent <= height max)%Z.
Proof.
  unfold IsExtentInsideBounds.
  destruct (width extent <? width min)%Z eqn:E1;
    destruct (width max <? width extent)%Z eqn:E2;
    destruct (height extent <? height min)%Z eqn:E3;
    destruct (height max <? height extent)%Z eqn:E4; simpl;
    rewrite ?Z.ltb_lt, ?Z.ltb_ge in *;
    (split; [try discriminate; intros _; lia | try reflexivity; lia]).
Qed.

(** X7.  [IsExtentInsideBounds] accepts an extent under looser bounds
    whenever it accepts it under tighter ones, and it accepts nothing when
    the minimum exceeds the maximum in either dimension. *)
Theorem IsExtentInsideBounds_monotone (extent min max min' max' : VkExtent2D) :
  (width min' <= width min)%Z -> (height min' <= height min)%Z ->
  (width max <= width max')%Z -> (height max <= height max')%Z ->
  (IsExtentInsideBounds extent min max = true ->
   IsExtentInsideBounds extent min' max' = true)
  /\ ((width max < width min)%Z \/ (height max < height min)%Z ->
      IsExtentInsideBounds extent min max = false).
Proof.
  intros H1 H2 H3 H4. split.
  - rewrite !IsExtentInsideBounds_iff. lia.
  - intros Hempty.
    destruct (IsExtentInsideBounds extent min max) eqn:E; [| reflexivity].
    apply IsExtentInsideBounds_iff in E. lia.
Qed.

(** X8.  The image create info implied by a swapchain create info carries
    the split-instance and protected flags of the swapchain over, turns the
    mutable-format flag into the mutable-format and extended-usage image
    flags together, and sets no other flag; it describes a
    single-sample, single-mip 2D image of depth 1 with the swapchain's
    format, extent, layer count, usage and sharing. *)
Theorem GetSwapchainImpliedImageCreateInfo_flags
    (pCreateInfo : VkSwapchainCreateInfoKHR)
    (queues : VkSwapchainCreateInfoKHR_queues) :
  let result := GetSwapchainImpliedImageCreateInfo pCreateInfo queues in
  let f := VkImageCreateInfo.flags result in
  has_flag f VK_IMAGE_CREATE_SPLIT_INSTANCE_BIND_REGIONS_BIT
  = has_flag (create_flags pCreateInfo)
      VK_SWAPCHAIN_CREATE_SPLIT_INSTANCE_BIND_REGIONS_BIT_KHR
  /\ has_flag f VK_IMAGE_CREATE_PROTECTED_BIT
     = has_flag (create_flags pCreateInfo) VK_SWAPCHAIN_CREATE_PROTECTED_BIT_KHR
  /\ has_flag f VK_IMAGE_CREATE_MUTABLE_FORMAT_BIT
     = has_flag (create_flags pCreateInfo)
         VK_SWAPCHAIN_CREATE_MUTABLE_FORMAT_BIT_KHR
  /\ has_flag f VK_IMAGE_CREATE_EXTENDED_USAGE_BIT
     = has_flag (create_flags pCreateInfo)
         VK_SWAPCHAIN_CREATE_MUTABLE_FORMAT_BIT_KHR
  /\ Z.land f
       (Z.lor
          (Z.lor VK_IMAGE_CREATE_SPLIT_INSTANCE_BIND_REGIONS_BIT
             VK_IMAGE_CREATE_PROTECTED_BIT)
          (Z.lor VK_IMAGE_CREATE_MUTABLE_FORMAT_BIT
             VK_IMAGE_CREATE_EXTENDED_USAGE_BIT)) = f
  /\ VkImageCreateInfo.extent result
     = {| width3 := width (imageExtent pCreateInfo);
          height3 := height (imageExtent pCreateInfo);
          depth3 := 1 |}
  /\ VkImageCreateInfo.arrayLayers result = imageArrayLayers pCreateInfo
  /\ VkImageCreateInfo.mipLevels result = 1%Z
  /\ VkImageCreateInfo.samples result = VK_SAMPLE_COUNT_1_BIT.
Proof.
  intros result f. subst f result. simpl.
  unfold implied_image_create_flags, has_flag.
  destruct (Z.land (create_flags pCreateInfo)
              VK_SWAPCHAIN_CREATE_SPLIT_INSTANCE_BIND_REGIONS_BIT_KHR =? 0)%Z;
    destruct (Z.land (create_flags pCreateInfo)
                VK_SWAPCHAIN_CREATE_PROTECTED_BIT_KHR =? 0)%Z;
    destruct (Z.land (create_flags pCreateInfo)
                VK_SWAPCHAIN_CREATE_MUTABLE_FORMAT_BIT_KHR =? 0)%Z;
    repeat split.
Qed.

(** ** Present: reading one check off the log *)

(** A loop over indices whose iteration [j] reports the class [P] exactly
    when [j] is [i] and [c] holds reports it exactly when [c] holds, once
    [i] is among the indices. *)
Lemma for_each_reported_at {S : Type} (l : list nat) (body : nat -> S -> W S)
    (s s' : S) (log : list LogRecord) (P : Message -> bool) (i : nat)
    (c : bool) :
  (forall j s0 s1 l0, In j l -> body j s0 = Some (s1, l0) ->
     reported P l0 = (j =? i)%nat && c) ->
  for_each l body s = Some (s', log) ->
  In i l ->
  reported P log = c.
Proof.
  intros Hbody H Hin. destruct c.
  - destruct (for_each_In_intro _ _ _ _ _ _ H Hin)
      as (s0 & s1 & l0 & Hb & Hsub).
    pose proof (Hbody i s0 s1 l0 Hin Hb) as Hrep.
    rewrite Nat.eqb_refl in Hrep. simpl in Hrep.
    apply reported_true in Hrep as (r & Hr & HP).
    apply reported_true. exists r. split; [apply Hsub, Hr | exact HP].
  - apply reported_false. intros r Hr.
    destruct (for_each_In_elim _ _ _ _ _ _ H Hr)
      as (j & s0 & s1 & l0 & Hj & Hb & Hr0).
    pose proof (Hbody j s0 s1 l0 Hj Hb) as Hrep.
    rewrite andb_false_r in Hrep.
    apply (proj1 (reported_false P l0) Hrep r Hr0).
Qed.

(** A loop none of whose iterations reports the class [P] does not report
    it. *)
Lemma for_each_not_reported {A S : Type} (l : list A) (body : A -> S -> W S)
    (s s' : S) (log : list LogRecord) (P : Message -> bool) :
  (forall a s0 s1 l0, In a l -> body a s0 = Some (s1, l0) ->
     reported P l0 = false) ->
  for_each l body s = Some (s', log) ->
  reported P log = false.
Proof.
  intros Hbody H. apply reported_false. intros r Hr.
  destruct (for_each_In_elim _ _ _ _ _ _ H Hr)
    as (a & s0 & s1 & l0 & Ha & Hb & Hr0).
  apply (proj1 (reported_false P l0) (Hbody a s0 s1 l0 Ha Hb) r Hr0).
Qed.

(** The five parts of the log of a completed present validation, with the
    computation that wrote each. *)
Lemma PreCallValidateQueuePresentKHR_blocks ext cc queue info skip log :
  PreCallValidateQueuePresentKHR ext cc queue info = Some (skip, log) ->
  exists qs flags s1 sems l1 s2 l2 s3 l3 s4 l4 l5,
    Get_QUEUE_STATE cc queue = Some qs
    /\ for_range (VkPresentInfoKHR.waitSemaphoreCount info)
         (present_wait_semaphore ext cc queue flags info) (false, [])
       = Some ((s1, sems), l1)
    /\ for_range (VkPresentInfoKHR.swapchainCount info)
         (present_swapchain ext cc queue qs info) s1 = Some (s2, l2)
    /\ present_regions_check ext cc info s2 = Some (s3, l3)
    /\ present_times_check ext info s3 = Some (s4, l4)
    /\ present_id_check ext cc info s4 = Some (skip, l5)
    /\ from_block Block_semaphores l1
    /\ from_block Block_images l2
    /\ from_block Block_regions l3
    /\ from_block Block_times l4
    /\ from_block Block_ids l5
    /\ (VkPresentInfoKHR.pNext info = [] -> l3 = [] /\ l4 = [] /\ l5 = [])
    /\ log = l1 ++ l2 ++ l3 ++ l4 ++ l5.
Proof.
  unfold PreCallValidateQueuePresentKHR. intros H.
  apply bind_Some in H as (qs & l0 & l & Hq & H & ->).
  apply bind_Some in H as (flags & l0' & l' & Hf & H & ->).
  apply bind_Some in H as ([s1 sems] & l1 & l'' & Hsem & H & ->).
  apply bind_Some in H as (s2 & l2 & l''' & Hsw & H & ->).
  assert (Hl0 : l0 = []) by (unfold deref, ret in Hq; w_inv; reflexivity).
  assert (Hl0' : l0' = []) by (unfold deref, ret in Hf; w_inv; reflexivity).
  assert (Hqs : Get_QUEUE_STATE cc queue = Some qs).
  { unfold deref, ret in Hq.
    destruct (Get_QUEUE_STATE cc queue); [| discriminate].
    injection Hq as -> _. reflexivity. }
  assert (B1 : from_block Block_semaphores l1).
  { eapply for_each_from_block; [| exact Hsem].
    intros a s0 s1' l0'' _ Hb.
    eapply present_wait_semaphore_block; exact Hb. }
  assert (B2 : from_block Block_images l2).
  { eapply for_each_from_block; [| exact Hsw].
    intros; eapply present_swapchain_block; eassumption. }
  subst l0 l0'. simpl.
  assert (Hparts : exists s3 l3 s4 l4 l5,
            present_regions_check ext cc info s2 = Some (s3, l3)
            /\ present_times_check ext info s3 = Some (s4, l4)
            /\ present_id_check ext cc info s4 = Some (skip, l5)
            /\ (VkPresentInfoKHR.pNext info = [] ->
                l3 = [] /\ l4 = [] /\ l5 = [])
            /\ l''' = l3 ++ l4 ++ l5).
  { destruct (VkPresentInfoKHR.pNext info) as [|p ps] eqn:Hp.
    - injection H as <- <-. exists s2, [], s2, [], [].
      unfold present_regions_check, present_times_check, present_id_check.
      rewrite Hp. simpl. repeat split; reflexivity.
    - apply bind_Some in H as (s3 & l3 & l4' & Hr & H & ->).
      apply bind_Some in H as (s4 & l4 & l5 & Ht & Hi & ->).
      exists s3, l3, s4, l4, l5. repeat split; auto; discriminate. }
  destruct Hparts as (s3 & l3 & s4 & l4 & l5 & Hr & Ht & Hi & Hnil & ->).
  exists qs, flags, s1, sems, l1, s2, l2, s3, l3, s4, l4, l5.
  repeat split; auto;
    try (apply Hnil; assumption).
  - eapply present_regions_check_block; eassumption.
  - eapply present_times_check_block; eassumption.
  - eapply present_id_check_block; eassumption.
Qed.

(** A class of messages that belongs to one block is reported by a present
    validation exactly when that block reports it. *)
Lemma reported_block_log (P : Message -> bool) (b : PresentBlock)
    (l1 l2 l3 l4 l5 : list LogRecord) :
  (forall m, P m = true -> present_block m = b) ->
  from_block Block_semaphores l1 -> from_block Block_images l2 ->
  from_block Block_regions l3 -> from_block Block_times l4 ->
  from_block Block_ids l5 ->
  reported P (l1 ++ l2 ++ l3 ++ l4 ++ l5)
  = reported P (block_log b l1 l2 l3 l4 l5).
Proof.
  intros HP B1 B2 B3 B4 B5. rewrite !reported_app.
  assert (Hother : forall b' l, b' <> b -> from_block b' l ->
                                reported P l = false).
  { intros b' l Hne Hl. apply (from_block_reported P b' l); [| exact Hl].
    intros m Hm E. apply Hne. rewrite <- E. apply HP, Hm. }
  destruct b; simpl;
    repeat match goal with
      | Hb : from_block ?b' ?l |- context [reported P ?l] =>
          rewrite (Hother b' l) by (discriminate || exact Hb)
      end;
    rewrite ?orb_false_r; reflexivity.
Qed.

(** ** Present regions: the array layer of a rectangle *)

Lemma transformed_rect_layer (t : Z) (rect : VkRectLayerKHR) :
  layer (transformed_rect t rect) = layer rect.
Proof.
  unfold transformed_rect.
  destruct (negb (Z.land t rotate_90_270_mask =? 0)%Z); reflexivity.
Qed.

Lemma present_rectangle_layer_reported ext sc sd region i' j' s0 s1 l0 rect
    i j :
  present_rectangle ext sc sd region i' j' s0 = Some (s1, l0) ->
  pRectangles region !! j' = Some rect ->
  reported (is_RectLayer i j) l0
  = (i' =? i)%nat && (j' =? j)%nat
    && (imageArrayLayers (createInfo sd) <? layer rect)%Z.
Proof.
  unfold present_rectangle. intros H Hrect.
  rewrite Hrect in H. cbn [deref] in H. rewrite bind_ret_l in H.
  apply bind_Some in H as (s2 & l2 & l' & H2 & H & ->).
  apply bind_Some in H as (s3 & l3 & l4 & H3 & H4 & ->).
  rewrite !reported_app.
  assert (R2 : reported (is_RectLayer i j) l2 = false).
  { clear H3 H4. w_inv; reflexivity. }
  assert (R3 : reported (is_RectLayer i j) l3 = false).
  { clear H2 H4. w_inv; reflexivity. }
  rewrite R2, R3. simpl. rewrite transformed_rect_layer in H4.
  destruct (imageArrayLayers (createInfo sd) <? layer rect)%Z;
    clear H2 H3; w_inv; simpl;
    destruct ((i' =? i)%nat && (j' =? j)%nat); reflexivity.
Qed.

Lemma present_region_layer_reported ext cc info regs i' s0 s1 l0 i j sc sd
    region rect :
  present_region ext cc info regs i' s0 = Some (s1, l0) ->
  VkPresentInfoKHR.pSwapchains info !! i = Some sc ->
  Get_SWAPCHAIN_NODE cc sc = Some sd ->
  VkPresentRegionsKHR.pRegions regs !! i = Some region ->
  (j < rectangleCount region)%nat ->
  pRectangles region !! j = Some rect ->
  reported (is_RectLayer i j) l0
  = (i' =? i)%nat && (imageArrayLayers (createInfo sd) <? layer rect)%Z.
Proof.
  unfold present_region, for_range. intros H Hsc Hsd Hreg Hj Hrect.
  apply bind_Some in H as (sc' & l1 & l' & Hsc' & H & ->).
  apply bind_Some in H as (sd' & l2 & l'' & Hsd' & H & ->).
  apply bind_Some in H as (region' & l3 & l4 & Hreg' & Hloop & ->).
  unfold deref, ret in Hsc', Hsd', Hreg'.
  destruct (VkPresentInfoKHR.pSwapchains info !! i') as [sc0|] eqn:Esc;
    [| discriminate].
  destruct (Get_SWAPCHAIN_NODE cc sc') as [sd0|] eqn:Esd; [| discriminate].
  destruct (VkPresentRegionsKHR.pRegions regs !! i') as [region0|] eqn:Ereg;
    [| discriminate].
  injection Hsc' as -> <-. injection Hsd' as -> <-. injection Hreg' as -> <-.
  simpl.
  assert (Hrects : forall j' s2 s3 l5,
            present_rectangle ext sc' sd' region' i' j' s2 = Some (s3, l5) ->
            exists rect', pRectangles region' !! j' = Some rect').
  { intros j' s2 s3 l5 Hb. unfold present_rectangle in Hb.
    destruct (pRectangles region' !! j') as [rect'|]; [eauto | discriminate]. }
  destruct (Nat.eqb_spec i' i) as [-> | Hne].
  - rewrite Hsc in Esc. injection Esc as <-.
    rewrite Hsd in Esd. injection Esd as <-.
    rewrite Hreg in Ereg. injection Ereg as <-.
    simpl.
    apply (for_each_reported_at _ _ _ _ _ _ j _) with (2 := Hloop);
      [| apply in_seq; lia].
    intros j' s2 s3 l5 _ Hb.
    destruct (Hrects _ _ _ _ Hb) as [rect' Hrect'].
    rewrite (present_rectangle_layer_reported _ _ _ _ _ _ _ _ _ _ i j Hb Hrect').
    rewrite Nat.eqb_refl. simpl.
    destruct (Nat.eqb_spec j' j) as [-> | Hnj]; [| reflexivity].
    rewrite Hrect in Hrect'. injection Hrect' as <-. reflexivity.
  - simpl. eapply for_each_not_reported; [| exact Hloop].
    intros j' s2 s3 l5 _ Hb.
    destruct (Hrects _ _ _ _ Hb) as [rect' Hrect'].
    rewrite (present_rectangle_layer_reported _ _ _ _ _ _ _ _ _ _ i j Hb Hrect').
    apply Nat.eqb_neq in Hne. rewrite Hne. reflexivity.
Qed.

(** X9.  The array-layer error of a present-region rectangle is reported
    exactly when the rectangle's [layer] is greater than the swapchain's
    [imageArrayLayers]: a layer equal to [imageArrayLayers] is accepted, and
    the pre-transform plays no part.  A well-formed call is validated to
    completion. *)
Theorem present_rectangle_layer ext cc queue info regs i j sc sd region rect :
  LvlFindInChain as_VkPresentRegionsKHR (VkPresentInfoKHR.pNext info)
  = Some regs ->
  (i < VkPresentRegionsKHR.swapchainCount regs)%nat ->
  VkPresentInfoKHR.pSwapchains info !! i = Some sc ->
  Get_SWAPCHAIN_NODE cc sc = Some sd ->
  VkPresentRegionsKHR.pRegions regs !! i = Some region ->
  (j < rectangleCount region)%nat ->
  pRectangles region !! j = Some rect ->
  (present_well_formed cc queue info = true ->
   is_Some (PreCallValidateQueuePresentKHR ext cc queue info))
  /\ forall skip log,
      PreCallValidateQueuePresentKHR ext cc queue info = Some (skip, log) ->
      (reported (is_RectLayer i j) log = true <->
       (imageArrayLayers (createInfo sd) < layer rect)%Z).
Proof.
  intros Hfind Hi Hsc Hsd Hreg Hj Hrect.
  split; [apply PreCallValidateQueuePresentKHR_defined |].
  intros skip log Hrun.
  destruct (PreCallValidateQueuePresentKHR_blocks _ _ _ _ _ _ Hrun)
    as (qs & flags & s1 & sems & l1 & s2 & l2 & s3 & l3 & s4 & l4 & l5
        & _ & _ & _ & Hcheck & _ & _ & B1 & B2 & B3 & B4 & B5 & _ & ->).
  rewrite (reported_block_log (is_RectLayer i j) Block_regions)
    by (auto; intros []; simpl; congruence).
  simpl. unfold present_regions_check, for_range in Hcheck.
  rewrite Hfind in Hcheck.
  assert (Hrep : reported (is_RectLayer i j) l3
                 = (imageArrayLayers (createInfo sd) <? layer rect)%Z).
  { apply (for_each_reported_at _ _ _ _ _ _ i _) with (2 := Hcheck);
      [| apply in_seq; lia].
    intros i' s0 s1' l0 _ Hb.
    eapply present_region_layer_reported; eassumption. }
  rewrite Hrep. apply Z.ltb_lt.
Qed.

(** ** Presented images: one entry of [pSwapchains] *)

Lemma reported_sub (P Q : Message -> bool) (l : list LogRecord) :
  (forall m, P m = true -> Q m = true) ->
  reported Q l = false -> reported P l = false.
Proof.
  intros HPQ HQ. apply reported_false. intros r Hin.
  destruct (P (log_message r)) eqn:E; [| reflexivity].
  apply HPQ in E. rewrite (proj1 (reported_false Q l) HQ r Hin) in E.
  discriminate E.
Qed.

Lemma present_layout_entry ext cc queue j l s0 s1 l0 i :
  j <> i ->
  present_layout ext cc queue j l s0 = Some (s1, l0) ->
  reported (is_present_entry i) l0 = false.
Proof.
  unfold present_layout. intros Hne H. apply Nat.eqb_neq in Hne.
  w_inv; simpl; rewrite ?Hne; reflexivity.
Qed.

Lemma present_display_info_entry ext queue info ist s0 s1 l0 i :
  present_display_info ext queue info ist s0 = Some (s1, l0) ->
  reported (is_present_entry i) l0 = false.
Proof. unfold present_display_info. intros H. w_inv; reflexivity. Qed.

Lemma present_layouts_entry ext cc queue j layouts s0 s1 l0 i :
  j <> i ->
  for_each layouts (present_layout ext cc queue j) s0 = Some (s1, l0) ->
  reported (is_present_entry i) l0 = false.
Proof.
  intros Hne H. apply (for_each_not_reported _ _ _ _ _ _) with (2 := H).
  intros l s2 s3 l1 _ Hb. eapply present_layout_entry; eassumption.
Qed.

(** The records of iteration [j] of the swapchain loop name entry [j]. *)
Lemma present_swapchain_entry_other ext cc queue qs info j s0 s1 l0 i :
  j <> i ->
  present_swapchain ext cc queue qs info j s0 = Some (s1, l0) ->
  reported (is_present_entry i) l0 = false.
Proof.
  unfold present_swapchain. intros Hne H.
  pose proof Hne as Hneb. apply Nat.eqb_neq in Hneb.
  w_inv; rewrite ?reported_app; simpl; rewrite ?Hneb; simpl;
    repeat match goal with
      | Hl : for_each _ (present_layout _ _ _ _) _ = Some (_, ?l)
        |- context [reported _ ?l] =>
          rewrite (present_layouts_entry _ _ _ _ _ _ _ _ i Hne Hl)
      | Hd : present_display_info _ _ _ _ _ = Some (_, ?l)
        |- context [reported _ ?l] =>
          rewrite (present_display_info_entry _ _ _ _ _ _ _ i Hd)
      end;
    reflexivity.
Qed.

(** X10.  An entry of [pSwapchains] whose handle is not registered is
    skipped by the image checks: no index, acquisition, layout or
    queue-support error naming that entry is reported.  A well-formed call is
    validated to completion. *)
Theorem present_unregistered_swapchain_skipped ext cc queue info i sc :
  VkPresentInfoKHR.pSwapchains info !! i = Some sc ->
  Get_SWAPCHAIN_NODE cc sc = None ->
  (present_well_formed cc queue info = true ->
   is_Some (PreCallValidateQueuePresentKHR ext cc queue info))
  /\ forall skip log,
      PreCallValidateQueuePresentKHR ext cc queue info = Some (skip, log) ->
      reported (is_present_entry i) log = false.
Proof.
  intros Hsc Hnone.
  split; [apply PreCallValidateQueuePresentKHR_defined |].
  intros skip log Hrun.
  destruct (PreCallValidateQueuePresentKHR_blocks _ _ _ _ _ _ Hrun)
    as (qs & flags & s1 & sems & l1 & s2 & l2 & s3 & l3 & s4 & l4 & l5
        & _ & _ & Hsw & _ & _ & _ & B1 & B2 & B3 & B4 & B5 & _ & ->).
  rewrite (reported_block_log (is_present_entry i) Block_images)
    by (auto; intros []; simpl; congruence).
  simpl. unfold for_range in Hsw.
  apply (for_each_not_reported _ _ _ _ _ _) with (2 := Hsw).
  intros j s0 s1' l0 _ Hb.
  destruct (Nat.eq_dec j i) as [-> | Hne].
  - unfold present_swapchain in Hb. rewrite Hsc in Hb. cbn [deref] in Hb.
    rewrite bind_ret_l, Hnone in Hb. injection Hb as _ <-. reflexivity.
  - eapply present_swapchain_entry_other; eassumption.
Qed.

Lemma present_layouts_class ext cc queue j layouts s0 s1 l0
    (P : Message -> bool) :
  (forall k l, P (Msg_ImageLayout k l) = false) ->
  for_each layouts (present_layout ext cc queue j) s0 = Some (s1, l0) ->
  reported P l0 = false.
Proof.
  intros HP H. apply (for_each_not_reported _ _ _ _ _ _) with (2 := H).
  intros l s2 s3 l1 _ Hb. unfold present_layout in Hb.
  w_inv; simpl; rewrite ?HP; reflexivity.
Qed.

Lemma present_display_info_class ext queue info ist s0 s1 l0
    (P : Message -> bool) :
  (forall r e, P (Msg_DisplaySrcRect r e) = false) ->
  present_display_info ext queue info ist s0 = Some (s1, l0) ->
  reported P l0 = false.
Proof.
  unfold present_display_info. intros HP H.
  w_inv; simpl; rewrite ?HP; reflexivity.
Qed.

(** What iteration [i] of the swapchain loop reports about the queue. *)
Lemma present_swapchain_queue_reported ext cc queue qs info i s0 s1 l0 sc sd :
  present_swapchain ext cc queue qs info i s0 = Some (s1, l0) ->
  VkPresentInfoKHR.pSwapchains info !! i = Some sc ->
  Get_SWAPCHAIN_NODE cc sc = Some sd ->
  reported (is_QueueCannotPresent i) l0
  = negb (vk_khr_android_surface (tracker cc))
    && match Get_SURFACE_STATE cc (surface (createInfo sd)) with
       | Some s => negb (GetQueueSupport s (queue_family qs))
       | None => false
       end.
Proof.
  unfold present_swapchain. intros H Hsc Hsd.
  rewrite Hsc in H. cbn [deref] in H. rewrite bind_ret_l, Hsd in H.
  w_inv; rewrite ?reported_app; simpl; rewrite ?Nat.eqb_refl;
    repeat match goal with
      | Hl : for_each _ (present_layout _ _ _ _) _ = Some (_, ?l)
        |- context [reported _ ?l] =>
          rewrite (present_layouts_class _ _ _ _ _ _ _ _
                     (is_QueueCannotPresent i) (fun _ _ => eq_refl) Hl)
      | Hd : present_display_info _ _ _ _ _ = Some (_, ?l)
        |- context [reported _ ?l] =>
          rewrite (present_display_info_class _ _ _ _ _ _ _
                     (is_QueueCannotPresent i) (fun _ _ => eq_refl) Hd)
      end;
    repeat match goal with
      | E : negb _ = _ |- _ => rewrite E
      | E : Get_SURFACE_STATE _ _ = _ |- _ => rewrite E
      end;
    reflexivity.
Qed.

(** X11.  For an entry of a present call whose swapchain is registered, the
    error that the queue cannot present to the swapchain's surface is
    reported exactly when the Android surface extension is not enabled and
    the surface denies support for the queue's family; the validity of the
    image index has no bearing on it.  A well-formed call is validated to
    completion. *)
Theorem present_queue_support ext cc queue info i sc sd qs :
  (i < VkPresentInfoKHR.swapchainCount info)%nat ->
  VkPresentInfoKHR.pSwapchains info !! i = Some sc ->
  Get_SWAPCHAIN_NODE cc sc = Some sd ->
  Get_QUEUE_STATE cc queue = Some qs ->
  (present_well_formed cc queue info = true ->
   is_Some (PreCallValidateQueuePresentKHR ext cc queue info))
  /\ forall skip log,
      PreCallValidateQueuePresentKHR ext cc queue info = Some (skip, log) ->
      (reported (is_QueueCannotPresent i) log = true <->
       vk_khr_android_surface (tracker cc) = false
       /\ exists s,
            Get_SURFACE_STATE cc (surface (createInfo sd)) = Some s
            /\ GetQueueSupport s (queue_family qs) = false).
Proof.
  intros Hi Hsc Hsd Hqs.
  split; [apply PreCallValidateQueuePresentKHR_defined |].
  intros skip log Hrun.
  destruct (PreCallValidateQueuePresentKHR_blocks _ _ _ _ _ _ Hrun)
    as (qs' & flags & s1 & sems & l1 & s2 & l2 & s3 & l3 & s4 & l4 & l5
        & Hqs' & _ & Hsw & _ & _ & _ & B1 & B2 & B3 & B4 & B5 & _ & ->).
  rewrite Hqs in Hqs'. injection Hqs' as <-.
  rewrite (reported_block_log (is_QueueCannotPresent i) Block_images)
    by (auto; intros []; simpl; congruence).
  simpl. unfold for_range in Hsw.
  assert (Hrep : reported (is_QueueCannotPresent i) l2
                 = negb (vk_khr_android_surface (tracker cc))
                   && match Get_SURFACE_STATE cc (surface (createInfo sd)) with
                      | Some s => negb (GetQueueSupport s (queue_family qs))
                      | None => false
                      end).
  { apply (for_each_reported_at _ _ _ _ _ _ i _) with (2 := Hsw);
      [| apply in_seq; lia].
    intros j s0 s1' l0 _ Hb.
    destruct (Nat.eqb_spec j i) as [-> | Hne].
    - simpl. eapply present_swapchain_queue_reported; eassumption.
    - simpl. apply (reported_sub _ (is_present_entry i)).
      + intros []; simpl; congruence.
      + eapply present_swapchain_entry_other; eassumption. }
  rewrite Hrep, andb_true_iff, negb_true_iff.
  destruct (Get_SURFACE_STATE cc (surface (createInfo sd))) as [s|].
  - rewrite negb_true_iff. split.
    + intros [Ha Hs]. eauto.
    + intros (Ha & s' & E & Hs). injection E as <-. auto.
  - split; [intros [_ H]; discriminate H |].
    intros (_ & s' & E & _). discriminate E.
Qed.

(** ** Present identifiers without the feature *)

Lemma present_id_feature_reported ext info ids j s0 s1 l0 i id :
  present_id_feature ext info ids j s0 = Some (s1, l0) ->
  VkPresentIdKHR.pPresentIds ids !! i = Some id ->
  reported (is_PresentIdFeature i) l0 = (j =? i)%nat && negb (id =? 0)%Z.
Proof.
  unfold present_id_feature. intros H Hid.
  destruct (Nat.eqb_spec j i) as [-> | Hne].
  - rewrite Hid in H. cbn [deref] in H. rewrite bind_ret_l in H.
    destruct (negb (id =? 0)%Z); w_inv; simpl; rewrite ?Nat.eqb_refl;
      reflexivity.
  - apply Nat.eqb_neq in Hne. w_inv; simpl; rewrite ?Hne; reflexivity.
Qed.

Lemma present_id_increasing_class ext cc info ids j s0 s1 l0
    (P : Message -> bool) :
  (forall k id m, P (Msg_PresentIdNotIncreasing k id m) = false) ->
  present_id_increasing ext cc info ids j s0 = Some (s1, l0) ->
  reported P l0 = false.
Proof.
  unfold present_id_increasing. intros HP H.
  w_inv; simpl; rewrite ?HP; reflexivity.
Qed.

Lemma present_id_feature_class ext info ids j s0 s1 l0 (P : Message -> bool) :
  (forall k id, P (Msg_PresentIdFeature k id) = false) ->
  present_id_feature ext info ids j s0 = Some (s1, l0) ->
  reported P l0 = false.
Proof.
  unfold present_id_feature. intros HP H.
  w_inv; simpl; rewrite ?HP; reflexivity.
Qed.

(** X12.  While the [presentId] feature is not enabled, every non-zero
    present id of a [VkPresentIdKHR] structure is reported; a zero id is
    not, and with the feature enabled none is.  A well-formed call is
    validated to completion. *)
Theorem present_id_needs_feature ext cc queue info ids i id :
  LvlFindInChain as_VkPresentIdKHR (VkPresentInfoKHR.pNext info) = Some ids ->
  (i < VkPresentIdKHR.swapchainCount ids)%nat ->
  VkPresentIdKHR.pPresentIds ids !! i = Some id ->
  (present_well_formed cc queue info = true ->
   is_Some (PreCallValidateQueuePresentKHR ext cc queue info))
  /\ forall skip log,
      PreCallValidateQueuePresentKHR ext cc queue info = Some (skip, log) ->
      (reported (is_PresentIdFeature i) log = true <->
       presentId (tracker cc) = false /\ id <> 0%Z).
Proof.
  intros Hfind Hi Hid.
  split; [apply PreCallValidateQueuePresentKHR_defined |].
  intros skip log Hrun.
  destruct (PreCallValidateQueuePresentKHR_blocks _ _ _ _ _ _ Hrun)
    as (qs & flags & s1 & sems & l1 & s2 & l2 & s3 & l3 & s4 & l4 & l5
        & _ & _ & _ & _ & _ & Hcheck & B1 & B2 & B3 & B4 & B5 & _ & ->).
  rewrite (reported_block_log (is_PresentIdFeature i) Block_ids)
    by (auto; intros []; simpl; congruence).
  simpl. unfold present_id_check, for_range in Hcheck.
  rewrite Hfind in Hcheck.
  apply bind_Some in Hcheck as (s5 & l6 & l' & H1 & H & ->).
  apply bind_Some in H as (s6 & l7 & l8 & H2 & H3 & ->).
  rewrite !reported_app.
  assert (R7 : reported (is_PresentIdFeature i) l7 = false).
  { clear H1 H3. w_inv; reflexivity. }
  assert (R8 : reported (is_PresentIdFeature i) l8 = false).
  { apply (for_each_not_reported _ _ _ _ _ _) with (2 := H3).
    intros j s0 s1' l0 _ Hb.
    eapply present_id_increasing_class; [| exact Hb]. reflexivity. }
  rewrite R7, R8, !orb_false_r.
  destruct (presentId (tracker cc)); simpl in H1.
  - injection H1 as _ <-. simpl. split; [discriminate | intros [H _]].
    discriminate H.
  - rewrite (for_each_reported_at _ _ _ _ _ (is_PresentIdFeature i) i
               (negb (id =? 0)%Z)) with (2 := H1).
    + rewrite negb_true_iff, Z.eqb_neq. tauto.
    + intros j s0 s1' l0 _ Hb.
      eapply present_id_feature_reported; eassumption.
    + apply in_seq. lia.
Qed.

(** ** Present: element counts of the extension structures *)

(** X13.  The count-mismatch error of [VkPresentIdKHR] is reported exactly
    when the chain holds such a structure whose [swapchainCount] differs
    from that of the present info, and likewise for
    [VkPresentTimesInfoGOOGLE]; a chain without the structure reports
    neither. *)
Theorem present_extension_counts ext cc queue info skip log :
  PreCallValidateQueuePresentKHR ext cc queue info = Some (skip, log) ->
  (reported is_PresentIdCount log = true <->
   exists ids,
     LvlFindInChain as_VkPresentIdKHR (VkPresentInfoKHR.pNext info) = Some ids
     /\ VkPresentInfoKHR.swapchainCount info
        <> VkPresentIdKHR.swapchainCount ids)
  /\ (reported is_PresentTimesCount log = true <->
      exists times,
        LvlFindInChain as_VkPresentTimesInfoGOOGLE
          (VkPresentInfoKHR.pNext info) = Some times
        /\ VkPresentInfoKHR.swapchainCount info
           <> VkPresentTimesInfoGOOGLE.swapchainCount times).
Proof.
  intros Hrun.
  destruct (PreCallValidateQueuePresentKHR_blocks _ _ _ _ _ _ Hrun)
    as (qs & flags & s1 & sems & l1 & s2 & l2 & s3 & l3 & s4 & l4 & l5
        & _ & _ & _ & _ & Htimes & Hcheck & B1 & B2 & B3 & B4 & B5 & _ & ->).
  split.
  - rewrite (reported_block_log is_PresentIdCount Block_ids)
      by (auto; intros []; simpl; congruence).
    simpl. unfold present_id_check, for_range in Hcheck.
    destruct (LvlFindInChain as_VkPresentIdKHR (VkPresentInfoKHR.pNext info))
      as [ids|].
    + apply bind_Some in Hcheck as (s5 & l6 & l' & H1 & H & ->).
      apply bind_Some in H as (s6 & l7 & l8 & H2 & H3 & ->).
      rewrite !reported_app.
      assert (R6 : reported is_PresentIdCount l6 = false).
      { destruct (negb (presentId (tracker cc)));
          [| injection H1 as _ <-; reflexivity].
        apply (for_each_not_reported _ _ _ _ _ _) with (2 := H1).
        intros j s0 s1' l0 _ Hb.
        eapply present_id_feature_class; [| exact Hb]. reflexivity. }
      assert (R8 : reported is_PresentIdCount l8 = false).
      { apply (for_each_not_reported _ _ _ _ _ _) with (2 := H3).
        intros j s0 s1' l0 _ Hb.
        eapply present_id_increasing_class; [| exact Hb]. reflexivity. }
      rewrite R6, R8, orb_false_r. simpl.
      destruct (Nat.eqb_spec (VkPresentInfoKHR.swapchainCount info)
                  (VkPresentIdKHR.swapchainCount ids)) as [E | E];
        simpl in H2; clear H1 H3; w_inv; simpl.
      * split; [discriminate | intros (ids' & E' & Hne)].
        injection E' as <-. contradiction.
      * split; [eauto | reflexivity].
    + injection Hcheck as _ <-. simpl.
      split; [discriminate | intros (ids & E & _); discriminate E].
  - rewrite (reported_block_log is_PresentTimesCount Block_times)
      by (auto; intros []; simpl; congruence).
    simpl. unfold present_times_check in Htimes.
    destruct (LvlFindInChain as_VkPresentTimesInfoGOOGLE
                (VkPresentInfoKHR.pNext info)) as [times|].
    + destruct (Nat.eqb_spec (VkPresentInfoKHR.swapchainCount info)
                  (VkPresentTimesInfoGOOGLE.swapchainCount times)) as [E | E];
        simpl in Htimes; w_inv; simpl.
      * split; [discriminate | intros (t' & E' & Hne)].
        injection E' as <-. contradiction.
      * split; [eauto | reflexivity].
    + injection Htimes as _ <-. simpl.
      split; [discriminate | intros (t & E & _); discriminate E].
Qed.

(** ** Present: the type of the wait semaphores *)

Lemma present_wait_semaphore_reported ext cc queue flags info j st st' l0 i
    sem :
  present_wait_semaphore ext cc queue flags info j st = Some (st', l0) ->
  VkPresentInfoKHR.pWaitSemaphores info !! i = Some sem ->
  reported (is_WaitSemaphoreNotBinary i) l0
  = (j =? i)%nat
    && match Get_SEMAPHORE_STATE cc sem with
       | Some s => negb (semaphore_type s =? VK_SEMAPHORE_TYPE_BINARY)%Z
       | None => false
       end.
Proof.
  unfold present_wait_semaphore. destruct st as [skip sems]. intros H Hsem.
  assert (Hcol : forall origin c b l,
            collaborator origin c = Some (b, l) ->
            reported (is_WaitSemaphoreNotBinary i) l = false).
  { intros origin c b l Hc.
    apply (collaborator_reported _ origin c b l); [reflexivity | exact Hc]. }
  destruct (Nat.eqb_spec j i) as [-> | Hne].
  - rewrite Hsem in H. cbn [deref] in H. rewrite bind_ret_l in H.
    destruct (Get_SEMAPHORE_STATE cc sem) as [s|];
      [destruct (negb (semaphore_type s =? VK_SEMAPHORE_TYPE_BINARY)%Z) |];
      w_inv; rewrite ?reported_app; simpl; rewrite ?Nat.eqb_refl;
      try reflexivity;
      match goal with
      | Hc : collaborator _ _ = Some (_, ?l) |- _ => rewrite (Hcol _ _ _ _ Hc)
      end; reflexivity.
  - apply Nat.eqb_neq in Hne.
    w_inv; rewrite ?reported_app; simpl; rewrite ?Hne; try reflexivity;
      match goal with
      | Hc : collaborator _ _ = Some (_, ?l) |- _ => rewrite (Hcol _ _ _ _ Hc)
      end; reflexivity.
Qed.

(** X14.  Entry [i] of the wait semaphores of a present call is reported as
    not binary exactly when the semaphore is registered and its type is not
    [VK_SEMAPHORE_TYPE_BINARY]; an unregistered semaphore is not reported.
    A well-formed call is validated to completion. *)
Theorem present_wait_semaphore_type ext cc queue info i sem :
  (i < VkPresentInfoKHR.waitSemaphoreCount info)%nat ->
  VkPresentInfoKHR.pWaitSemaphores info !! i = Some sem ->
  (present_well_formed cc queue info = true ->
   is_Some (PreCallValidateQueuePresentKHR ext cc queue info))
  /\ forall skip log,
      PreCallValidateQueuePresentKHR ext cc queue info = Some (skip, log) ->
      (reported (is_WaitSemaphoreNotBinary i) log = true <->
       exists s,
         Get_SEMAPHORE_STATE cc sem = Some s
         /\ semaphore_type s <> VK_SEMAPHORE_TYPE_BINARY).
Proof.
  intros Hi Hsem.
  split; [apply PreCallValidateQueuePresentKHR_defined |].
  intros skip log Hrun.
  destruct (PreCallValidateQueuePresentKHR_blocks _ _ _ _ _ _ Hrun)
    as (qs & flags & s1 & sems & l1 & s2 & l2 & s3 & l3 & s4 & l4 & l5
        & _ & Hloop & _ & _ & _ & _ & B1 & B2 & B3 & B4 & B5 & _ & ->).
  rewrite (reported_block_log (is_WaitSemaphoreNotBinary i) Block_semaphores)
    by (auto; intros []; simpl; congruence).
  simpl. unfold for_range in Hloop.
  rewrite (for_each_reported_at _ _ _ _ _ (is_WaitSemaphoreNotBinary i) i
             (match Get_SEMAPHORE_STATE cc sem with
              | Some s => negb (semaphore_type s =? VK_SEMAPHORE_TYPE_BINARY)%Z
              | None => false
              end)) with (2 := Hloop).
  - destruct (Get_SEMAPHORE_STATE cc sem) as [s|].
    + rewrite negb_true_iff, Z.eqb_neq. split.
      * intros Hne. eauto.
      * intros (s' & E & Hne). injection E as <-. exact Hne.
    + split; [discriminate | intros (s & E & _); discriminate E].
  - intros j st st' l0 _ Hb.
    eapply present_wait_semaphore_reported; eassumption.
  - apply in_seq. lia.
Qed.

(** ** Acquire: everything the validation reports *)

Lemma acquire_semaphore_check_reports ext cc version semaphore fn vuid skip :
  exists s l,
    acquire_semaphore_check ext cc version semaphore fn vuid skip = Some (s, l)
    /\ reported is_SemaphoreNotBinary l
       = acquire_semaphore_not_binary cc semaphore
    /\ reported is_SemaphoreSignaled l = acquire_semaphore_signaled cc semaphore
    /\ reported is_TooManyAcquired l = false
    /\ reported is_AcquireRetired l = false.
Proof.
  unfold acquire_semaphore_check, acquire_semaphore_not_binary,
    acquire_semaphore_signaled, skip_or, LogError, ret, bind.
  destruct (Get_SEMAPHORE_STATE cc semaphore) as [s|];
    [| eexists _, _; repeat split].
  destruct (semaphore_type s =? VK_SEMAPHORE_TYPE_BINARY)%Z; simpl;
    [| eexists _, _; repeat split].
  destruct (Scope s); simpl;
    try (destruct (CanBeSignaled s); simpl); eexists _, _; repeat split.
Qed.

Lemma acquire_fence_check_reports ext cc fence skip (P : Message -> bool) :
  (forall o t, P (Msg_Collaborator o t) = false) ->
  exists s l,
    acquire_fence_check ext cc fence skip = Some (s, l)
    /\ reported P l = false.
Proof.
  intros HP. unfold acquire_fence_check.
  destruct (Get_FENCE_STATE cc fence) as [fs|].
  - destruct (collaborator_defined "ValidateFenceForSubmit"
                (ValidateFenceForSubmit ext fs
                   "VUID-vkAcquireNextImageKHR-fence-01287"
                   "VUID-vkAcquireNextImageKHR-fence-01287"
                   "vkAcquireNextImageKHR()")) as [[b l] Hc].
    exists (skip || b), l. split.
    + apply skip_or_Some. eauto.
    + eapply collaborator_reported; eassumption.
  - exists skip, []. split; reflexivity.
Qed.

(** The swapchain block of [ValidateAcquireNextImage]. *)
Lemma acquire_swapchain_block_reports ext cc version swapchain timeout fn skip :
  exists s l,
    match Get_SWAPCHAIN_NODE cc swapchain with
    | Some swapchain_data =>
        skip <-
          acquire_retired_check ext version swapchain fn swapchain_data skip ;;
        acquire_count_check ext cc version swapchain timeout fn swapchain_data
          skip
    | None => ret skip
    end = Some (s, l)
    /\ reported is_TooManyAcquired l = acquire_too_many cc swapchain timeout
    /\ reported is_AcquireRetired l = acquire_from_retired cc swapchain
    /\ reported is_SemaphoreNotBinary l = false
    /\ reported is_SemaphoreSignaled l = false
    /\ acquire_vuids version l.
Proof.
  unfold acquire_too_many, acquire_from_retired, acquire_vuids.
  destruct (Get_SWAPCHAIN_NODE cc swapchain) as [sd|].
  - unfold acquire_retired_check, acquire_count_check, skip_or, LogError, ret,
      bind.
    destruct (retired sd);
      destruct ((timeout =? UINT64_MAX)%Z
                && (acquire_bound cc sd <? acquired_images sd)%Z);
      simpl; eexists _, _; (split; [reflexivity |]); repeat split;
      simpl in *;
      repeat match goal with
        | H : _ \/ _ |- _ => destruct H as [<- | H]
        | H : False |- _ => destruct H
        end;
      simpl in *; try discriminate; destruct version; reflexivity.
  - exists skip, []. repeat split; destruct H.
Qed.

Lemma ValidateAcquireNextImage_reports ext cc version swapchain timeout
    semaphore fence fn vuid :
  exists skip log,
    ValidateAcquireNextImage ext cc version swapchain timeout semaphore fence
      fn vuid = Some (skip, log)
    /\ reported is_TooManyAcquired log = acquire_too_many cc swapchain timeout
    /\ reported is_AcquireRetired log = acquire_from_retired cc swapchain
    /\ reported is_SemaphoreNotBinary log
       = acquire_semaphore_not_binary cc semaphore
    /\ reported is_SemaphoreSignaled log
       = acquire_semaphore_signaled cc semaphore
    /\ acquire_vuids version log.
Proof.
  unfold ValidateAcquireNextImage.
  destruct (acquire_semaphore_check_reports ext cc version semaphore fn vuid
              false) as (s1 & l1 & E1 & N1 & S1 & T1 & R1).
  destruct (acquire_fence_check ext cc fence s1) as [[s2 l2]|] eqn:E2.
  2: { destruct (acquire_fence_check_reports ext cc fence s1 is_TooManyAcquired
                   (fun _ _ => eq_refl)) as (s & l & E & _).
       rewrite E in E2. discriminate E2. }
  assert (F : forall P, (forall o t, P (Msg_Collaborator o t) = false) ->
                        reported P l2 = false).
  { intros P HP.
    destruct (acquire_fence_check_reports ext cc fence s1 P HP)
      as (s & l & E & Hl).
    rewrite E in E2. injection E2 as _ <-. exact Hl. }
  destruct (acquire_swapchain_block_reports ext cc version swapchain timeout fn
              s2) as (s3 & l3 & E3 & T3 & R3 & N3 & S3 & V3).
  exists s3, (l1 ++ l2 ++ l3). split.
  - rewrite E1. cbn [bind]. rewrite E2. cbn [bind]. rewrite E3. reflexivity.
  - rewrite !reported_app, T1, R1, N1, S1, T3, R3, N3, S3,
      !(F _ (fun _ _ => eq_refl)), !orb_false_r.
    repeat split; try reflexivity.
    + intros Hm. apply in_app_iff in H as [H | H].
      * rewrite (proj1 (reported_false _ _) T1 r H) in Hm. discriminate Hm.
      * apply in_app_iff in H as [H | H]; [| apply (V3 r H), Hm].
        rewrite (proj1 (reported_false _ _) (F is_TooManyAcquired
                   (fun _ _ => eq_refl)) r H) in Hm. discriminate Hm.
    + intros Hm. apply in_app_iff in H as [H | H].
      * rewrite (proj1 (reported_false _ _) R1 r H) in Hm. discriminate Hm.
      * apply in_app_iff in H as [H | H]; [| apply (V3 r H), Hm].
        rewrite (proj1 (reported_false _ _) (F is_AcquireRetired
                   (fun _ _ => eq_refl)) r H) in Hm. discriminate Hm.
Qed.

(** X15.  [ValidateAcquireNextImage] always completes.  It reports the
    semaphore as not binary exactly when the semaphore is registered with
    another type, and as signaled exactly when it is a registered binary
    semaphore of internal scope that cannot be signaled; an unregistered
    semaphore, or a binary one of external scope, is never reported. *)
Theorem acquire_semaphore_rules ext cc version swapchain timeout semaphore
    fence fn vuid :
  exists skip log,
    ValidateAcquireNextImage ext cc version swapchain timeout semaphore fence
      fn vuid = Some (skip, log)
    /\ (reported is_SemaphoreNotBinary log = true <->
        exists s, Get_SEMAPHORE_STATE cc semaphore = Some s
                  /\ semaphore_type s <> VK_SEMAPHORE_TYPE_BINARY)
    /\ (reported is_SemaphoreSignaled log = true <->
        exists s, Get_SEMAPHORE_STATE cc semaphore = Some s
                  /\ semaphore_type s = VK_SEMAPHORE_TYPE_BINARY
                  /\ Scope s = kSyncScopeInternal
                  /\ CanBeSignaled s = false).
Proof.
  destruct (ValidateAcquireNextImage_reports ext cc version swapchain timeout
              semaphore fence fn vuid)
    as (skip & log & E & _ & _ & N & S & _).
  exists skip, log. split; [exact E |].
  rewrite N, S. unfold acquire_semaphore_not_binary, acquire_semaphore_signaled.
  destruct (Get_SEMAPHORE_STATE cc semaphore) as [s|].
  - rewrite negb_true_iff, Z.eqb_neq, !andb_true_iff, Z.eqb_eq, negb_true_iff.
    split.
    + split; [eauto | intros (s' & E' & H); injection E' as <-; exact H].
    + split.
      * intros [[Ht Hs] Hc]. exists s. repeat split; auto.
        destruct (Scope s); [reflexivity | discriminate | discriminate].
      * intros (s' & E' & Ht & Hs & Hc). injection E' as <-.
        rewrite Hs. auto.
  - split; (split; [discriminate | intros (s & E' & _); discriminate E']).
Qed.

(** X16.  For a swapchain handle that is not registered,
    [ValidateAcquireNextImage] completes and reports neither that the
    swapchain is retired nor that too many images are acquired, whatever
    the timeout. *)
Theorem acquire_unregistered_swapchain ext cc version swapchain timeout
    semaphore fence fn vuid :
  Get_SWAPCHAIN_NODE cc swapchain = None ->
  exists skip log,
    ValidateAcquireNextImage ext cc version swapchain timeout semaphore fence
      fn vuid = Some (skip, log)
    /\ reported is_AcquireRetired log = false
    /\ reported is_TooManyAcquired log = false.
Proof.
  intros Hnone.
  destruct (ValidateAcquireNextImage_reports ext cc version swapchain timeout
              semaphore fence fn vuid)
    as (skip & log & E & T & R & _).
  exists skip, log. split; [exact E |].
  rewrite T, R. unfold acquire_too_many, acquire_from_retired.
  rewrite Hnone. split; reflexivity.
Qed.

(** X17.  [vkAcquireNextImageKHR] and [vkAcquireNextImage2KHR] apply the
    same swapchain and semaphore checks: on the same swapchain, timeout,
    semaphore and fence both validations complete and report the retired,
    too-many-acquired, not-binary and signaled errors in the same cases.
    They differ in the rule identifiers of the swapchain errors, each entry
    point using its own. *)
Theorem acquire_entry_points_agree ext masks cc pAcquireInfo :
  exists skip1 log1 skip2 log2,
    PreCallValidateAcquireNextImageKHR ext cc (acquire_swapchain pAcquireInfo)
      (acquire_timeout pAcquireInfo) (acquire_semaphore pAcquireInfo)
      (acquire_fence pAcquireInfo) = Some (skip1, log1)
    /\ PreCallValidateAcquireNextImage2KHR ext masks cc pAcquireInfo
       = Some (skip2, log2)
    /\ reported is_AcquireRetired log1 = reported is_AcquireRetired log2
    /\ reported is_TooManyAcquired log1 = reported is_TooManyAcquired log2
    /\ reported is_SemaphoreNotBinary log1
       = reported is_SemaphoreNotBinary log2
    /\ reported is_SemaphoreSignaled log1 = reported is_SemaphoreSignaled log2
    /\ acquire_vuids ACQUIRE_VERSION_1 log1
    /\ acquire_vuids ACQUIRE_VERSION_2 log2.
Proof.
  unfold PreCallValidateAcquireNextImageKHR,
    PreCallValidateAcquireNextImage2KHR.
  destruct (ValidateAcquireNextImage_reports ext cc ACQUIRE_VERSION_1
              (acquire_swapchain pAcquireInfo) (acquire_timeout pAcquireInfo)
              (acquire_semaphore pAcquireInfo) (acquire_fence pAcquireInfo)
              "vkAcquireNextImageKHR"
              "VUID-vkAcquireNextImageKHR-semaphore-03265")
    as (skip1 & log1 & E1 & T1 & R1 & N1 & S1 & V1).
  destruct (ValidateAcquireNextImage_reports ext cc ACQUIRE_VERSION_2
              (acquire_swapchain pAcquireInfo) (acquire_timeout pAcquireInfo)
              (acquire_semaphore pAcquireInfo) (acquire_fence pAcquireInfo)
              "vkAcquireNextImage2KHR"
              "VUID-VkAcquireNextImageInfoKHR-semaphore-03266")
    as (skip2 & log2 & E2 & T2 & R2 & N2 & S2 & V2).
  destruct (collaborator "ValidateDeviceMaskToPhysicalDeviceCount"
              (ValidateDeviceMaskToPhysicalDeviceCount masks
                 (deviceMask pAcquireInfo) [acquire_swapchain pAcquireInfo]
                 "VUID-VkAcquireNextImageInfoKHR-deviceMask-01290"))
    as [[b3 l3]|] eqn:E3; [| discriminate E3].
  destruct (collaborator "ValidateDeviceMaskToZero"
              (ValidateDeviceMaskToZero masks
                 (deviceMask pAcquireInfo) [acquire_swapchain pAcquireInfo]
                 "VUID-VkAcquireNextImageInfoKHR-deviceMask-01291"))
    as [[b4 l4]|] eqn:E4; [| discriminate E4].
  assert (C3 : forall P, (forall o t, P (Msg_Collaborator o t) = false) ->
                         reported P l3 = false)
    by (intros P HP; eapply collaborator_reported; eassumption).
  assert (C4 : forall P, (forall o t, P (Msg_Collaborator o t) = false) ->
                         reported P l4 = false)
    by (intros P HP; eapply collaborator_reported; eassumption).
  exists skip1, log1, (false || b3 || b4 || skip2), (l3 ++ l4 ++ log2).
  split; [exact E1 |]. split.
  - unfold skip_or. rewrite E2. cbn [bind ret]. rewrite !app_nil_r.
    reflexivity.
  - rewrite !reported_app, !(C3 _ (fun _ _ => eq_refl)),
      !(C4 _ (fun _ _ => eq_refl)), T1, T2, R1, R2, N1, N2, S1, S2.
    repeat split; try reflexivity; try apply V1; try assumption.
    + intros Hm. apply in_app_iff in H as [H | H].
      * rewrite (proj1 (reported_false _ _)
                   (C3 is_TooManyAcquired (fun _ _ => eq_refl)) r H) in Hm.
        discriminate Hm.
      * apply in_app_iff in H as [H | H]; [| apply (V2 r H), Hm].
        rewrite (proj1 (reported_false _ _)
                   (C4 is_TooManyAcquired (fun _ _ => eq_refl)) r H) in Hm.
        discriminate Hm.
    + intros Hm. apply in_app_iff in H as [H | H].
      * rewrite (proj1 (reported_false _ _)
                   (C3 is_AcquireRetired (fun _ _ => eq_refl)) r H) in Hm.
        discriminate Hm.
      * apply in_app_iff in H as [H | H]; [| apply (V2 r H), Hm].
        rewrite (proj1 (reported_false _ _)
                   (C4 is_AcquireRetired (fun _ _ => eq_refl)) r H) in Hm.
        discriminate Hm.
Qed.

(** ** Wait for present *)

(** X18.  [PreCallValidateWaitForPresentKHR] always completes.  It reports
    the missing [presentWait] feature exactly when the feature is not
    enabled, whether or not the swapchain is registered; it reports a
    retired swapchain only for a registered one; and the flag it returns is
    true exactly when [LogError] returned true for one of the records it
    logged. *)
Theorem wait_for_present_rules ext cc swapchain presentId_ timeout :
  exists skip log,
    PreCallValidateWaitForPresentKHR ext cc swapchain presentId_ timeout
    = Some (skip, log)
    /\ reported is_PresentWaitFeature log = negb (presentWait (tracker cc))
    /\ (reported is_WaitForPresentRetired log = true <->
        exists sd, Get_SWAPCHAIN_NODE cc swapchain = Some sd
                   /\ retired sd = true)
    /\ skip = existsb (LogError_result ext) log.
Proof.
  unfold PreCallValidateWaitForPresentKHR, skip_or, LogError, ret, bind.
  destruct (presentWait (tracker cc));
    destruct (Get_SWAPCHAIN_NODE cc swapchain) as [sd|];
    try destruct (retired sd) eqn:Hr; simpl;
    eexists _, _; (split; [reflexivity |]); simpl;
    repeat split; try discriminate; eauto;
    try (intros (sd' & E & Hr'); first [discriminate E | congruence]);
    rewrite ?orb_false_r; reflexivity.
Qed.

(** ** Swapchain creation *)

Lemma AnyQueueSupports_none cc s :
  (forall q qs, queue_map (tracker cc) !! q = Some qs ->
                GetQueueSupport s (queue_family qs) = false) ->
  AnyQueueSupports cc (Some s) = Some (false, []).
Proof.
  intros Hnone. unfold AnyQueueSupports.
  destruct (map_to_list (queue_map (tracker cc))) as [|kv queues] eqn:Hl;
    [reflexivity |].
  cbn [deref]. rewrite bind_ret_l. unfold ret. f_equal. f_equal.
  destruct (existsb _ (kv :: queues)) eqn:E; [| reflexivity].
  apply existsb_exists in E as ([q qs] & Hin & Hs).
  rewrite <- Hl in Hin. apply list_elem_of_In, elem_of_map_to_list in Hin.
  simpl in Hs. rewrite (Hnone q qs Hin) in Hs. discriminate Hs.
Qed.

(** X19.  When no queue of the device can present to the surface (and the
    Android surface extension is not enabled), [ValidateCreateSwapchain]
    logs the presentation-support error first.  If [LogError] returns true
    for it the validation returns at once: the log holds that record alone
    and nothing is said about [oldSwapchain] or the create info.  If
    [LogError] returns false the validation goes on after that record. *)
Theorem create_swapchain_unsupported_surface ext cc fn pCreateInfo s old :
  vk_khr_android_surface (tracker cc) = false ->
  (forall q qs, queue_map (tracker cc) !! q = Some qs ->
                GetQueueSupport s (queue_family qs) = false) ->
  (LogError_result ext (create_surface_record cc fn s) = true ->
   ValidateCreateSwapchain ext cc fn pCreateInfo (Some s) old
   = Some (true, [create_surface_record cc fn s]))
  /\ (LogError_result ext (create_surface_record cc fn s) = false ->
      exists skip l,
        ValidateCreateSwapchain ext cc fn pCreateInfo (Some s) old
        = Some (skip, create_surface_record cc fn s :: l)).
Proof.
  intros Ha Hnone.
  unfold ValidateCreateSwapchain, create_surface_support_check.
  rewrite Ha, (AnyQueueSupports_none cc s Hnone). cbn [negb bind deref ret].
  unfold LogError. fold (create_surface_record cc fn s). split.
  - intros ->. reflexivity.
  - intros ->. cbn [app].
    destruct (create_old_swapchain_check ext fn pCreateInfo old)
      as [[r2 l2]|] eqn:E2.
    + destruct r2.
      * eexists _, _. reflexivity.
      * destruct (collaborator_defined "ValidateCreateSwapchain"
                    (ValidateCreateSwapchainLimits ext fn pCreateInfo (Some s)))
          as [[b3 l3] E3].
        rewrite E3. eexists _, _. reflexivity.
    + exfalso. revert E2.
      unfold create_old_swapchain_check, LogError, ret, bind.
      repeat case_match; discriminate.
Qed.

Lemma reported_cons (P : Message -> bool) (r : LogRecord)
    (l : list LogRecord) :
  reported P (r :: l) = P (log_message r) || reported P l.
Proof. reflexivity. Qed.

Lemma create_surface_support_check_continue ext cc fn surface_state :
  (forall r, LogError_result ext r = false) ->
  vk_khr_android_surface (tracker cc) = true \/ is_Some surface_state ->
  exists l,
    create_surface_support_check ext cc fn surface_state = Some (false, l)
    /\ reported is_OldSwapchainSurface l = false
    /\ reported is_OldSwapchainRetired l = false.
Proof.
  intros Hv. unfold create_surface_support_check.
  destruct (vk_khr_android_surface (tracker cc)) eqn:Ha; simpl.
  - intros _. exists []. repeat split.
  - intros [Hf | [s ->]]; [discriminate |].
    destruct (AnyQueueSupports_defined cc s) as [b ->]. simpl.
    destruct b; simpl.
    + exists []. repeat split.
    + unfold LogError. rewrite Hv. eexists. repeat split.
Qed.

(** X20.  When [LogError] never asks to return, creation validation runs
    every check: it completes, reports the surface mismatch of
    [oldSwapchain] exactly when the old swapchain is registered and was
    created for another surface, reports its retirement exactly when it is
    registered and retired, and returns what the checks of the create info
    against the driver return.  An [oldSwapchain] that is null or not
    registered is not reported. *)
Theorem create_swapchain_old_swapchain_rules ext cc pCreateInfo :
  (forall r, LogError_result ext r = false) ->
  vk_khr_android_surface (tracker cc) = true
  \/ is_Some (Get_SURFACE_STATE cc (surface pCreateInfo)) ->
  exists skip log,
    PreCallValidateCreateSwapchainKHR ext cc pCreateInfo = Some (skip, log)
    /\ (reported is_OldSwapchainSurface log = true <->
        exists old,
          Get_SWAPCHAIN_NODE cc (oldSwapchain pCreateInfo) = Some old
          /\ surface (createInfo old) <> surface pCreateInfo)
    /\ (reported is_OldSwapchainRetired log = true <->
        exists old,
          Get_SWAPCHAIN_NODE cc (oldSwapchain pCreateInfo) = Some old
          /\ retired old = true)
    /\ skip
       = fst (ValidateCreateSwapchainLimits ext "vkCreateSwapchainKHR()"
                pCreateInfo (Get_SURFACE_STATE cc (surface pCreateInfo))).
Proof.
  intros Hv Hs.
  unfold PreCallValidateCreateSwapchainKHR, ValidateCreateSwapchain.
  destruct (create_surface_support_check_continue ext cc
              "vkCreateSwapchainKHR()" _ Hv Hs) as (l1 & E1 & S1 & R1).
  rewrite E1. cbn [bind].
  destruct (collaborator_defined "ValidateCreateSwapchain"
              (ValidateCreateSwapchainLimits ext "vkCreateSwapchainKHR()"
                 pCreateInfo (Get_SURFACE_STATE cc (surface pCreateInfo))))
    as [[b3 l3] E3].
  assert (S3 : reported is_OldSwapchainSurface l3 = false)
    by (apply (collaborator_reported _ _ _ _ _ (fun _ _ => eq_refl) E3)).
  assert (R3 : reported is_OldSwapchainRetired l3 = false)
    by (apply (collaborator_reported _ _ _ _ _ (fun _ _ => eq_refl) E3)).
  assert (Hb3 : b3 = fst (ValidateCreateSwapchainLimits ext
                            "vkCreateSwapchainKHR()" pCreateInfo
                            (Get_SURFACE_STATE cc (surface pCreateInfo)))).
  { unfold collaborator in E3. injection E3 as <- _. reflexivity. }
  unfold create_old_swapchain_check.
  destruct (Get_SWAPCHAIN_NODE cc (oldSwapchain pCreateInfo)) as [old|].
  - unfold LogError. rewrite !Hv.
    destruct (surface (createInfo old) =? surface pCreateInfo)%Z eqn:Hsurf;
      destruct (retired old) eqn:Hret; cbn [negb bind ret app];
      rewrite ?Hv; cbn [bind ret app]; rewrite E3;
      eexists _, _; (split; [reflexivity |]);
      rewrite !reported_app, ?reported_cons, S1, R1, S3, R3; simpl;
      (split; [| split; [| exact Hb3]]);
      first [apply Z.eqb_eq in Hsurf | apply Z.eqb_neq in Hsurf];
      (split; [try discriminate; intros _; eauto
              | try reflexivity; intros (old' & E & H);
                injection E as <-; congruence]).
  - cbn [bind ret]. rewrite E3. eexists _, _. split; [reflexivity |].
    rewrite !reported_app, S1, R1, S3, R3. simpl.
    split; [| split; [| exact Hb3]];
      (split; [discriminate | intros (old & E & _); discriminate E]).
Qed.

(** ** Swapchain destruction *)

Lemma erase_swapchain_images_lookup imgs
    (m : gmap Z (list QFOImageTransferBarrier)) (k : Z) :
  erase_swapchain_images imgs m !! k = None
  \/ erase_swapchain_images imgs m !! k = m !! k.
Proof.
  destruct (classic_In_dec k (images_with_state imgs)) as [Hin | Hnin].
  - left. apply erase_swapchain_images_erased, Hin.
  - right. apply erase_swapchain_images_other, Hnin.
Qed.

(** X21.  [PreCallRecordDestroySwapchainKHR] only ever erases entries of
    [qfo_release_image_barrier_map]: every entry present afterwards was
    present before with the same barriers.  For a null handle or a handle
    that is not registered the map is left as it is.  In all cases the
    tracker is the one the base-class hook returns. *)
Theorem destroy_swapchain_only_erases ext cc swapchain :
  let cc' := PreCallRecordDestroySwapchainKHR ext cc swapchain in
  (forall k v, qfo_release_image_barrier_map cc' !! k = Some v ->
               qfo_release_image_barrier_map cc !! k = Some v)
  /\ (swapchain = VK_NULL_HANDLE \/ Get_SWAPCHAIN_NODE cc swapchain = None ->
      qfo_release_image_barrier_map cc' = qfo_release_image_barrier_map cc)
  /\ tracker cc'
     = StateTracker_PreCallRecordDestroySwapchainKHR ext (tracker cc) swapchain.
Proof.
  intros cc'. subst cc'. unfold PreCallRecordDestroySwapchainKHR. simpl.
  split; [| split; [| reflexivity]].
  - intros k v.
    destruct (negb (swapchain =? VK_NULL_HANDLE)%Z); [| auto].
    destruct (Get_SWAPCHAIN_NODE cc swapchain) as [sd|]; [| auto].
    destruct (erase_swapchain_images_lookup (images sd)
                (qfo_release_image_barrier_map cc) k) as [-> | ->];
      [discriminate | auto].
  - intros [-> | ->].
    + reflexivity.
    + destruct (negb (swapchain =? VK_NULL_HANDLE)%Z); reflexivity.
Qed.

(** X22.  The erase loop of [PreCallRecordDestroySwapchainKHR] is
    insensitive to order and repetition: erasing the images of two
    swapchains gives the same map in either order, and erasing the images
    of a swapchain a second time changes nothing. *)
Theorem erase_swapchain_images_commute (imgs1 imgs2 : list SWAPCHAIN_IMAGE)
    (m : gmap Z (list QFOImageTransferBarrier)) :
  erase_swapchain_images imgs1 (erase_swapchain_images imgs2 m)
  = erase_swapchain_images imgs2 (erase_swapchain_images imgs1 m)
  /\ erase_swapchain_images imgs1 (erase_swapchain_images imgs1 m)
     = erase_swapchain_images imgs1 m.
Proof.
  split; apply map_eq; intros k;
    destruct (classic_In_dec k (images_with_state imgs1)) as [H1 | H1];
    try destruct (classic_In_dec k (images_with_state imgs2)) as [H2 | H2];
    repeat first
      [ rewrite (erase_swapchain_images_erased imgs1 _ k H1)
      | rewrite (erase_swapchain_images_erased imgs2 _ k H2)
      | rewrite (erase_swapchain_images_other imgs1 _ k H1)
      | rewrite (erase_swapchain_images_other imgs2 _ k H2) ];
    reflexivity.
Qed.

(** ** Shared swapchains *)

(** In a loop whose iterations never clear the flag, the iteration of [a]
    has run, what it logged is in the log, and a flag it raised stays
    raised. *)
Lemma for_each_skip_intro {A : Type} (l : list A) (body : A -> bool -> W bool)
    (s s' : bool) (log : list LogRecord) (a : A) :
  (forall x s0 s1 l0, body x s0 = Some (s1, l0) -> s0 = true -> s1 = true) ->
  for_each l body s = Some (s', log) -> In a l ->
  exists s0 s1 l0,
    body a s0 = Some (s1, l0)
    /\ (forall r, In r l0 -> In r log)
    /\ (s1 = true -> s' = true).
Proof.
  intros Hmono. revert s log.
  assert (Hkeep : forall l0 s0 s1 log0,
            for_each l0 body s0 = Some (s1, log0) -> s0 = true -> s1 = true).
  { induction l0 as [|x l0 IH]; intros s0 s1 log0 H Hs; simpl in H.
    - injection H as <- _. exact Hs.
    - apply bind_Some in H as (s2 & l1 & l2 & Hb & Hrest & ->).
      eapply IH; [exact Hrest |]. eapply Hmono; eassumption. }
  induction l as [|a' l IH]; intros s log H Hin; simpl in H.
  - destruct Hin.
  - apply bind_Some in H as (s1 & l1 & l2 & Hb & Hrest & ->).
    destruct Hin as [-> | Hin].
    + exists s, s1, l1. split; [exact Hb |]. split.
      * intros r Hr. apply in_app_iff. left. exact Hr.
      * intros Hs1. eapply Hkeep; eassumption.
    + destruct (IH _ _ Hrest Hin) as (s0 & s1' & l0 & Hb' & Hsub & Hs).
      exists s0, s1', l0. split; [exact Hb' |]. split; [| exact Hs].
      intros r Hr. apply in_app_iff. right. apply Hsub, Hr.
Qed.

(** X23.  [PreCallValidateCreateSharedSwapchainsKHR] validates every create
    info of the array, also after an earlier one asked to skip the call:
    for each index below [swapchainCount] the validation of that create
    info has run under the name [vkCreateSharedSwapchainsKHR[N]()] with [N]
    the count, its records are in the log, and a true result makes the
    result of the call true. *)
Theorem create_shared_swapchains_validates_each ext cc swapchainCount infos
    skip log i info :
  PreCallValidateCreateSharedSwapchainsKHR ext cc swapchainCount (Some infos)
  = Some (skip, log) ->
  (i < swapchainCount)%nat ->
  infos !! i = Some info ->
  exists b l,
    ValidateCreateSwapchain ext cc
      ("vkCreateSharedSwapchainsKHR[" ++ pretty swapchainCount ++ "]()")%string
      info (Get_SURFACE_STATE cc (surface info))
      (Get_SWAPCHAIN_NODE cc (oldSwapchain info)) = Some (b, l)
    /\ (forall r, In r l -> In r log)
    /\ (b = true -> skip = true).
Proof.
  unfold PreCallValidateCreateSharedSwapchainsKHR, for_range.
  intros H Hi Hinfo.
  assert (Hin : In i (seq 0 swapchainCount)) by (apply in_seq; lia).
  assert (Hmono : forall x s0 s1 l0,
            create_shared_swapchain ext cc swapchainCount infos x s0
            = Some (s1, l0) -> s0 = true -> s1 = true).
  { intros x s0 s1 l0 Hb ->. unfold create_shared_swapchain in Hb.
    w_inv. reflexivity. }
  destruct (for_each_skip_intro _ _ _ _ _ i Hmono H Hin)
    as (s0 & s1 & l0 & Hb & Hsub & Hs).
  unfold create_shared_swapchain in Hb. rewrite Hinfo in Hb.
  cbn [deref] in Hb. rewrite bind_ret_l in Hb.
  apply skip_or_Some in Hb as (b & Hb & ->).
  exists b, l0. split; [exact Hb |]. split; [exact Hsub |].
  intros ->. apply Hs. apply orb_true_r.
Qed.

(** ** Swapchain images *)

Lemma new_swapchain_image_index_spec (imgs : list SWAPCHAIN_IMAGE)
    (remaining index : nat) :
  let k := new_swapchain_image_index imgs index remaining in
  (index <= k <= index + remaining)%nat
  /\ (forall i, (index <= i < k)%nat -> image_tracked imgs i)
  /\ ((k < index + remaining)%nat -> ~ image_tracked imgs k).
Proof.
  revert index. induction remaining as [|r IH]; intros index; simpl.
  - split; [lia |]. split; [intros i Hi; lia | intros H; lia].
  - destruct (imgs !! index) as [si|] eqn:Hsi.
    + destruct (image_state si) as [ist|] eqn:Hist.
      * destruct (IH (S index)) as (Hk & Hbelow & Hat).
        split; [lia |]. split.
        -- intros i Hi. destruct (Nat.eq_dec i index) as [-> | Hne].
           ++ exists si, ist. auto.
           ++ apply Hbelow. lia.
        -- intros Hlt. apply Hat. lia.
      * split; [lia |]. split; [intros i Hi; lia |].
        intros _ (si' & ist & E & Hs). rewrite Hsi in E. injection E as <-.
        rewrite Hist in Hs. discriminate Hs.
    + split; [lia |]. split; [intros i Hi; lia |].
      intros _ (si' & ist & E & _). rewrite Hsi in E. discriminate E.
Qed.

(** X24.  After a successful [vkGetSwapchainImagesKHR] that returned
    images, [PostCallRecordGetSwapchainImagesKHR] initialises the layout map
    of the images from the first index whose record had no image state
    before the call up to the count, in index order, and of no other: the
    images before that index, which were tracked already, are left alone,
    and when all of them were tracked nothing is initialised.  The
    tracker is the one the base-class hook returns. *)
Theorem get_swapchain_images_initialises_new hooks cc swapchain count handles
    result sd cc' initialised :
  Get_SWAPCHAIN_NODE cc swapchain = Some sd ->
  result = VK_SUCCESS \/ result = VK_INCOMPLETE ->
  PostCallRecordGetSwapchainImagesKHR hooks cc swapchain count (Some handles)
    result = Some (cc', initialised) ->
  let k := new_swapchain_image_index (images sd) 0 count in
  (k <= count)%nat
  /\ (forall i, (i < k)%nat -> image_tracked (images sd) i)
  /\ ((k < count)%nat -> ~ image_tracked (images sd) k)
  /\ Forall2
       (fun i ist =>
          exists handle,
            handles !! i = Some handle
            /\ Get_IMAGE_STATE hooks (tracker cc') handle = Some ist)
       (seq k (count - k)) initialised
  /\ (k = count -> initialised = [])
  /\ tracker cc'
     = StateTracker_PostCallRecordGetSwapchainImagesKHR hooks (tracker cc)
         swapchain count (Some handles) result.
Proof.
  intros Hget Hres H k.
  unfold PostCallRecordGetSwapchainImagesKHR in H.
  assert (Hs : (result =? VK_SUCCESS)%Z || (result =? VK_INCOMPLETE)%Z = true).
  { destruct Hres as [-> | ->]; reflexivity. }
  rewrite Hs, Hget in H. simpl in H. fold k in H.
  destruct (mapM _ (seq k (count - k))) as [inits|] eqn:Hm; [| discriminate H].
  simpl in H. injection H as <- <-. simpl.
  destruct (new_swapchain_image_index_spec (images sd) count 0)
    as (Hk & Hbelow & Hat).
  fold k in Hk, Hbelow, Hat.
  split; [lia |]. split; [intros i Hi; apply Hbelow; lia |].
  split; [intros Hlt; apply Hat; lia |].
  split; [| split; [| reflexivity]].
  - apply mapM_Some_1 in Hm.
    eapply Forall2_impl; [exact Hm |]. intros i ist Hi. simpl in Hi.
    destruct (handles !! i) as [h|]; [| discriminate Hi]. simpl in Hi. eauto.
  - intros Hkc. apply length_mapM in Hm. rewrite length_seq, Hkc in Hm.
    rewrite Nat.sub_diag in Hm. destruct inits; [reflexivity | discriminate Hm].
Qed.

(** ** Physical-device queries *)

Lemma existsb_seq_false (f : nat -> bool) (n : nat) :
  existsb f (seq 0 n) = false <-> forall i, (i < n)%nat -> f i = false.
Proof.
  split.
  - intros H i Hi. destruct (f i) eqn:E; [| reflexivity].
    assert (Ht : existsb f (seq 0 n) = true).
    { apply existsb_exists. exists i. split; [apply in_seq; lia | exact E]. }
    rewrite H in Ht. discriminate Ht.
  - intros H. destruct (existsb f (seq 0 n)) eqn:E; [| reflexivity].
    apply existsb_exists in E as (i & Hi & Hf). apply in_seq in Hi.
    rewrite H in Hf by lia. discriminate Hf.
Qed.

(** X25.  [ValidatePhysicalDeviceSurfaceSupport] logs at most one record,
    naming the physical device under the rule identifier it was given.  It
    logs it exactly when the physical device and the surface are both
    registered and none of the device's queue families supports the
    surface; a device without queue families is therefore reported, and an
    unregistered device or surface never is.  The result is the verdict
    [LogError] returned for the record. *)
Theorem physical_device_surface_support env cc physicalDevice surface vuid
    func_name :
  let res :=
    ValidatePhysicalDeviceSurfaceSupport env cc physicalDevice surface vuid
      func_name in
  (snd res <> [] <->
   exists pd_state surface_state,
     Get_PHYSICAL_DEVICE_STATE env physicalDevice = Some pd_state
     /\ Get_SURFACE_STATE cc surface = Some surface_state
     /\ forall i, (i < length (pd_queue_family_properties pd_state))%nat ->
          GetQueueSupport_at env surface_state physicalDevice (Z.of_nat i)
          = false)
  /\ (forall r, In r (snd res) ->
        r = {| qlog_objects := [physicalDevice]; qlog_vuid := vuid;
               qlog_message := QMsg_SurfaceNotSupported func_name |})
  /\ (length (snd res) <= 1)%nat
  /\ fst res = existsb (query_LogError_result env) (snd res).
Proof.
  intros res. subst res. unfold ValidatePhysicalDeviceSurfaceSupport.
  destruct (Get_PHYSICAL_DEVICE_STATE env physicalDevice) as [pds|];
    [destruct (Get_SURFACE_STATE cc surface) as [ss|];
     [destruct (existsb _ (seq 0 (length (pd_queue_family_properties pds))))
        eqn:E |] |];
    simpl; repeat split; try tauto; try lia; try discriminate;
    try (intros r Hr; simpl in Hr; destruct Hr as [<- | []]; reflexivity);
    try (intros (p & s & Ep & Es & Hall); try discriminate Ep;
         try discriminate Es).
  - injection Ep as <-. injection Es as <-.
    apply (existsb_seq_false
             (fun i => GetQueueSupport_at env ss physicalDevice (Z.of_nat i)))
      in Hall.
    rewrite Hall in E. discriminate E.
  - intros _. exists pds, ss. repeat split.
    apply (existsb_seq_false
             (fun i => GetQueueSupport_at env ss physicalDevice (Z.of_nat i))),
      E.
  - rewrite orb_false_r. reflexivity.
Qed.

Lemma device_group_surface_support_log env cc surface indices st :
  (forall i, In i indices -> (i < length (pPhysicalDevices env))%nat) ->
  exists skip log,
    device_group_surface_support env cc surface indices st = Some (skip, log)
    /\ forall r,
         In r log <->
         In r (snd st)
         \/ exists i pd,
              In i indices /\ pPhysicalDevices env !! i = Some pd
              /\ In r (snd (ValidatePhysicalDeviceSurfaceSupport env cc pd
                              surface
                              "VUID-vkGetDeviceGroupSurfacePresentModesKHR-surface-06212"
                              "vkGetDeviceGroupSurfacePresentModesKHR")).
Proof.
  revert st. induction indices as [|i rest IH]; intros st Hr; simpl.
  - exists (fst st), (snd st). split; [destruct st; reflexivity |].
    intros r. split; [auto |]. intros [H | (i & pd & [] & _)]. exact H.
  - destruct (lookup_lt_defined (pPhysicalDevices env) i) as [pd Hpd];
      [apply Hr; left; reflexivity |].
    rewrite Hpd. simpl.
    destruct (ValidatePhysicalDeviceSurfaceSupport env cc pd surface _ _)
      as [b l] eqn:Ev.
    destruct (IH (fst st || b, snd st ++ l)) as (skip & log & E & Hlog);
      [intros j Hj; apply Hr; right; exact Hj |].
    exists skip, log. split; [exact E |].
    intros r. rewrite Hlog. simpl. rewrite in_app_iff. split.
    + intros [[H | H] | (j & pd' & Hj & Hpd' & Hin)].
      * left. exact H.
      * right. exists i, pd. rewrite Ev. auto.
      * right. exists j, pd'. auto.
    + intros [H | (j & pd' & [<- | Hj] & Hpd' & Hin)].
      * left. left. exact H.
      * left. right. rewrite Hpd in Hpd'. injection Hpd' as <-.
        rewrite Ev in Hin. exact Hin.
      * right. exists j, pd'. auto.
Qed.

(** X26.  For a device group of one physical device,
    [PreCallValidateGetDeviceGroupSurfacePresentModesKHR] checks the
    physical device of the device and does not read the group's array.  For
    any other count it checks the first [physical_device_count] devices of
    the array, so that its log holds exactly the records of those checks;
    with a count of zero nothing is checked. *)
Theorem device_group_surface_present_modes env cc surface :
  (physical_device_count env = 1%nat ->
   PreCallValidateGetDeviceGroupSurfacePresentModesKHR env cc surface
   = Some (ValidatePhysicalDeviceSurfaceSupport env cc (physical_device env)
             surface
             "VUID-vkGetDeviceGroupSurfacePresentModesKHR-surface-06212"
             "vkGetDeviceGroupSurfacePresentModesKHR"))
  /\ (physical_device_count env = 0%nat ->
      PreCallValidateGetDeviceGroupSurfacePresentModesKHR env cc surface
      = Some (false, []))
  /\ (physical_device_count env <> 1%nat ->
      (physical_device_count env <= length (pPhysicalDevices env))%nat ->
      exists skip log,
        PreCallValidateGetDeviceGroupSurfacePresentModesKHR env cc surface
        = Some (skip, log)
        /\ forall r,
             In r log <->
             exists i pd,
               (i < physical_device_count env)%nat
               /\ pPhysicalDevices env !! i = Some pd
               /\ In r (snd (ValidatePhysicalDeviceSurfaceSupport env cc pd
                               surface
                               "VUID-vkGetDeviceGroupSurfacePresentModesKHR-surface-06212"
                               "vkGetDeviceGroupSurfacePresentModesKHR"))).
Proof.
  unfold PreCallValidateGetDeviceGroupSurfacePresentModesKHR.
  split; [| split].
  - intros ->. simpl.
    destruct (ValidatePhysicalDeviceSurfaceSupport env cc _ surface _ _).
    reflexivity.
  - intros ->. reflexivity.
  - intros Hne Hle. apply Nat.eqb_neq in Hne. rewrite Hne.
    destruct (device_group_surface_support_log env cc surface
                (seq 0 (physical_device_count env)) (false, []))
      as (skip & log & E & Hlog).
    + intros i Hi. apply in_seq in Hi. lia.
    + exists skip, log. split; [exact E |].
      intros r. rewrite Hlog. simpl. split.
      * intros [[] | (i & pd & Hi & H)]. apply in_seq in Hi.
        exists i, pd. split; [lia | exact H].
      * intros (i & pd & Hi & H). right. exists i, pd.
        split; [apply in_seq; lia | exact H].
Qed.

(** X27.  [ValidateGetPhysicalDeviceDisplayPlanePropertiesKHRQuery] has no
    result for a physical device that is not registered, whose state it
    reads without a check.  For a registered one it reports the plane index
    exactly when the display plane properties have been queried and the
    index is not below the count they returned: before that query no index
    is reported, and after a query that returned no plane every index is.
    The three entry points that use it report under the same rule
    identifier, that of [vkGetDisplayPlaneSupportedDisplaysKHR]. *)
Theorem display_plane_index_rules env physicalDevice planeIndex api_name :
  (Get_PHYSICAL_DEVICE_STATE env physicalDevice = None ->
   ValidateGetPhysicalDeviceDisplayPlanePropertiesKHRQuery env physicalDevice
     planeIndex api_name = None)
  /\ (forall pd_state,
        Get_PHYSICAL_DEVICE_STATE env physicalDevice = Some pd_state ->
        exists skip log,
          ValidateGetPhysicalDeviceDisplayPlanePropertiesKHRQuery env
            physicalDevice planeIndex api_name = Some (skip, log)
          /\ (log <> [] <->
              vkGetPhysicalDeviceDisplayPlanePropertiesKHR_called pd_state
              = true
              /\ (display_plane_property_count pd_state <= planeIndex)%Z)
          /\ (forall r, In r log ->
                qlog_objects r = [physicalDevice]
                /\ qlog_vuid r
                   = "VUID-vkGetDisplayPlaneSupportedDisplaysKHR-planeIndex-01249"))
  /\ PreCallValidateGetDisplayPlaneSupportedDisplaysKHR env physicalDevice
       planeIndex
     = ValidateGetPhysicalDeviceDisplayPlanePropertiesKHRQuery env
         physicalDevice planeIndex "vkGetDisplayPlaneSupportedDisplaysKHR"
  /\ (forall mode,
        PreCallValidateGetDisplayPlaneCapabilitiesKHR env physicalDevice mode
          planeIndex
        = ValidateGetPhysicalDeviceDisplayPlanePropertiesKHRQuery env
            physicalDevice planeIndex "vkGetDisplayPlaneCapabilitiesKHR")
  /\ (forall mode,
        PreCallValidateGetDisplayPlaneCapabilities2KHR env physicalDevice
          {| plane_info_mode := mode; plane_info_planeIndex := planeIndex |}
        = ValidateGetPhysicalDeviceDisplayPlanePropertiesKHRQuery env
            physicalDevice planeIndex "vkGetDisplayPlaneCapabilities2KHR").
Proof.
  assert (Hwrap : forall m : option (bool * list QueryLogRecord),
            (m ≫= fun '(r, l) => Some (false || r, l)) = m).
  { intros [[r l]|]; reflexivity. }
  unfold PreCallValidateGetDisplayPlaneSupportedDisplaysKHR,
    PreCallValidateGetDisplayPlaneCapabilitiesKHR,
    PreCallValidateGetDisplayPlaneCapabilities2KHR.
  repeat split; try (intros; apply Hwrap).
  - unfold ValidateGetPhysicalDeviceDisplayPlanePropertiesKHRQuery.
    intros ->. reflexivity.
  - intros pds Hpd.
    unfold ValidateGetPhysicalDeviceDisplayPlanePropertiesKHRQuery.
    rewrite Hpd. simpl.
    destruct (vkGetPhysicalDeviceDisplayPlanePropertiesKHR_called pds);
      [destruct (display_plane_property_count pds <=? planeIndex)%Z eqn:E |];
      simpl; eexists _, _; (split; [reflexivity |]);
      try apply Z.leb_le in E; try apply Z.leb_gt in E;
      (split; [split; [try tauto; try discriminate
                      | try discriminate; intros [H1 H2];
                        first [discriminate H1 | lia]]
              | intros r Hr; simpl in Hr;
                repeat destruct Hr as [<- | Hr]; try contradiction;
                split; reflexivity]).
Qed.

(** ** Display plane surfaces *)

(** X28.  For a registered display mode whose physical device is
    registered, [PreCallValidateCreateDisplayPlaneSurfaceKHR] completes and
    - reports the width exactly when it is at least
      [maxImageDimension2D], so that a width equal to the limit is
      reported, and likewise the height;
    - reports the plane index exactly when the display plane properties
      have been queried and the index is not below their count;
    - reports the alpha mode exactly when they have been queried, the index
      is below the count and the mode shares no bit with the plane's
      [supportedAlpha].
    For a display mode that is not registered only the global-alpha check
    is made. *)
Theorem create_display_plane_surface_rules env pCreateInfo :
  (forall dm_state pd_state,
     display_mode_map env !! displayMode pCreateInfo = Some dm_state ->
     Get_PHYSICAL_DEVICE_STATE env (dm_physical_device dm_state)
     = Some pd_state ->
     let limit := maxImageDimension2D env (dm_physical_device dm_state) in
     let called :=
       vkGetPhysicalDeviceDisplayPlanePropertiesKHR_called pd_state in
     let count := display_plane_property_count pd_state in
     exists skip log,
       PreCallValidateCreateDisplayPlaneSurfaceKHR env pCreateInfo
       = Some (skip, log)
       /\ query_reported is_QMsg_Width log
          = (limit <=? width (display_imageExtent pCreateInfo))%Z
       /\ query_reported is_QMsg_Height log
          = (limit <=? height (display_imageExtent pCreateInfo))%Z
       /\ query_reported is_QMsg_CreatePlaneIndex log
          = called && (count <=? planeIndex pCreateInfo)%Z
       /\ query_reported is_QMsg_AlphaMode log
          = called && (planeIndex pCreateInfo <? count)%Z
            && (Z.land (alphaMode pCreateInfo)
                  (supportedAlpha env (dm_physical_device dm_state)
                     (displayMode pCreateInfo) (planeIndex pCreateInfo))
                =? 0)%Z)
  /\ (display_mode_map env !! displayMode pCreateInfo = None ->
      exists skip log,
        PreCallValidateCreateDisplayPlaneSurfaceKHR env pCreateInfo
        = Some (skip, log)
        /\ forall r, In r log -> is_QMsg_GlobalAlpha (qlog_message r) = true).
Proof.
  unfold PreCallValidateCreateDisplayPlaneSurfaceKHR, query_log,
    query_reported.
  split.
  - intros dm pds Hdm Hpd. cbv zeta.
    rewrite Hdm, Hpd. cbn [mbind option_bind].
    rewrite (Z.ltb_antisym (display_plane_property_count pds)
               (planeIndex pCreateInfo)).
    destruct (alphaMode pCreateInfo =? VK_DISPLAY_PLANE_ALPHA_GLOBAL_BIT_KHR)%Z;
      [destruct (SFltb float_one (globalAlpha pCreateInfo)
                 || SFltb (globalAlpha pCreateInfo) float_zero) |];
      destruct (maxImageDimension2D env (dm_physical_device dm)
                <=? width (display_imageExtent pCreateInfo))%Z;
      destruct (maxImageDimension2D env (dm_physical_device dm)
                <=? height (display_imageExtent pCreateInfo))%Z;
      destruct (vkGetPhysicalDeviceDisplayPlanePropertiesKHR_called pds);
      try destruct (display_plane_property_count pds
                    <=? planeIndex pCreateInfo)%Z;
      try destruct (Z.land (alphaMode pCreateInfo) _ =? 0)%Z;
      eexists _, _; (split; [reflexivity |]); repeat split.
  - intros Hdm. rewrite Hdm.
    destruct (alphaMode pCreateInfo =? VK_DISPLAY_PLANE_ALPHA_GLOBAL_BIT_KHR)%Z;
      [destruct (SFltb float_one (globalAlpha pCreateInfo)
                 || SFltb (globalAlpha pCreateInfo) float_zero) |];
      eexists _, _; (split; [reflexivity |]);
      intros r Hr; simpl in Hr; repeat destruct Hr as [<- | Hr];
      try contradiction; reflexivity.
Qed.

(** ** Present: the source rectangle of a display present *)

(** A loop whose iteration [j] reports the class [P] exactly when [c j]
    holds reports it exactly when [c] holds for one of its indices. *)
Lemma for_each_reported_exists {A S : Type} (l : list A)
    (body : A -> S -> W S) (s s' : S) (log : list LogRecord)
    (P : Message -> bool) (c : A -> bool) :
  (forall a s0 s1 l0, In a l -> body a s0 = Some (s1, l0) ->
     reported P l0 = c a) ->
  for_each l body s = Some (s', log) ->
  reported P log = existsb c l.
Proof.
  revert s log. induction l as [|a l IH]; intros s log Hbody H; simpl in H.
  - injection H as _ <-. reflexivity.
  - apply bind_Some in H as (s1 & l1 & l2 & Hb & Hrest & ->).
    rewrite reported_app. simpl. f_equal.
    + apply (Hbody a s s1 l1); [left; reflexivity | exact Hb].
    + apply (IH s1 l2); [| exact Hrest].
      intros a' s0 s2 l0 Hin. apply Hbody. right. exact Hin.
Qed.

Lemma present_display_info_reported ext queue info ist s0 s1 l0 :
  present_display_info ext queue info ist s0 = Some (s1, l0) ->
  reported is_DisplaySrcRect l0
  = match LvlFindInChain as_VkDisplayPresentInfoKHR
            (VkPresentInfoKHR.pNext info) with
    | Some display_present_info =>
        display_src_rect_outside (srcRect display_present_info)
          (image_extent ist)
    | None => false
    end.
Proof.
  unfold present_display_info, display_src_rect_outside. intros H.
  destruct (LvlFindInChain as_VkDisplayPresentInfoKHR
              (VkPresentInfoKHR.pNext info)) as [dpi|];
    [| injection H as _ <-; reflexivity].
  match type of H with
  | (if ?c then _ else _) = _ => destruct c
  end; w_inv; reflexivity.
Qed.

(** What iteration [i] of the swapchain loop reports about the source
    rectangle. *)
Lemma present_swapchain_src_rect_reported ext cc queue qs info i s0 s1 l0 :
  present_swapchain ext cc queue qs info i s0 = Some (s1, l0) ->
  reported is_DisplaySrcRect l0 = present_entry_src_rect_outside cc info i.
Proof.
  unfold present_swapchain, present_entry_src_rect_outside,
    present_entry_image.
  intros H.
  w_inv; rewrite ?reported_app; simpl;
    repeat match goal with
      | E : ?a = Some _ |- context [?a] => rewrite E; simpl
      | E : ?a = None |- context [?a] => rewrite E; simpl
      | E : (_ <=? _)%Z = _ |- _ => rewrite E; simpl
      | E : negb (acquired _) = true |- _ =>
          apply negb_true_iff in E; rewrite E; simpl
      | E : negb (acquired _) = false |- _ =>
          apply negb_false_iff in E; rewrite E; simpl
      end;
    repeat match goal with
      | Hl : for_each _ (present_layout _ _ _ _) _ = Some (_, ?l)
        |- context [reported _ ?l] =>
          rewrite (present_layouts_class _ _ _ _ _ _ _ _
                     is_DisplaySrcRect (fun _ _ => eq_refl) Hl)
      | Hd : present_display_info _ _ _ _ _ = Some (_, ?l)
        |- context [reported _ ?l] =>
          rewrite (present_display_info_reported _ _ _ _ _ _ _ Hd)
      end;
    simpl; rewrite ?orb_false_r;
    try reflexivity;
    destruct (LvlFindInChain as_VkDisplayPresentInfoKHR
                (VkPresentInfoKHR.pNext info)); reflexivity.
Qed.

Lemma display_src_rect_outside_iff (r : VkRect2D) (e : VkExtent2D) :
  (0 <= width (rect2d_extent r))%Z -> (0 <= height (rect2d_extent r))%Z ->
  (x (rect2d_offset r) + width (rect2d_extent r) <= UINT32_MAX)%Z ->
  (y (rect2d_offset r) + height (rect2d_extent r) <= UINT32_MAX)%Z ->
  display_src_rect_outside r e = true <->
  (x (rect2d_offset r) < 0)%Z \/ (y (rect2d_offset r) < 0)%Z
  \/ (width e < x (rect2d_offset r) + width (rect2d_extent r))%Z
  \/ (height e < y (rect2d_offset r) + height (rect2d_extent r))%Z.
Proof.
  intros Hw Hh Hxw Hyh. unfold display_src_rect_outside.
  rewrite !orb_true_iff, !Z.ltb_lt.
  destruct (Z.lt_ge_cases (x (rect2d_offset r)) 0) as [Hx | Hx];
    [tauto |].
  destruct (Z.lt_ge_cases (y (rect2d_offset r)) 0) as [Hy | Hy];
    [tauto |].
  rewrite !wrap32_small by lia. tauto.
Qed.

(** X29.  The source-rectangle error of a display present is reported
    exactly when, for some entry of the call whose image passed the index
    and acquisition checks, the rectangle of the [VkDisplayPresentInfoKHR]
    has a negative offset component or its [uint32_t] sum of offset and
    extent exceeds the image's width or height; for sums that fit 32 bits
    this says that the rectangle does not lie inside the image.  Without
    the structure in the chain, or without such an entry, it is not
    reported.  A well-formed call is validated to completion. *)
Theorem present_display_src_rect ext cc queue info :
  (present_well_formed cc queue info = true ->
   is_Some (PreCallValidateQueuePresentKHR ext cc queue info))
  /\ forall skip log,
      PreCallValidateQueuePresentKHR ext cc queue info = Some (skip, log) ->
      (reported is_DisplaySrcRect log = true <->
       exists i ist display_present_info,
         (i < VkPresentInfoKHR.swapchainCount info)%nat
         /\ present_entry_image cc info i = Some ist
         /\ LvlFindInChain as_VkDisplayPresentInfoKHR
              (VkPresentInfoKHR.pNext info) = Some display_present_info
         /\ display_src_rect_outside (srcRect display_present_info)
              (image_extent ist) = true)
      /\ forall r e,
           (0 <= width (rect2d_extent r))%Z ->
           (0 <= height (rect2d_extent r))%Z ->
           (x (rect2d_offset r) + width (rect2d_extent r) <= UINT32_MAX)%Z ->
           (y (rect2d_offset r) + height (rect2d_extent r) <= UINT32_MAX)%Z ->
           (display_src_rect_outside r e = true <->
            (x (rect2d_offset r) < 0)%Z \/ (y (rect2d_offset r) < 0)%Z
            \/ (width e < x (rect2d_offset r) + width (rect2d_extent r))%Z
            \/ (height e
                < y (rect2d_offset r) + height (rect2d_extent r))%Z).
Proof.
  split; [apply PreCallValidateQueuePresentKHR_defined |].
  intros skip log Hrun. split; [| apply display_src_rect_outside_iff].
  destruct (PreCallValidateQueuePresentKHR_blocks _ _ _ _ _ _ Hrun)
    as (qs & flags & s1 & sems & l1 & s2 & l2 & s3 & l3 & s4 & l4 & l5
        & _ & _ & Hsw & _ & _ & _ & B1 & B2 & B3 & B4 & B5 & _ & ->).
  rewrite (reported_block_log is_DisplaySrcRect Block_images)
    by (auto; intros []; simpl; congruence).
  simpl. unfold for_range in Hsw.
  rewrite (for_each_reported_exists _ _ _ _ _ is_DisplaySrcRect
             (present_entry_src_rect_outside cc info)) with (2 := Hsw).
  - rewrite existsb_exists. unfold present_entry_src_rect_outside. split.
    + intros (i & Hi & Hc). apply in_seq in Hi.
      destruct (present_entry_image cc info i) as [ist|] eqn:Himg;
        [| discriminate Hc].
      destruct (LvlFindInChain as_VkDisplayPresentInfoKHR
                  (VkPresentInfoKHR.pNext info)) as [dpi|] eqn:Hfind;
        [| discriminate Hc].
      exists i, ist, dpi. split; [lia |]. auto.
    + intros (i & ist & dpi & Hi & Himg & Hfind & Hc).
      exists i. split; [apply in_seq; lia |]. rewrite Himg, Hfind. exact Hc.
  - intros j s0 s1' l0 _ Hb.
    eapply present_swapchain_src_rect_reported; exact Hb.
Qed.

(* ===================================================================== *)
(** * The further properties at the test devices *)
(* ===================================================================== *)

Lemma BindPipeline_commute_witness :
  BindPoint_Graphics <> BindPoint_Compute
  /\ BindPipeline BindPoint_Graphics 5
       (BindPipeline BindPoint_Compute 6 (example_command_buffer 0))
     = BindPipeline BindPoint_Compute 6
         (BindPipeline BindPoint_Graphics 5 (example_command_buffer 0)).
Proof.
  split; [discriminate |].
  apply (BindPipeline_commute (example_command_buffer 0) BindPoint_Graphics
           BindPoint_Compute 5 6).
  discriminate.
Defined.

Lemma release_acquire_not_both_witness :
  let q := {| srcQueueFamilyIndex := 1; dstQueueFamilyIndex := 2 |} in
  barrier_families (ImageMemoryBarrier q) = Some q
  /\ srcQueueFamilyIndex q <> dstQueueFamilyIndex q
  /\ IsReleaseOp IsTransferOp_spec (example_command_buffer 1)
       (ImageMemoryBarrier q) = true
  /\ IsReleaseOp IsTransferOp_spec (example_command_buffer 1)
       (ImageMemoryBarrier q)
     && IsAcquireOp IsTransferOp_spec (example_command_buffer 1)
          (ImageMemoryBarrier q) = false.
Proof.
  intros q. split; [reflexivity |]. split; [discriminate |].
  split; [reflexivity |].
  apply (release_acquire_not_both IsTransferOp_spec (example_command_buffer 1)
           (ImageMemoryBarrier q) q eq_refl).
  discriminate.
Defined.

Lemma DynamicAttachmentImageIndex_injective_witness :
  let cb := example_command_buffer_rendering 0 in
  GetDynamicColorAttachmentCount example_render_pass_state cb = 2%Z
  /\ DynamicAttachment_valid 2 (DynamicColorResolve 1)
  /\ DynamicAttachmentImageIndex example_render_pass_state cb
       (DynamicColorResolve 1) = 3%Z
  /\ (0 <= DynamicAttachmentImageIndex example_render_pass_state cb
             (DynamicColorResolve 1) < 8)%Z
  /\ (DynamicAttachmentImageIndex example_render_pass_state cb
        (DynamicColorResolve 1)
      = DynamicAttachmentImageIndex example_render_pass_state cb DynamicDepth ->
      DynamicColorResolve 1 = DynamicDepth).
Proof.
  intros cb. split; [reflexivity |].
  assert (Hvalid : DynamicAttachment_valid 2 (DynamicColorResolve 1))
    by (simpl; lia).
  split; [exact Hvalid |]. split; [reflexivity |].
  destruct (DynamicAttachmentImageIndex_injective example_render_pass_state cb
              (DynamicColorResolve 1)
              ltac:(vm_compute; split; discriminate) Hvalid)
    as [Hrange Hinj].
  split; [exact Hrange |]. apply (Hinj DynamicDepth I).
Defined.

Lemma IsExtentInsideBounds_monotone_witness :
  let extent := {| width := 100; height := 50 |} in
  let tight_min := {| width := 100; height := 50 |} in
  let tight_max := {| width := 100; height := 50 |} in
  let loose_min := {| width := 1; height := 1 |} in
  let loose_max := {| width := 4096; height := 4096 |} in
  IsExtentInsideBounds extent tight_min tight_max = true
  /\ IsExtentInsideBounds extent loose_min loose_max = true
  /\ IsExtentInsideBounds extent loose_max loose_min = false.
Proof.
  intros extent tight_min tight_max loose_min loose_max.
  split; [reflexivity |]. split.
  - apply (IsExtentInsideBounds_monotone extent tight_min tight_max loose_min
             loose_max); simpl; try lia. reflexivity.
  - apply (IsExtentInsideBounds_monotone extent loose_max loose_min loose_max
             loose_min); simpl; lia.
Defined.

(** A rectangle on layer 2 of a swapchain with one array layer is reported;
    on layer 1, the layer count itself, it is not. *)
Lemma present_rectangle_layer_witness :
  let sd := example_swapchain false example_images 2 2 5 1 in
  let cc := example_device sd in
  let rect l :=
    {| offset := {| x := 0; y := 0 |};
       extent := {| width := 10; height := 10 |};
       layer := l |} in
  let info l := example_present [example_present_regions [rect l]] 0 in
  present_well_formed cc 7 (info 2%Z) = true
  /\ (exists skip log,
        PreCallValidateQueuePresentKHR example_collaborators cc 7 (info 2%Z)
        = Some (skip, log)
        /\ reported (is_RectLayer 0 0) log = true)
  /\ (exists skip log,
        PreCallValidateQueuePresentKHR example_collaborators cc 7 (info 1%Z)
        = Some (skip, log)
        /\ reported (is_RectLayer 0 0) log = false).
Proof.
  intros sd cc rect info. split; [reflexivity |].
  assert (H : forall l,
            exists skip log,
              PreCallValidateQueuePresentKHR example_collaborators cc 7 (info l)
              = Some (skip, log)
              /\ (reported (is_RectLayer 0 0) log = true <-> (1 < l)%Z)).
  { intros l.
    destruct (present_rectangle_layer example_collaborators cc 7 (info l)
                {| VkPresentRegionsKHR.swapchainCount := 1;
                   VkPresentRegionsKHR.pRegions :=
                     [ {| rectangleCount := 1; pRectangles := [rect l] |} ] |}
                0%nat 0%nat 1%Z sd
                {| rectangleCount := 1; pRectangles := [rect l] |} (rect l)
                eq_refl (Nat.lt_0_succ 0) eq_refl eq_refl eq_refl
                (Nat.lt_0_succ 0) eq_refl)
      as (Hdef & Hprop).
    destruct (Hdef eq_refl) as [[skip log] E].
    exists skip, log. split; [exact E | exact (Hprop skip log E)]. }
  split.
  - destruct (H 2%Z) as (skip & log & E & Hiff).
    exists skip, log. split; [exact E |]. apply Hiff. reflexivity.
  - destruct (H 1%Z) as (skip & log & E & Hiff).
    exists skip, log. split; [exact E |].
    destruct (reported (is_RectLayer 0 0) log); [| reflexivity].
    discriminate (proj1 Hiff eq_refl).
Defined.

(** A present call naming the registered swapchain 1 and the unregistered
    handle 5. *)
Lemma present_unregistered_swapchain_skipped_witness :
  let sd := example_swapchain false example_images 2 2 5 1 in
  let cc := example_device sd in
  let info := example_present_on [] [1%Z; 5%Z] [0%Z; 9%Z] [] in
  VkPresentInfoKHR.pSwapchains info !! 1%nat = Some 5%Z
  /\ Get_SWAPCHAIN_NODE cc 5 = None
  /\ present_well_formed cc 7 info = true
  /\ exists skip log,
      PreCallValidateQueuePresentKHR example_collaborators cc 7 info
      = Some (skip, log)
      /\ reported (is_present_entry 1) log = false.
Proof.
  intros sd cc info. split; [reflexivity |]. split; [reflexivity |].
  split; [reflexivity |].
  destruct (present_unregistered_swapchain_skipped example_collaborators cc 7
              info 1%nat 5%Z eq_refl eq_refl) as (Hdef & Hprop).
  destruct (Hdef eq_refl) as [[skip log] E].
  exists skip, log. split; [exact E | exact (Hprop skip log E)].
Defined.

(** Presenting to the swapchain of the surface that no queue family
    supports. *)
Lemma present_queue_support_witness :
  let info := example_present_on [] [2%Z] [0%Z] [] in
  Get_SWAPCHAIN_NODE example_device2 2 = Some example_retired_swapchain
  /\ Get_QUEUE_STATE example_device2 7 = Some {| queue_family := 0 |}
  /\ present_well_formed example_device2 7 info = true
  /\ exists skip log,
      PreCallValidateQueuePresentKHR example_collaborators example_device2 7
        info = Some (skip, log)
      /\ reported (is_QueueCannotPresent 0) log = true.
Proof.
  intros info. split; [reflexivity |]. split; [reflexivity |].
  split; [reflexivity |].
  destruct (present_queue_support example_collaborators example_device2 7 info
              0%nat 2%Z example_retired_swapchain {| queue_family := 0 |}
              (Nat.lt_0_succ 0) eq_refl eq_refl eq_refl) as (Hdef & Hprop).
  destruct (Hdef eq_refl) as [[skip log] E].
  exists skip, log. split; [exact E |].
  apply (Hprop skip log E). split; [reflexivity |].
  exists example_unsupported_surface. split; reflexivity.
Defined.

(** A non-zero present id on a device without the [presentId] feature. *)
Lemma present_id_needs_feature_witness :
  let info := example_present_on [] [1%Z] [0%Z] [example_present_id 7] in
  presentId (tracker example_device2) = false
  /\ present_well_formed example_device2 7 info = true
  /\ exists skip log,
      PreCallValidateQueuePresentKHR example_collaborators example_device2 7
        info = Some (skip, log)
      /\ reported (is_PresentIdFeature 0) log = true.
Proof.
  intros info. split; [reflexivity |]. split; [reflexivity |].
  destruct (present_id_needs_feature example_collaborators example_device2 7
              info
              {| VkPresentIdKHR.swapchainCount := 1;
                 VkPresentIdKHR.pPresentIds := [7%Z] |}
              0%nat 7%Z eq_refl (Nat.lt_0_succ 0) eq_refl) as (Hdef & Hprop).
  destruct (Hdef eq_refl) as [[skip log] E].
  exists skip, log. split; [exact E |].
  apply (Hprop skip log E). split; [reflexivity | discriminate].
Defined.

(** A [VkPresentIdKHR] with no entry in a present call with one
    swapchain. *)
Lemma present_extension_counts_witness :
  let sd := example_swapchain false example_images 2 2 5 1 in
  let cc := example_device sd in
  let ids := {| VkPresentIdKHR.swapchainCount := 0;
                VkPresentIdKHR.pPresentIds := [] |} in
  let info := example_present [PNext_VkPresentIdKHR ids] 0 in
  exists skip log,
    PreCallValidateQueuePresentKHR example_collaborators cc 7 info
    = Some (skip, log)
    /\ reported is_PresentIdCount log = true
    /\ reported is_PresentTimesCount log = false.
Proof.
  intros sd cc ids info.
  destruct (PreCallValidateQueuePresentKHR example_collaborators cc 7 info)
    as [[skip log]|] eqn:E; [| vm_compute in E; discriminate E].
  exists skip, log. split; [reflexivity |].
  destruct (present_extension_counts example_collaborators cc 7 info skip log E)
    as [Hids Htimes].
  split.
  - apply Hids. exists ids. split; [reflexivity | discriminate].
  - destruct (reported is_PresentTimesCount log); [| reflexivity].
    destruct (proj1 Htimes eq_refl) as (t & Ht & _). discriminate Ht.
Defined.

(** Waiting on the timeline semaphore 30 in a present call. *)
Lemma present_wait_semaphore_type_witness :
  let info := example_present_on [30%Z] [1%Z] [0%Z] [] in
  present_well_formed example_device2 7 info = true
  /\ exists skip log,
      PreCallValidateQueuePresentKHR example_collaborators example_device2 7
        info = Some (skip, log)
      /\ reported (is_WaitSemaphoreNotBinary 0) log = true.
Proof.
  intros info. split; [reflexivity |].
  destruct (present_wait_semaphore_type example_collaborators example_device2 7
              info 0%nat 30%Z (Nat.lt_0_succ 0) eq_refl) as (Hdef & Hprop).
  destruct (Hdef eq_refl) as [[skip log] E].
  exists skip, log. split; [exact E |].
  apply (Hprop skip log E). eexists. split; [reflexivity | discriminate].
Defined.

(** Acquiring from the unregistered handle 5 with an infinite timeout. *)
Lemma acquire_unregistered_swapchain_witness :
  let sd := example_swapchain true example_images 3 2 0 1 in
  Get_SWAPCHAIN_NODE (example_device sd) 5 = None
  /\ exists skip log,
      ValidateAcquireNextImage example_collaborators (example_device sd)
        ACQUIRE_VERSION_1 5 UINT64_MAX 0 0 "vkAcquireNextImageKHR"
        "VUID-vkAcquireNextImageKHR-semaphore-03265" = Some (skip, log)
      /\ reported is_AcquireRetired log = false
      /\ reported is_TooManyAcquired log = false.
Proof.
  intros sd. split; [reflexivity |].
  apply (acquire_unregistered_swapchain example_collaborators
           (example_device sd) ACQUIRE_VERSION_1 5 UINT64_MAX 0 0
           "vkAcquireNextImageKHR"
           "VUID-vkAcquireNextImageKHR-semaphore-03265" eq_refl).
Defined.

(** Creating a swapchain on the surface that no queue can present to, with
    the retired swapchain 2 as [oldSwapchain]: the validation returns after
    the first record. *)
Lemma create_swapchain_unsupported_surface_witness :
  let pCreateInfo := example_create_info_on 11 2 in
  vk_khr_android_surface (tracker example_device2) = false
  /\ LogError_result example_collaborators
       (create_surface_record example_device2 "vkCreateSwapchainKHR()"
          example_unsupported_surface) = true
  /\ ValidateCreateSwapchain example_collaborators example_device2
       "vkCreateSwapchainKHR()" pCreateInfo (Some example_unsupported_surface)
       (Some example_retired_swapchain)
     = Some (true,
             [create_surface_record example_device2 "vkCreateSwapchainKHR()"
                example_unsupported_surface]).
Proof.
  intros pCreateInfo. split; [reflexivity |]. split; [reflexivity |].
  apply (create_swapchain_unsupported_surface example_collaborators
           example_device2 "vkCreateSwapchainKHR()" pCreateInfo
           example_unsupported_surface (Some example_retired_swapchain)
           eq_refl (fun _ _ _ => eq_refl)).
  reflexivity.
Defined.

(** Creating a swapchain on surface 10 with the retired swapchain 2, made
    for surface 11, as [oldSwapchain], while [LogError] never asks to
    return: both errors are reported. *)
Lemma create_swapchain_old_swapchain_rules_witness :
  let pCreateInfo := example_create_info_on 10 2 in
  (forall r, LogError_result example_collaborators_continue r = false)
  /\ is_Some (Get_SURFACE_STATE example_device2 (surface pCreateInfo))
  /\ exists skip log,
      PreCallValidateCreateSwapchainKHR example_collaborators_continue
        example_device2 pCreateInfo = Some (skip, log)
      /\ reported is_OldSwapchainSurface log = true
      /\ reported is_OldSwapchainRetired log = true
      /\ skip = false.
Proof.
  intros pCreateInfo. split; [reflexivity |].
  assert (Hs : is_Some (Get_SURFACE_STATE example_device2
                          (surface pCreateInfo)))
    by (eexists; reflexivity).
  split; [exact Hs |].
  destruct (create_swapchain_old_swapchain_rules example_collaborators_continue
              example_device2 pCreateInfo (fun _ => eq_refl) (or_intror Hs))
    as (skip & log & E & Hsurf & Hret & Hskip).
  exists skip, log. split; [exact E |]. split; [| split; [| exact Hskip]].
  - apply Hsurf. exists example_retired_swapchain.
    split; [reflexivity | discriminate].
  - apply Hret. exists example_retired_swapchain. split; reflexivity.
Defined.

(** Two shared swapchains: the first create info makes the validation of
    its entry return at once, the second is validated all the same. *)
Lemma create_shared_swapchains_validates_each_witness :
  let infos := [example_create_info_on 11 0; example_create_info_on 10 2] in
  exists skip log b l,
    PreCallValidateCreateSharedSwapchainsKHR example_collaborators
      example_device2 2 (Some infos) = Some (skip, log)
    /\ ValidateCreateSwapchain example_collaborators example_device2
         "vkCreateSharedSwapchainsKHR[2]()" (example_create_info_on 10 2)
         (Get_SURFACE_STATE example_device2 10)
         (Get_SWAPCHAIN_NODE example_device2 2) = Some (b, l)
    /\ l <> []
    /\ (forall r, In r l -> In r log)
    /\ (b = true -> skip = true).
Proof.
  intros infos.
  destruct (PreCallValidateCreateSharedSwapchainsKHR example_collaborators
              example_device2 2 (Some infos)) as [[skip log]|] eqn:E;
    [| vm_compute in E; discriminate E].
  destruct (create_shared_swapchains_validates_each example_collaborators
              example_device2 2 infos skip log 1%nat
              (example_create_info_on 10 2) E (Nat.lt_succ_diag_r 1) eq_refl)
    as (b & l & Hv & Hsub & Hskip).
  exists skip, log, b, l. split; [reflexivity |].
  split; [exact Hv |]. split; [| split; [exact Hsub | exact Hskip]].
  vm_compute in Hv. injection Hv as _ <-. discriminate.
Defined.

(** Three images are returned for a swapchain whose first two image records
    are tracked: only the third image is initialised. *)
Lemma get_swapchain_images_initialises_new_witness :
  let sd := example_swapchain false example_images 2 2 0 1 in
  let cc := example_device sd in
  exists cc' initialised,
    PostCallRecordGetSwapchainImagesKHR example_hooks cc 1 3
      (Some [21%Z; 22%Z; 23%Z]) VK_SUCCESS = Some (cc', initialised)
    /\ new_swapchain_image_index (images sd) 0 3 = 2%nat
    /\ map image initialised = [23%Z].
Proof.
  intros sd cc.
  destruct (PostCallRecordGetSwapchainImagesKHR example_hooks cc 1 3
              (Some [21%Z; 22%Z; 23%Z]) VK_SUCCESS)
    as [[cc' initialised]|] eqn:E; [| vm_compute in E; discriminate E].
  exists cc', initialised. split; [reflexivity |]. split; [reflexivity |].
  destruct (get_swapchain_images_initialises_new example_hooks cc 1 3
              [21%Z; 22%Z; 23%Z] VK_SUCCESS sd cc' initialised eq_refl
              (or_introl eq_refl) E)
    as (_ & _ & _ & Hall & _).
  change (new_swapchain_image_index (images sd) 0 3) with 2%nat in Hall.
  simpl in Hall.
  inversion Hall as [| i ist rest inits (h & Hh & Hget) Hrest]; subst.
  inversion Hrest; subst.
  simpl in Hh. injection Hh as <-. simpl in Hget. injection Hget as <-.
  reflexivity.
Defined.

(** A display present whose source rectangle starts left of the image. *)
Lemma present_display_src_rect_witness :
  let sd := example_swapchain false example_images 2 2 5 1 in
  let cc := example_device sd in
  let info := example_present [example_display_present (-1) 0 10 10] 0 in
  present_well_formed cc 7 info = true
  /\ exists skip log,
      PreCallValidateQueuePresentKHR example_collaborators cc 7 info
      = Some (skip, log)
      /\ reported is_DisplaySrcRect log = true.
Proof.
  intros sd cc info. split; [reflexivity |].
  destruct (present_display_src_rect example_collaborators cc 7 info)
    as (Hdef & Hprop).
  destruct (Hdef eq_refl) as [[skip log] E].
  exists skip, log. split; [exact E |].
  apply (proj1 (Hprop skip log E)).
  eexists 0%nat, _, _.
  split; [apply Nat.lt_0_succ |]. split; [reflexivity |].
  split; reflexivity.
Defined.

(** Destroying the null handle and the unregistered handle 5. *)
Lemma destroy_swapchain_only_erases_witness :
  let sd := example_swapchain false example_images 2 2 0 1 in
  let cc := example_device sd in
  qfo_release_image_barrier_map
    (PreCallRecordDestroySwapchainKHR example_collaborators cc 0)
  = qfo_release_image_barrier_map cc
  /\ qfo_release_image_barrier_map
       (PreCallRecordDestroySwapchainKHR example_collaborators cc 5)
     = qfo_release_image_barrier_map cc
  /\ qfo_release_image_barrier_map
       (PreCallRecordDestroySwapchainKHR example_collaborators cc 1)
       !! 99%Z = Some [].
Proof.
  intros sd cc. split; [| split].
  - apply (destroy_swapchain_only_erases example_collaborators cc 0).
    left. reflexivity.
  - apply (destroy_swapchain_only_erases example_collaborators cc 5).
    right. reflexivity.
  - reflexivity.
Defined.

(** The physical device without queue families does not support surface
    10. *)
Lemma physical_device_surface_support_witness :
  snd (ValidatePhysicalDeviceSurfaceSupport example_queries example_device2
         201 10 "VUID-vkGetPhysicalDeviceSurfaceFormatsKHR-surface-06211"
         "vkGetPhysicalDeviceSurfaceFormatsKHR") <> []
  /\ snd (ValidatePhysicalDeviceSurfaceSupport example_queries example_device2
            200 10 "VUID-vkGetPhysicalDeviceSurfaceFormatsKHR-surface-06211"
            "vkGetPhysicalDeviceSurfaceFormatsKHR") = [].
Proof.
  split.
  - apply (physical_device_surface_support example_queries example_device2
             201 10 "VUID-vkGetPhysicalDeviceSurfaceFormatsKHR-surface-06211"
             "vkGetPhysicalDeviceSurfaceFormatsKHR").
    eexists _, _. split; [reflexivity |]. split; [reflexivity |].
    intros i Hi. simpl in Hi. inversion Hi.
  - reflexivity.
Defined.

(** The group of the two physical devices: the record of device 201 is in
    the log. *)
Lemma device_group_surface_present_modes_witness :
  exists skip log,
    PreCallValidateGetDeviceGroupSurfacePresentModesKHR example_queries
      example_device2 10 = Some (skip, log)
    /\ In {| qlog_objects := [201%Z];
             qlog_vuid :=
               "VUID-vkGetDeviceGroupSurfacePresentModesKHR-surface-06212";
             qlog_message :=
               QMsg_SurfaceNotSupported
                 "vkGetDeviceGroupSurfacePresentModesKHR" |} log.
Proof.
  destruct (device_group_surface_present_modes example_queries example_device2
              10) as (_ & _ & Hgroup).
  destruct (Hgroup ltac:(discriminate) (Nat.le_refl 2))
    as (skip & log & E & Hlog).
  exists skip, log. split; [exact E |].
  apply Hlog. exists 1%nat, 201%Z.
  split; [apply Nat.lt_succ_diag_r |]. split; [reflexivity |].
  left. reflexivity.
Defined.

(** Two planes were returned for physical device 200: plane index 2 is
    reported, plane index 1 is not; physical device 999 is not
    registered. *)
Lemma display_plane_index_rules_witness :
  (exists skip log,
     ValidateGetPhysicalDeviceDisplayPlanePropertiesKHRQuery example_queries
       200 2 "vkGetDisplayPlaneCapabilitiesKHR" = Some (skip, log)
     /\ log <> [])
  /\ ValidateGetPhysicalDeviceDisplayPlanePropertiesKHRQuery example_queries
       200 1 "vkGetDisplayPlaneCapabilitiesKHR" = Some (false, [])
  /\ ValidateGetPhysicalDeviceDisplayPlanePropertiesKHRQuery example_queries
       999 0 "vkGetDisplayPlaneCapabilitiesKHR" = None.
Proof.
  destruct (display_plane_index_rules example_queries 200 2
              "vkGetDisplayPlaneCapabilitiesKHR") as (_ & Hreg & _).
  destruct (Hreg _ eq_refl) as (skip & log & E & Hiff & _).
  split; [| split].
  - exists skip, log. split; [exact E |]. apply Hiff.
    split; [reflexivity | discriminate].
  - reflexivity.
  - apply (proj1 (display_plane_index_rules example_queries 999 0
                    "vkGetDisplayPlaneCapabilitiesKHR")).
    reflexivity.
Defined.

(** A display surface as wide as the limit, in global alpha mode on a plane
    that supports opaque alpha only: the width and the alpha mode are
    reported, the height and the plane index are not. *)
Lemma create_display_plane_surface_rules_witness :
  exists skip log,
    PreCallValidateCreateDisplayPlaneSurfaceKHR example_queries
      example_display_surface = Some (skip, log)
    /\ query_reported is_QMsg_Width log = true
    /\ query_reported is_QMsg_Height log = false
    /\ query_reported is_QMsg_CreatePlaneIndex log = false
    /\ query_reported is_QMsg_AlphaMode log = true
    /\ query_reported is_QMsg_GlobalAlpha log = false.
Proof.
  destruct (create_display_plane_surface_rules example_queries
              example_display_surface) as (Hreg & _).
  destruct (Hreg {| dm_physical_device := 200 |}
              {| pd_queue_family_properties := [1%Z; 2%Z];
                 vkGetPhysicalDeviceDisplayPlanePropertiesKHR_called := true;
                 display_plane_property_count := 2 |} eq_refl eq_refl)
    as (skip & log & E & Hw & Hh & Hp & Ha).
  exists skip, log. split; [exact E |].
  split; [exact Hw |]. split; [exact Hh |]. split; [exact Hp |].
  split; [exact Ha |].
  vm_compute in E. injection E as _ <-. reflexivity.
Defined.
